(** * wk: week planner -- day resolution, time ranges, tags, week arithmetic,
      ordering and the store mutations of [main.go].

    Strings are Go strings seen as byte sequences ([string] of [ascii]).
    [time.Time] values are used by the program at day granularity only and
    are modelled by their absolute day number. The SQLite table [blocks] is
    a list of rows. *)

From Stdlib Require Import ZArith Ascii String List Bool Lia Permutation.
From Stdlib Require Import DecimalString DecimalPos DecimalZ OrderedTypeEx.
From stdpp Require Import base list strings gmap sorting.

Open Scope string_scope.
Open Scope Z_scope.

(* String concatenation unfolds on a literal prefix. *)
#[local] Arguments String.append !s1 s2.

(** ** Go's [strings] package, on byte strings

    [ToLower] and [TrimSpace] are [strings.ToLower] and [strings.TrimSpace]
    on ASCII text, which is what the day names, dates, times and hashtags
    of the program are made of. Outside ASCII the library lowers every
    letter and trims every white space of Unicode, from tables that are not
    part of the program: there the two functions are parameters, see
    [Go.extractTags] below. *)

Module Strings.

(** ASCII classes of Go's regexp syntax: [\d] is [0-9], [\w] is [0-9A-Za-z_]. *)
Definition between (lo hi c : ascii) : bool :=
  (N_of_ascii lo <=? N_of_ascii c)%N && (N_of_ascii c <=? N_of_ascii hi)%N.

Definition isDigit (c : ascii) : bool := between "0" "9" c.
Definition isUpper (c : ascii) : bool := between "A" "Z" c.
Definition isLower (c : ascii) : bool := between "a" "z" c.
Definition isWord (c : ascii) : bool :=
  isDigit c || isUpper c || isLower c || Ascii.eqb c "_".

(** White space as [strings.TrimSpace] sees it in ASCII text:
    tab, line feed, vertical tab, form feed, carriage return, space. *)
Definition isSpace (c : ascii) : bool :=
  between "009" "013" c || Ascii.eqb c " ".

(** [strings.ToLower] on ASCII text: the letters A-Z are mapped, every
    other byte is kept. *)
Definition lowerChar (c : ascii) : ascii :=
  if isUpper c then ascii_of_N (N_of_ascii c + 32) else c.

Fixpoint ToLower (s : string) : string :=
  match s with
  | EmptyString => EmptyString
  | String c r => String (lowerChar c) (ToLower r)
  end.

Fixpoint trimLeft (s : string) : string :=
  match s with
  | EmptyString => EmptyString
  | String c r => if isSpace c then trimLeft r else s
  end.

Fixpoint trimRight (s : string) : string :=
  match s with
  | EmptyString => EmptyString
  | String c r =>
      match trimRight r with
      | EmptyString => if isSpace c then EmptyString else String c EmptyString
      | r' => String c r'
      end
  end.

Definition TrimSpace (s : string) : string := trimRight (trimLeft s).

(** [strings.Split s sep] for a one-byte separator: the pieces between the
    occurrences of [sep], one more than there are occurrences. *)
Fixpoint Split (s : string) (sep : ascii) : list string :=
  match s with
  | EmptyString => [EmptyString]
  | String c r =>
      if Ascii.eqb c sep then EmptyString :: Split r sep
      else match Split r sep with
           | p :: ps => String c p :: ps
           | [] => [String c EmptyString]
           end
  end.

Fixpoint Join (elems : list string) (sep : string) : string :=
  match elems with
  | [] => EmptyString
  | [e] => e
  | e :: es => e +:+ sep +:+ Join es sep
  end.

Definition HasPrefix (s p : string) : bool := String.prefix p s.

Fixpoint Count (s : string) (c : ascii) : nat :=
  match s with
  | EmptyString => O
  | String d r => (if Ascii.eqb d c then 1 else 0)%nat + Count r c
  end.

End Strings.
Import Strings.

(** ** Go's [regexp], for the four patterns of the program *)

Module Regexp.

Inductive re : Type :=
| Void
| Eps
| Cls (p : ascii -> bool)
| Cat (r1 r2 : re)
| Alt (r1 r2 : re)
| Star (r : re).

Definition Lit (c : ascii) : re := Cls (Ascii.eqb c).
Definition Opt (r : re) : re := Alt r Eps.
Definition Plus (r : re) : re := Cat r (Star r).

Fixpoint nullable (r : re) : bool :=
  match r with
  | Void => false
  | Eps => true
  | Cls _ => false
  | Cat r1 r2 => nullable r1 && nullable r2
  | Alt r1 r2 => nullable r1 || nullable r2
  | Star _ => true
  end.

Fixpoint deriv (c : ascii) (r : re) : re :=
  match r with
  | Void => Void
  | Eps => Void
  | Cls p => if p c then Eps else Void
  | Cat r1 r2 =>
      if nullable r1 then Alt (Cat (deriv c r1) r2) (deriv c r2)
      else Cat (deriv c r1) r2
  | Alt r1 r2 => Alt (deriv c r1) (deriv c r2)
  | Star r1 => Cat (deriv c r1) (Star r1)
  end.

(** [MatchString] for a pattern written between [^] and [$]: the whole
    string is in the language. *)
Fixpoint MatchString (r : re) (s : string) : bool :=
  match s with
  | EmptyString => nullable r
  | String c s' => MatchString (deriv c r) s'
  end.

(** The words of a pattern. *)
Inductive lang : re -> string -> Prop :=
| lang_eps : lang Eps EmptyString
| lang_cls p c : p c = true -> lang (Cls p) (String c EmptyString)
| lang_cat r1 r2 s1 s2 : lang r1 s1 -> lang r2 s2 -> lang (Cat r1 r2) (s1 +:+ s2)
| lang_alt_l r1 r2 s : lang r1 s -> lang (Alt r1 r2) s
| lang_alt_r r1 r2 s : lang r2 s -> lang (Alt r1 r2) s
| lang_star_nil r : lang (Star r) EmptyString
| lang_star_cons r s1 s2 :
    lang r s1 -> lang (Star r) s2 -> lang (Star r) (s1 +:+ s2).

(** The longest prefix of [s] in the language of [r], with what follows
    it. [seen] is the prefix read so far, [best] the last position at
    which the pattern accepted. For a pattern without alternation, as
    [#(\w+)], this is the match Go's leftmost-first search reports at
    this position. *)
Fixpoint longest (r : re) (s : string) (seen : string)
    (best : option (string * string)) : option (string * string) :=
  let best' := if nullable r then Some (seen, s) else best in
  match s with
  | EmptyString => best'
  | String c s' => longest (deriv c r) s' (seen +:+ String c EmptyString) best'
  end.

Definition matchPrefix (r : re) (s : string) : option (string * string) :=
  longest r s EmptyString None.

(** One left-to-right pass over the string: the pieces of a
    [FindAllString] scan, matches ([inr]) and skipped bytes ([inl]).
    An empty match is never reported by the patterns used here, so a
    position without a non-empty match skips one byte. *)
Fixpoint scan (fuel : nat) (r : re) (s : string) : list (ascii + string) :=
  match fuel with
  | O => []
  | S fuel' =>
      match s with
      | EmptyString => []
      | String c s' =>
          match matchPrefix r s with
          | Some (String m ms, rest) => inr (String m ms) :: scan fuel' r rest
          | _ => inl c :: scan fuel' r s'
          end
      end
  end.

Definition pieces (r : re) (s : string) : list (ascii + string) :=
  scan (String.length s) r s.

(** The text a piece stands for. *)
Definition pieceText (p : ascii + string) : string :=
  match p with
  | inl c => String c EmptyString
  | inr m => m
  end.

Fixpoint flat (l : list string) : string :=
  match l with
  | [] => EmptyString
  | x :: r => x +:+ flat r
  end.

(** [FindAllString(s, -1)]: the matches, left to right. *)
Definition FindAllString (r : re) (s : string) : list string :=
  omap (fun p => match p with inr m => Some m | inl _ => None end) (pieces r s).

(** [ReplaceAllString(s, "")]: the bytes outside the matches. *)
Definition RemoveAll (r : re) (s : string) : string :=
  string_of_list_ascii
    (omap (fun p => match p with inl c => Some c | inr _ => None end) (pieces r s)).

Definition digit : re := Cls isDigit.
Definition word : re := Cls isWord.

(** [^\d{1,2}:\d{2}$] *)
Definition timeRegex : re :=
  Cat digit (Cat (Opt digit) (Cat (Lit ":") (Cat digit digit))).

(** [^\d{1,2}:\d{2}-\d{1,2}:\d{2}$] *)
Definition timeRangeRegex : re :=
  Cat digit (Cat (Opt digit) (Cat (Lit ":") (Cat digit (Cat digit
    (Cat (Lit "-")
       (Cat digit (Cat (Opt digit) (Cat (Lit ":") (Cat digit digit))))))))).

(** [^\d{4}-\d{2}-\d{2}$] *)
Definition dateRegex : re :=
  Cat digit (Cat digit (Cat digit (Cat digit (Cat (Lit "-")
    (Cat digit (Cat digit (Cat (Lit "-") (Cat digit digit)))))))).

(** [#(\w+)] *)
Definition hashtagRe : re := Cat (Lit "#") (Plus word).

End Regexp.
Import Regexp.

(** ** Errors of the commands

    The parsers build their errors with [fmt.Errorf]; the commands print
    them, or a message of their own, on the error output and exit with
    status 1. Each constructor stands for one message and carries the text
    echoed in it. *)

Inductive error : Type :=
| InvalidDay (input : string)
| InvalidDate (input : string)
| InvalidTimeRange (input : string)
| InvalidTimeFormat (input : string)
| NotFound (id : string)
| MissingArgument (what : string)
| Usage          (* too few arguments: the argument check or the usage line *)
| StoreError.    (* the database refused the statement *)

Definition message (e : error) : string :=
  match e with
  | InvalidDay s => "invalid day: " +:+ s
  | InvalidDate s => "invalid date format: " +:+ s
  | InvalidTimeRange s => "invalid time range: " +:+ s +:+ " (expected HH:MM-HH:MM)"
  | InvalidTimeFormat s => "invalid time format: " +:+ s +:+ " (expected HH:MM-HH:MM)"
  | NotFound id => "Block not found: " +:+ id
  | MissingArgument what => "Error: " +:+ what +:+ " required"
  | Usage => "Usage: wk"
  | StoreError => "Error"
  end.

Inductive result (A : Type) : Type :=
| Ok (a : A)
| Err (e : error).
Arguments Ok {A} a.
Arguments Err {A} e.

(** ** [parseTimeRange], [isTimeRange] *)

Definition normalize (t : string) : string :=
  if Nat.eqb (String.length t) 4 then "0" +:+ t else t.

Definition parseTimeRange (input : string) : result (string * string) :=
  match Split input "-" with
  | [p0; p1] =>
      let start := TrimSpace p0 in
      let end_ := TrimSpace p1 in
      if negb (MatchString timeRegex start) || negb (MatchString timeRegex end_)
      then Err (InvalidTimeFormat input)
      else Ok (normalize start, normalize end_)
  | _ => Err (InvalidTimeRange input)
  end.

Definition isTimeRange (s : string) : bool := MatchString timeRangeRegex s.

(** ** Go's [fmt] verbs [%d] and [%02d], and [Sscanf] on ["%d-W%d"] *)

Module Fmt.

(** [%d] *)
Definition itoa (n : Z) : string := NilZero.string_of_int (Z.to_int n).

(** [%02d]: zero-padded to width two, the sign counting for the width. *)
Definition itoa02 (n : Z) : string :=
  if (0 <=? n) && (n <? 10) then "0" +:+ itoa n else itoa n.

Fixpoint span (p : ascii -> bool) (s : string) : string * string :=
  match s with
  | EmptyString => (EmptyString, EmptyString)
  | String c r =>
      if p c then let '(a, b) := span p r in (String c a, b)
      else (EmptyString, s)
  end.

Fixpoint stripPrefix (p s : string) : option string :=
  match p with
  | EmptyString => Some s
  | String c p' =>
      match s with
      | EmptyString => None
      | String d s' => if Ascii.eqb c d then stripPrefix p' s' else None
      end
  end.

(** One [%d] of a scan: blanks are skipped, a sign is accepted, then the
    longest run of decimal digits is read; no digit is a failure. This is
    [Sscanf] on the keys the program prints and on numbers within Go's
    [int]: a number beyond [int] and a line feed before the number, on
    which [Sscanf] fails, are not modelled. *)
Definition scanInt (s : string) : option (Z * string) :=
  let s := trimLeft s in
  let '(neg, s1) :=
    match stripPrefix "-" s with
    | Some r => (true, r)
    | None => match stripPrefix "+" s with
              | Some r => (false, r)
              | None => (false, s)
              end
    end in
  let '(ds, rest) := span isDigit s1 in
  match NilEmpty.uint_of_string ds with
  | Some (Decimal.Nil) | None => None
  | Some u => Some (if neg : bool then - Z.of_uint u else Z.of_uint u, rest)
  end.

(** [fmt.Sscanf(week, "%d-W%d", &year, &weekNum)] with both variables
    declared just before: what is not scanned stays 0. *)
Definition sscanWeek (week : string) : Z * Z :=
  match scanInt week with
  | None => (0, 0)
  | Some (year, rest) =>
      match stripPrefix "-W" rest with
      | None => (year, 0)
      | Some rest' =>
          match scanInt rest' with
          | None => (year, 0)
          | Some (weekNum, _) => (year, weekNum)
          end
      end
  end.

(** [fmt.Sprintf("%d-W%02d", year, isoWeek)] *)
Definition weekKey (year isoWeek : Z) : string :=
  itoa year +:+ "-W" +:+ itoa02 isoWeek.

End Fmt.
Import Fmt.

(** ** Go's [time], at day granularity

    A [Time] is the number of days since January 1 of year 1 (a Monday in
    the proleptic Gregorian calendar), the day part of Go's absolute
    time: the calendar day that a clock reading or a parsed date falls on.
    [Date] and [AddDate] are the calendar arithmetic of [time.Date] and
    [t.AddDate] for the years 0..9999, where Go's count of seconds does not
    wrap; they are also what the two return in a location that keeps its
    midnights. The general case, in which the result depends on the
    location, is [Zone.Date] and [Zone.AddDate] below. *)

Module Time.

Definition Time : Type := Z.

Inductive Weekday : Type :=
| Sunday | Monday | Tuesday | Wednesday | Thursday | Friday | Saturday.

Definition weekdayNum (w : Weekday) : Z :=
  match w with
  | Sunday => 0 | Monday => 1 | Tuesday => 2 | Wednesday => 3
  | Thursday => 4 | Friday => 5 | Saturday => 6
  end.

Definition weekdayOfNum (n : Z) : Weekday :=
  match n with
  | 0 => Sunday | 1 => Monday | 2 => Tuesday | 3 => Wednesday
  | 4 => Thursday | 5 => Friday | _ => Saturday
  end.

(** [Weekday.String] *)
Definition weekdayString (w : Weekday) : string :=
  match w with
  | Sunday => "Sunday" | Monday => "Monday" | Tuesday => "Tuesday"
  | Wednesday => "Wednesday" | Thursday => "Thursday" | Friday => "Friday"
  | Saturday => "Saturday"
  end.

Definition isLeap (year : Z) : bool :=
  (year mod 4 =? 0) && (negb (year mod 100 =? 0) || (year mod 400 =? 0)).

(** [daysBefore[m]]: days of a non-leap year before month [m+1]. *)
Definition daysBefore : list Z :=
  [0; 31; 59; 90; 120; 151; 181; 212; 243; 273; 304; 334; 365].

Definition daysBeforeAt (m : Z) : Z := nth (Z.to_nat m) daysBefore 0.

Definition daysIn (month year : Z) : Z :=
  if (month =? 2) && isLeap year then 29
  else daysBeforeAt month - daysBeforeAt (month - 1).

Definition daysPer400Years : Z := 365 * 400 + 97.
Definition daysPer100Years : Z := 365 * 100 + 24.
Definition daysPer4Years : Z := 365 * 4 + 1.

(** Days from January 1 of year 1 to January 1 of [year], by whole
    cycles of 400, 100, 4 and 1 years. *)
Definition daysSinceEpoch (year : Z) : Z :=
  let y := year - 1 in
  let n := y / 400 in
  let y := y - 400 * n in
  let d := daysPer400Years * n in
  let n := y / 100 in
  let y := y - 100 * n in
  let d := d + daysPer100Years * n in
  let n := y / 4 in
  let y := y - 4 * n in
  let d := d + daysPer4Years * n in
  d + 365 * y.

(** The calendar day of [time.Date(year, month, day, 0, 0, 0, 0, loc)]
    for a month in 1..12, in a location where that midnight exists. *)
Definition Date (year month day : Z) : Time :=
  let d := daysSinceEpoch year + daysBeforeAt (month - 1) in
  let d := if isLeap year && (3 <=? month) then d + 1 else d in
  d + (day - 1).

(** The year of a day and the day's zero-based position in it. *)
Definition absDate (abs : Time) : Z * Z :=
  let d := abs in
  let n := d / daysPer400Years in
  let y := 400 * n in
  let d := d - daysPer400Years * n in
  let n := d / daysPer100Years in
  let n := n - Z.shiftr n 2 in
  let y := y + 100 * n in
  let d := d - daysPer100Years * n in
  let n := d / daysPer4Years in
  let y := y + 4 * n in
  let d := d - daysPer4Years * n in
  let n := d / 365 in
  let n := n - Z.shiftr n 2 in
  let y := y + n in
  let d := d - 365 * n in
  (y + 1, d).

(** Month and day of the month from the day of the year, in a leap year
    or not. *)
Definition monthDayOf (leap : bool) (yday : Z) : Z * Z :=
  let leapDay := leap && (yday =? 31 + 29 - 1) in
  let day := if leap && (31 + 29 - 1 <? yday) then yday - 1 else yday in
  if leapDay then (2, 29)
  else
    let month := day / 31 in
    let end_ := daysBeforeAt (month + 1) in
    if end_ <=? day then (month + 2, day - end_ + 1)
    else (month + 1, day - daysBeforeAt month + 1).

Definition monthDay (year yday : Z) : Z * Z := monthDayOf (isLeap year) yday.

Definition Year (t : Time) : Z := fst (absDate t).
Definition YearDay0 (t : Time) : Z := snd (absDate t).
Definition Month (t : Time) : Z := fst (monthDay (Year t) (YearDay0 t)).
Definition Day (t : Time) : Z := snd (monthDay (Year t) (YearDay0 t)).

(** [t.Weekday()]: day 0 is a Monday. *)
Definition weekday (t : Time) : Weekday := weekdayOfNum ((t + 1) mod 7).

(** [t.ISOWeek()]: the year and week of the Thursday of [t]'s week. *)
Definition ISOWeek (t : Time) : Z * Z :=
  let d := weekdayNum Thursday - weekdayNum (weekday t) in
  let d := if d =? 4 then -3 else d in
  let '(year, yday) := absDate (t + d) in
  (year, yday / 7 + 1).

(** The calendar day of [t.AddDate(0, 0, days)], in a location where
    the midnights exist. *)
Definition AddDate (t : Time) (days : Z) : Time := t + days.

Definition shortMonthNames : list string :=
  ["Jan"; "Feb"; "Mar"; "Apr"; "May"; "Jun";
   "Jul"; "Aug"; "Sep"; "Oct"; "Nov"; "Dec"].

(** [t.Format("Jan 2")] *)
Definition FormatJan2 (t : Time) : string :=
  nth (Z.to_nat (Month t - 1)) shortMonthNames "" +:+ " " +:+ itoa (Day t).

Definition digitVal (c : ascii) : Z := Z.of_N (N_of_ascii c) - 48.

(** [time.Parse("2006-01-02", s)], which the program calls on a token that
    matched the date pattern: four digits, two digits, two digits,
    separated by [-]; the month must be in 1..12 and the day within the
    month. *)
Definition Parse (s : string) : option Time :=
  match list_ascii_of_string s with
  | [y1; y2; y3; y4; s1; m1; m2; s2; d1; d2] =>
      if forallb isDigit [y1; y2; y3; y4; m1; m2; d1; d2]
         && Ascii.eqb s1 "-" && Ascii.eqb s2 "-"
      then
        let year := 1000 * digitVal y1 + 100 * digitVal y2
                    + 10 * digitVal y3 + digitVal y4 in
        let month := 10 * digitVal m1 + digitVal m2 in
        let day := 10 * digitVal d1 + digitVal d2 in
        if (month <? 1) || (12 <? month) then None
        else if (day <? 1) || (daysIn month year <? day) then None
        else Some (Date year month day)
      else None
  | _ => None
  end.

End Time.
Import Time.

(** ** [parseDay] *)

Definition days : list string :=
  ["monday"; "tuesday"; "wednesday"; "thursday"; "friday"; "saturday"; "sunday"].

(** [dayMap[d] = i] for the [i]-th name of [days]. *)
Definition dayMap : gmap string Z :=
  foldl (fun m p => <[p.2 := Z.of_nat p.1]> m) ∅ (imap (fun i d => (i, d)) days).

(** The clock is read once per call; [now] is that reading. *)
Definition parseDay (now : Time) (input : string) : result (string * string) :=
  let input := ToLower (TrimSpace input) in
  if String.eqb input "today" then
    let '(year, isoWeek) := ISOWeek now in
    Ok (weekKey year isoWeek, ToLower (weekdayString (weekday now)))
  else if MatchString dateRegex input then
    match Parse input with
    | None => Err (InvalidDate input)
    | Some t =>
        let '(year, isoWeek) := ISOWeek t in
        Ok (weekKey year isoWeek, ToLower (weekdayString (weekday t)))
    end
  else
    let nextWeek := HasPrefix input "+" in
    let input := if nextWeek then String.substring 1 (String.length input - 1) input
                 else input in
    match dayMap !! input with
    | None => Err (InvalidDay input)
    | Some _ =>
        let '(year, isoWeek) := ISOWeek now in
        let '(year, isoWeek) :=
          if nextWeek then
            let isoWeek := isoWeek + 1 in
            if 52 <? isoWeek then (year + 1, 1) else (year, isoWeek)
          else (year, isoWeek) in
        Ok (weekKey year isoWeek, input)
    end.

(** [isDayArg]: a day name or [today], with or without [+], or a date. *)
Definition isDayArg (s : string) : bool :=
  let s := ToLower (TrimSpace s) in
  existsb (fun d => String.eqb s d || String.eqb s ("+" +:+ d)) (days ++ ["today"])%list
  || MatchString dateRegex s
  || (HasPrefix s "+"
      && existsb (String.eqb (String.substring 1 (String.length s - 1) s)) days).

(** ** [getWeek], [weekDateRange], [dayDate] and the week links of [cmdServe] *)

Definition getWeek (now : Time) (weekFlag : string) (last next : bool) : string :=
  if negb (String.eqb weekFlag "") then weekFlag
  else
    let '(year, isoWeek) := ISOWeek now in
    let '(year, isoWeek) :=
      if last then
        let isoWeek := isoWeek - 1 in
        if isoWeek <? 1 then (year - 1, 52) else (year, isoWeek)
      else if next then
        let isoWeek := isoWeek + 1 in
        if 52 <? isoWeek then (year + 1, 1) else (year, isoWeek)
      else (year, isoWeek) in
    weekKey year isoWeek.

(** [firstMonday] of [weekDateRange] and [dayDate]. *)
Definition firstMonday (year : Z) : Time :=
  let jan1 := Date year 1 1 in
  let daysToMonday := weekdayNum Monday - weekdayNum (weekday jan1) in
  let daysToMonday := if 0 <? daysToMonday then daysToMonday - 7 else daysToMonday in
  AddDate jan1 daysToMonday.

(** [monday] of [weekDateRange] and [dayDate]: the Monday anchor of a week key. *)
Definition mondayOf (week : string) : Time :=
  let '(year, weekNum) := sscanWeek week in
  AddDate (firstMonday year) ((weekNum - 1) * 7).

Definition weekDateRange (week : string) : string :=
  let monday := mondayOf week in
  let sunday := AddDate monday 6 in
  FormatJan2 monday +:+ " - " +:+ FormatJan2 sunday.

Definition dayOffsets : gmap string Z :=
  <["monday" := 0]> (<["tuesday" := 1]> (<["wednesday" := 2]> (<["thursday" := 3]>
  (<["friday" := 4]> (<["saturday" := 5]> (<["sunday" := 6]> ∅)))))).

(** [targetDate] of [dayDate]; a name missing from the map reads as 0. *)
Definition targetDate (week day : string) : Time :=
  AddDate (mondayOf week) (default 0 (dayOffsets !! day)).

Definition dayDate (week day : string) : string := FormatJan2 (targetDate week day).

(** ** Go's [time] in a location

    [weekDateRange] and [dayDate] build their dates with [time.Date] in
    [time.Local] and step with [AddDate], which resolve a wall-clock
    reading in the location. An instant is counted here in seconds since
    January 1 of year 1, 00:00:00 UTC; a wall-clock reading is the same
    count taken on the local clock. Go's arithmetic does not wrap for the
    years 0..9999 of a week key. *)

Module Zone.

Definition secondsPerDay : Z := 86400.

(** A location as [Location.lookup] sees it: the offset from UTC, in
    seconds, in force before the first transition, and the transitions,
    oldest first, each with the instant from which its offset is in
    force. *)
Record Location : Type := mkLocation {
  initial : Z;
  transitions : list (Z * Z)
}.

(** [l.lookup(sec)]: the offset in force at [sec], and the instants at
    which that offset starts and ends to be in force; [None] stands for
    the beginning and the end of time. *)
Fixpoint lookupFrom (offset : Z) (start : option Z) (tx : list (Z * Z)) (sec : Z)
    : Z * option Z * option Z :=
  match tx with
  | [] => (offset, start, None)
  | (when, next) :: rest =>
      if sec <? when then (offset, start, Some when)
      else lookupFrom next (Some when) rest sec
  end.

Definition lookup (l : Location) (sec : Z) : Z * option Z * option Z :=
  lookupFrom (initial l) None (transitions l) sec.

(** [utc < start || utc >= end] *)
Definition outside (utc : Z) (start end_ : option Z) : bool :=
  match start with Some s => utc <? s | None => false end
  || match end_ with Some e => e <=? utc | None => false end.

(** The end of [time.Date]: from the reading [unix], taken as if in UTC,
    to the instant. The offset found at [unix] is tried first; when the
    instant it gives lies outside the period of that offset, the offset
    found at that instant is taken. *)
Definition fromWall (l : Location) (unix : Z) : Z :=
  let '(offset, start, end_) := lookup l unix in
  if offset =? 0 then unix
  else
    let utc := unix - offset in
    let offset := if outside utc start end_ then (lookup l utc).1.1 else offset in
    unix - offset.

(** The wall-clock reading of an instant: [t.abs()]. *)
Definition wall (l : Location) (t : Z) : Z := t + (lookup l t).1.1.

(** [time.Date(year, month, day, hour, min, sec, 0, l)] for a month in
    1..12, with [clock] the seconds [hour*3600 + min*60 + sec]. *)
Definition Date (l : Location) (year month day clock : Z) : Z :=
  fromWall l (Time.Date year month day * secondsPerDay + clock).

(** The calendar day and the clock that [t.Date()] and [t.Clock()] read. *)
Definition dayOf (l : Location) (t : Z) : Time := wall l t / secondsPerDay.
Definition clockOf (l : Location) (t : Z) : Z := wall l t mod secondsPerDay.

(** [t.AddDate(0, 0, days)]: the date and the clock of [t] are read and
    the time is built again with [Date], [days] added to the day. *)
Definition AddDate (l : Location) (t : Z) (days : Z) : Z :=
  let d := dayOf l t in
  Date l (Year d) (Month d) (Time.Day d + days) (clockOf l t).

(** [t.Weekday()] and [t.Format("Jan 2")] *)
Definition weekday (l : Location) (t : Z) : Weekday := Time.weekday (dayOf l t).
Definition FormatJan2 (l : Location) (t : Z) : string := Time.FormatJan2 (dayOf l t).

Definition UTC : Location := mkLocation 0 [].

(** The midnight that starts day [n] is a time of the location: [Date]
    returns an instant whose clock reads 0:00 of that day. It is not when
    the clocks are put forward at 0:00. *)
Definition keepsMidnight (l : Location) (n : Time) : Prop :=
  wall l (fromWall l (n * secondsPerDay)) = n * secondsPerDay.

End Zone.

(** [weekDateRange] and [dayDate] in a location. *)
Module Local.

Definition firstMonday (l : Zone.Location) (year : Z) : Z :=
  let jan1 := Zone.Date l year 1 1 0 in
  let daysToMonday := weekdayNum Monday - weekdayNum (Zone.weekday l jan1) in
  let daysToMonday := if 0 <? daysToMonday then daysToMonday - 7 else daysToMonday in
  Zone.AddDate l jan1 daysToMonday.

Definition mondayOf (l : Zone.Location) (week : string) : Z :=
  let '(year, weekNum) := sscanWeek week in
  Zone.AddDate l (firstMonday l year) ((weekNum - 1) * 7).

Definition weekDateRange (l : Zone.Location) (week : string) : string :=
  let monday := mondayOf l week in
  let sunday := Zone.AddDate l monday 6 in
  Zone.FormatJan2 l monday +:+ " - " +:+ Zone.FormatJan2 l sunday.

Definition targetDate (l : Zone.Location) (week day : string) : Z :=
  Zone.AddDate l (mondayOf l week) (default 0 (dayOffsets !! day)).

Definition dayDate (l : Zone.Location) (week day : string) : string :=
  Zone.FormatJan2 l (targetDate l week day).

End Local.

(** A location whose clocks are put forward from 0:00 to 1:00 on Sunday
    2026-03-08, as those of America/Havana are: five hours behind UTC
    until 05:00 UTC of that day, four hours from then. *)
Definition gapZone : Zone.Location :=
  Zone.mkLocation (-18000) [(Date 2026 3 8 * 86400 + 18000, -14400)].

(** A location one hour ahead of UTC all year. *)
Definition fixedZone : Zone.Location := Zone.mkLocation 3600 [].

(** [data.PrevWeek] and [data.NextWeek] of the web view. *)
Definition servePrevWeek (week : string) : string :=
  let '(year, weekNum) := sscanWeek week in
  let prevWeek := weekNum - 1 in
  let '(prevYear, prevWeek) := if prevWeek <? 1 then (year - 1, 52) else (year, prevWeek) in
  weekKey prevYear prevWeek.

Definition serveNextWeek (week : string) : string :=
  let '(year, weekNum) := sscanWeek week in
  let nextWeek := weekNum + 1 in
  let '(nextYear, nextWeek) := if 52 <? nextWeek then (year + 1, 1) else (year, nextWeek) in
  weekKey nextYear nextWeek.

(** ** [extractTags] *)

(** [m[1]] of a match of [#(\w+)]: the match without its [#]. *)
Definition submatch1 (m : string) : string :=
  match m with
  | EmptyString => EmptyString
  | String _ t => t
  end.

(** [tagList] before the dedupe loop. *)
Definition tagList (desc flagTag : string) : list string :=
  ((if String.eqb flagTag "" then [] else [ToLower flagTag])
   ++ map (fun m => ToLower (submatch1 m)) (FindAllString hashtagRe desc))%list.

(** The dedupe loop, with its [seen] map and the [uniqueTags] built so far. *)
Fixpoint dedupe (tags : list string) (seen : gmap string bool)
    (uniqueTags : list string) : list string :=
  match tags with
  | [] => uniqueTags
  | t :: rest =>
      if default false (seen !! t) then dedupe rest seen uniqueTags
      else dedupe rest (<[t := true]> seen) (uniqueTags ++ [t])%list
  end.

Definition uniqueTags (desc flagTag : string) : list string :=
  dedupe (tagList desc flagTag) ∅ [].

Definition extractTags (desc flagTag : string) : string * string :=
  let cleanDesc := TrimSpace (RemoveAll hashtagRe desc) in
  let unique := uniqueTags desc flagTag in
  let tags := if (0 <? length unique)%nat then Join unique "," else "" in
  (cleanDesc, tags).

(** Removing duplicates in the specification's words: an element stays
    where it first occurs and every later copy of it is dropped. *)
Fixpoint keepFirst (l : list string) : list string :=
  match l with
  | [] => []
  | x :: rest => x :: filter (fun y => y <> x) (keepFirst rest)
  end.

(** ** Text outside ASCII

    [strings.ToLower] and [strings.TrimSpace] work on all of Unicode, from
    tables that are not part of the program. On ASCII text they do what
    [ToLower] and [TrimSpace] above do: the letters A-Z are lowered and the
    six ASCII blanks are trimmed. *)

Definition isASCII (s : string) : bool :=
  forallb (fun c => (N_of_ascii c <? 128)%N) (list_ascii_of_string s).

(** What is known of a library function [f]: on ASCII text it is [g]. *)
Definition onASCII (f g : string -> string) : Prop :=
  forall s, isASCII s = true -> f s = g s.

(** [extractTags] with [strings.ToLower] and [strings.TrimSpace] as the
    parameters [lower] and [trim]. *)
Module Go.

Definition tagList (lower : string -> string) (desc flagTag : string) : list string :=
  ((if String.eqb flagTag "" then [] else [lower flagTag])
   ++ map (fun m => lower (submatch1 m)) (FindAllString hashtagRe desc))%list.

Definition uniqueTags (lower : string -> string) (desc flagTag : string) : list string :=
  dedupe (tagList lower desc flagTag) ∅ [].

Definition extractTags (lower trim : string -> string) (desc flagTag : string)
    : string * string :=
  let cleanDesc := trim (RemoveAll hashtagRe desc) in
  let unique := uniqueTags lower desc flagTag in
  let tags := if (0 <? length unique)%nat then Join unique "," else "" in
  (cleanDesc, tags).

End Go.

(** ** The table [blocks] *)

Record Block : Type := mkBlock {
  ID : string;
  Week : string;
  Day : string;
  Description : string;
  PlannedStart : option string;
  PlannedEnd : option string;
  ActualStart : option string;
  ActualEnd : option string;
  IsNote : bool;
  IsUnplanned : bool;
  IsDone : bool;
  Tags : option string;
  CreatedAt : string
}.

(** The rows of the table, oldest first. [id] is its primary key. *)
Abbreviation store := (list Block).

Definition hasID (id : string) (b : Block) : bool := String.eqb (ID b) id.

(** [INSERT INTO blocks ...]: refused when the key is taken. *)
Definition dbInsert (st : store) (b : Block) : option store :=
  if existsb (hasID (ID b)) st then None else Some (st ++ [b])%list.

(** [UPDATE blocks SET ... WHERE id = ?], with the rows affected. *)
Definition dbUpdate (st : store) (id : string) (f : Block -> Block) : store * nat :=
  (map (fun b => if hasID id b then f b else b) st,
   length (filter (fun b => hasID id b = true) st)).

(** [DELETE FROM blocks WHERE id = ?], with the rows affected. *)
Definition dbDelete (st : store) (id : string) : store * nat :=
  (filter (fun b => hasID id b = false) st,
   length (filter (fun b => hasID id b = true) st)).

(** The sort key of both listing queries:
    [CASE WHEN planned_start IS NOT NULL THEN planned_start
          WHEN actual_start IS NOT NULL THEN actual_start
          ELSE '99:99' END]. *)
Definition sentinel : string := "99:99".

Definition effectiveStart (b : Block) : string :=
  match PlannedStart b with
  | Some t => t
  | None => match ActualStart b with
            | Some t => t
            | None => sentinel
            end
  end.

(** [ORDER BY <effective start>, created_at]: text columns, compared byte
    by byte. *)
Definition orderLeb (a b : Block) : bool :=
  match String.compare (effectiveStart a) (effectiveStart b) with
  | Lt => true
  | Eq => String.leb (CreatedAt a) (CreatedAt b)
  | Gt => false
  end.

Definition orderLe (a b : Block) : Prop := orderLeb a b = true.

#[global] Instance orderLe_dec : RelDecision orderLe.
Proof. intros a b. unfold orderLe. apply _. Defined.

Definition inBucket (week day : string) (b : Block) : bool :=
  String.eqb (Week b) week && String.eqb (Day b) day.

(** [SELECT ... FROM blocks WHERE week = ? AND day = ? ORDER BY ...], the
    query of [cmdLs] and of [cmdServe]. Rows with equal keys keep their
    table order. *)
Definition queryBlocks (st : store) (week day : string) : list Block :=
  merge_sort orderLe (filter (fun b => inBucket week day b = true) st).

(** ** The commands *)

Record env : Type := mkEnv {
  now : Time;          (* the clock, as [time.Now()] reads it *)
  newID : string;      (* what [generateID] draws *)
  stamp : string       (* [CURRENT_TIMESTAMP] of the insert *)
}.

Definition newRow (e : env) (week day desc : string) : Block :=
  {| ID := newID e; Week := week; Day := day; Description := desc;
     PlannedStart := None; PlannedEnd := None;
     ActualStart := None; ActualEnd := None;
     IsNote := false; IsUnplanned := false; IsDone := false;
     Tags := None; CreatedAt := stamp e |}.

Definition setPlanned (s e : string) (b : Block) : Block :=
  {| ID := ID b; Week := Week b; Day := Day b; Description := Description b;
     PlannedStart := Some s; PlannedEnd := Some e;
     ActualStart := ActualStart b; ActualEnd := ActualEnd b;
     IsNote := IsNote b; IsUnplanned := IsUnplanned b; IsDone := IsDone b;
     Tags := Tags b; CreatedAt := CreatedAt b |}.

Definition setActual (s e : string) (b : Block) : Block :=
  {| ID := ID b; Week := Week b; Day := Day b; Description := Description b;
     PlannedStart := PlannedStart b; PlannedEnd := PlannedEnd b;
     ActualStart := Some s; ActualEnd := Some e;
     IsNote := IsNote b; IsUnplanned := IsUnplanned b; IsDone := IsDone b;
     Tags := Tags b; CreatedAt := CreatedAt b |}.

Definition setFlags (note unplanned done : bool) (b : Block) : Block :=
  {| ID := ID b; Week := Week b; Day := Day b; Description := Description b;
     PlannedStart := PlannedStart b; PlannedEnd := PlannedEnd b;
     ActualStart := ActualStart b; ActualEnd := ActualEnd b;
     IsNote := note; IsUnplanned := unplanned; IsDone := done;
     Tags := Tags b; CreatedAt := CreatedAt b |}.

Definition setDone (done : bool) (b : Block) : Block :=
  setFlags (IsNote b) (IsUnplanned b) done b.

Definition setTags (tags : string) (b : Block) : Block :=
  {| ID := ID b; Week := Week b; Day := Day b; Description := Description b;
     PlannedStart := PlannedStart b; PlannedEnd := PlannedEnd b;
     ActualStart := ActualStart b; ActualEnd := ActualEnd b;
     IsNote := IsNote b; IsUnplanned := IsUnplanned b; IsDone := IsDone b;
     Tags := Some tags; CreatedAt := CreatedAt b |}.

(** A command leaves a store and either the line it prints or the error it
    reports before exiting with status 1. *)
Definition outcome : Type := store * result string.

Definition tagSuffix (tags : string) : string :=
  if String.eqb tags "" then "" else " [" +:+ tags +:+ "]".

(** The arguments of [add] and of [actual --unplanned]: the day may be left
    out when the first argument is a time range. *)
Definition splitArgs (args : list string) : option (string * string * list string) :=
  match args with
  | a0 :: a1 :: rest =>
      if isTimeRange a0 then Some ("today", a0, a1 :: rest)
      else Some (a0, a1, rest)
  | _ => None
  end.

Definition cmdAdd (e : env) (flagTag : string) (args : list string) (st : store) : outcome :=
  match splitArgs args with
  | None => (st, Err Usage)
  | Some (dayArg, timeArg, descArgs) =>
      match parseDay (now e) dayArg with
      | Err err => (st, Err err)
      | Ok (week, day) =>
          match parseTimeRange timeArg with
          | Err err => (st, Err err)
          | Ok (start, end_) =>
              let '(desc, tags) := extractTags (Join descArgs " ") flagTag in
              match dbInsert st (setTags tags (setPlanned start end_ (newRow e week day desc))) with
              | None => (st, Err StoreError)
              | Some st' =>
                  (st', Ok ("[" +:+ newID e +:+ "] Added: " +:+ day +:+ " " +:+ start
                            +:+ "-" +:+ end_ +:+ " " +:+ desc +:+ tagSuffix tags))
              end
          end
      end
  end.

Definition cmdNote (e : env) (flagTag : string) (args : list string) (st : store) : outcome :=
  match args with
  | [] => (st, Err Usage)
  | a0 :: rest =>
      let '(dayArg, descArgs) := if isDayArg a0 then (a0, rest) else ("today", args) in
      match descArgs with
      | [] => (st, Err (MissingArgument "note text"))
      | _ =>
          match parseDay (now e) dayArg with
          | Err err => (st, Err err)
          | Ok (week, day) =>
              let '(desc, tags) := extractTags (Join descArgs " ") flagTag in
              match dbInsert st (setTags tags (setFlags true false false (newRow e week day desc))) with
              | None => (st, Err StoreError)
              | Some st' =>
                  (st', Ok ("[" +:+ newID e +:+ "] Note added to " +:+ day +:+ ": "
                            +:+ desc +:+ tagSuffix tags))
              end
          end
      end
  end.

(** [wk actual --unplanned [day] <start>-<end> <description>] *)
Definition cmdActualUnplanned (e : env) (flagTag : string) (args : list string)
    (st : store) : outcome :=
  match splitArgs args with
  | None => (st, Err Usage)
  | Some (dayArg, timeArg, descArgs) =>
      match parseDay (now e) dayArg with
      | Err err => (st, Err err)
      | Ok (week, day) =>
          match parseTimeRange timeArg with
          | Err err => (st, Err err)
          | Ok (start, end_) =>
              match descArgs with
              | [] => (st, Err (MissingArgument "description"))
              | _ =>
                  let '(desc, tags) := extractTags (Join descArgs " ") flagTag in
                  match dbInsert st (setTags tags (setFlags false true true
                                       (setActual start end_ (newRow e week day desc)))) with
                  | None => (st, Err StoreError)
                  | Some st' =>
                      (st', Ok ("[" +:+ newID e +:+ "] ⚡ Unplanned: " +:+ day +:+ " "
                                +:+ start +:+ "-" +:+ end_ +:+ " " +:+ desc +:+ tagSuffix tags))
                  end
              end
          end
      end
  end.

(** [wk actual <id> <start>-<end>] *)
Definition cmdActualRecord (args : list string) (st : store) : outcome :=
  match args with
  | id :: timeArg :: _ =>
      match parseTimeRange timeArg with
      | Err err => (st, Err err)
      | Ok (start, end_) =>
          let '(st', rows) := dbUpdate st id (setActual start end_) in
          if Nat.eqb rows 0 then (st', Err (NotFound id))
          else (st', Ok ("[" +:+ id +:+ "] Actual time recorded: " +:+ start +:+ "-" +:+ end_))
      end
  | _ => (st, Err Usage)
  end.

Definition cmdActual (e : env) (unplanned : bool) (flagTag : string)
    (args : list string) (st : store) : outcome :=
  if unplanned then cmdActualUnplanned e flagTag args st
  else cmdActualRecord args st.

Definition cmdDone (id : string) (st : store) : outcome :=
  let '(st', rows) := dbUpdate st id (setDone true) in
  if Nat.eqb rows 0 then (st', Err (NotFound id))
  else (st', Ok ("[" +:+ id +:+ "] ✓ Marked done")).

Definition cmdUndone (id : string) (st : store) : outcome :=
  let '(st', rows) := dbUpdate st id (setDone false) in
  if Nat.eqb rows 0 then (st', Err (NotFound id))
  else (st', Ok ("[" +:+ id +:+ "] Unmarked done")).

Definition cmdRm (id : string) (st : store) : outcome :=
  let '(st', rows) := dbDelete st id in
  if Nat.eqb rows 0 then (st', Err (NotFound id))
  else (st', Ok ("[" +:+ id +:+ "] Deleted")).

(** ** The lines of [cmdLs] *)

(** Go pads [%-23s] by runes: a byte of the form 10xxxxxx continues one. *)
Definition isContinuation (c : ascii) : bool :=
  (128 <=? N_of_ascii c)%N && (N_of_ascii c <? 192)%N.

Fixpoint runeCount (s : string) : nat :=
  match s with
  | EmptyString => O
  | String c r => ((if isContinuation c then 0 else 1) + runeCount r)%nat
  end.

Fixpoint spaces (n : nat) : string :=
  match n with
  | O => EmptyString
  | S n' => String " " (spaces n')
  end.

Definition padRight (width : nat) (s : string) : string :=
  s +:+ spaces (width - runeCount s).

(** [strings.ReplaceAll(s, ",", " #")] *)
Fixpoint commasToHashes (s : string) : string :=
  match s with
  | EmptyString => EmptyString
  | String c r =>
      if Ascii.eqb c "," then " #" +:+ commasToHashes r
      else String c (commasToHashes r)
  end.

Definition tagStr (b : Block) : string :=
  match Tags b with
  | Some t => if String.eqb t "" then "" else " #" +:+ commasToHashes t
  | None => ""
  end.

Definition doneMark : string := "✓".
Definition unplannedMark : string := "⚡".

(** [status] of a line: set to the done mark, then overwritten by the
    unplanned mark. *)
Definition status (b : Block) : string :=
  let status := " " in
  let status := if IsDone b then doneMark else status in
  let status := if IsUnplanned b then unplannedMark else status in
  status.

(** [NullString.String]: empty for NULL. *)
Definition str (o : option string) : string := default "" o.

Definition timeStr (b : Block) : string :=
  if IsUnplanned b then str (ActualStart b) +:+ "-" +:+ str (ActualEnd b)
  else if bool_decide (is_Some (ActualStart b)) then
    str (PlannedStart b) +:+ "-" +:+ str (PlannedEnd b) +:+ " → "
    +:+ str (ActualStart b) +:+ "-" +:+ str (ActualEnd b)
  else str (PlannedStart b) +:+ "-" +:+ str (PlannedEnd b).

Definition renderLine (b : Block) : string :=
  if IsNote b then "  • " +:+ Description b +:+ tagStr b
  else "  [" +:+ ID b +:+ "] " +:+ status b +:+ " " +:+ padRight 23 (timeStr b)
       +:+ " " +:+ Description b +:+ tagStr b.

(** The block lines [cmdLs] prints under the heading of one day. *)
Definition lsDay (st : store) (week day : string) : list string :=
  map renderLine (queryBlocks st week day).

(** ** Week keys and dates in the specification's words *)

(** The length of a year in days. *)
Definition yearLength (year : Z) : Z := if isLeap year then 366 else 365.

(** [n] consecutive integers from [lo]. *)
Fixpoint zrange (lo : Z) (n : nat) : list Z :=
  match n with
  | O => []
  | S k => lo :: zrange (lo + 1) k
  end.

(** The day of the year, from 0, of a date. *)
Definition yearDayOf (leap : bool) (month day : Z) : Z :=
  daysBeforeAt (month - 1) + (if leap && (3 <=? month) then 1 else 0) + (day - 1).

(** The check that month and day are read back from the day of the year. *)
Definition civilOk (leap : bool) (month day : Z) : bool :=
  implb (day <=? (if (month =? 2) && leap then 29
                  else daysBeforeAt month - daysBeforeAt (month - 1)))
    ((0 <=? yearDayOf leap month day)
     && (yearDayOf leap month day <? (if leap then 366 else 365))
     && (fst (monthDayOf leap (yearDayOf leap month day)) =? month)
     && (snd (monthDayOf leap (yearDayOf leap month day)) =? day)).

(** What may follow a number in a scan: not a digit. *)
Definition noDigitHead (s : string) : Prop :=
  match s with
  | EmptyString => True
  | String c _ => isDigit c = false
  end.

(** The successor of a week: past week 52 comes week 1 of the next year. *)
Definition weekSucc (yw : Z * Z) : Z * Z :=
  if yw.2 <? 52 then (yw.1, yw.2 + 1) else (yw.1 + 1, 1).

(** The predecessor of a week: before week 1 comes week 52 of the year before. *)
Definition weekPred (yw : Z * Z) : Z * Z :=
  if 1 <? yw.2 then (yw.1, yw.2 - 1) else (yw.1 - 1, 52).

Fixpoint digitsVal (acc : Z) (s : string) : Z :=
  match s with
  | EmptyString => acc
  | String c r => digitsVal (10 * acc + digitVal c) r
  end.

(** Year, month and day as written in a token [YYYY-MM-DD]. *)
Definition dateFields (tok : string) : Z * Z * Z :=
  (digitsVal 0 (String.substring 0 4 tok),
   digitsVal 0 (String.substring 5 2 tok),
   digitsVal 0 (String.substring 8 2 tok)).

(** A date of the calendar: the month in 1..12, the day within the month. *)
Definition realDate (year month day : Z) : bool :=
  (1 <=? month) && (month <=? 12) && (1 <=? day) && (day <=? daysIn month year).

(** ** The ordering in the specification's words *)

(** A start time that is present: the planned one, else the actual one. *)
Definition startOf (b : Block) : option string :=
  match PlannedStart b with
  | Some t => Some t
  | None => ActualStart b
  end.

Definition strLt (a b : string) : Prop := String.compare a b = Lt.
Definition strLe (a b : string) : Prop := String.leb a b = true.

(** [a] may stand before [b]: by ascending start time, an entry without one
    after every entry with one, and by ascending creation stamp among
    equals. *)
Definition keyBefore (a b : Block) : Prop :=
  match startOf a, startOf b with
  | Some x, Some y => strLt x y \/ (x = y /\ strLe (CreatedAt a) (CreatedAt b))
  | Some _, None => True
  | None, Some _ => False
  | None, None => strLe (CreatedAt a) (CreatedAt b)
  end.

(** A time of day [HH:MM] with the hour in 0..23 and the minute in 0..59. *)
Definition isRealTime (t : string) : bool :=
  match list_ascii_of_string t with
  | [h1; h2; c; m1; m2] =>
      forallb isDigit [h1; h2; m1; m2] && Ascii.eqb c ":"
      && (10 * digitVal h1 + digitVal h2 <=? 23)
      && (10 * digitVal m1 + digitVal m2 <=? 59)
  | _ => false
  end.

(** ** A sample day *)

Definition demoEnv (id stamp : string) : env :=
  {| now := Date 2025 2 10; newID := id; stamp := stamp |}.

(** Two planned blocks, a note and an unplanned block, entered in this
    order on Monday 2025-02-10. *)
Definition demoStore : store :=
  let st := [] in
  let st := fst (cmdAdd (demoEnv "a1b2c3" "2025-02-10 07:00:00") ""
                   ["monday"; "14:00-15:00"; "review"] st) in
  let st := fst (cmdAdd (demoEnv "d4e5f6" "2025-02-10 07:00:05") "acme"
                   ["9:00-10:00"; "standup"; "#Team"] st) in
  let st := fst (cmdNote (demoEnv "0a0b0c" "2025-02-10 07:01:00") ""
                   ["monday"; "buy"; "milk"] st) in
  let st := fst (cmdActual (demoEnv "123abc" "2025-02-10 08:31:00") true ""
                   ["monday"; "8:00-8:30"; "fire"; "drill"] st) in
  st.

(** The rows of [demoStore], by position. *)
Definition demoRow (i : nat) : Block :=
  default (newRow (demoEnv "" "") "" "" "") (demoStore !! i).

(** ** [generateID] *)

Definition hextable : string := "0123456789abcdef".

Definition hexChar (n : N) : ascii :=
  default "0"%char (String.get (N.to_nat n) hextable).

(** [hex.EncodeToString]: two characters a byte, high half first. *)
Fixpoint EncodeToString (src : list ascii) : string :=
  match src with
  | [] => EmptyString
  | v :: rest =>
      String (hexChar (N.shiftr (N_of_ascii v) 4))
        (String (hexChar (N.land (N_of_ascii v) 15)) (EncodeToString rest))
  end.

(** [generateID], on the three bytes that [rand.Read] delivers. *)
Definition generateID (b0 b1 b2 : ascii) : string := EncodeToString [b0; b1; b2].

Definition isHexLower (c : ascii) : bool := isDigit c || between "a" "f" c.

(** ** [cmdLs] *)

(** [strings.ToUpper], byte-wise: the letters a-z are mapped. *)
Definition upperChar (c : ascii) : ascii :=
  if isLower c then ascii_of_N (N_of_ascii c - 32) else c.

Fixpoint ToUpper (s : string) : string :=
  match s with
  | EmptyString => EmptyString
  | String c r => String (upperChar c) (ToUpper r)
  end.

(** [strings.Repeat] *)
Fixpoint Repeat (s : string) (count : nat) : string :=
  match count with
  | O => EmptyString
  | S n => s +:+ Repeat s n
  end.

(** [filterDay]: the day of the argument when it resolves, else the
    argument in lower case; empty without an argument. *)
Definition filterDayOf (now : Time) (args : list string) : string :=
  match args with
  | [] => ""
  | a :: _ =>
      match parseDay now a with
      | Ok (_, parsedDay) => parsedDay
      | Err _ => ToLower a
      end
  end.

(** One turn of the loop over the days: nothing for a day that the filter
    excludes, or that is empty when there is no filter; else a blank line,
    the heading and the block lines. *)
Definition lsSection (st : store) (week filterDay day : string) : list string :=
  if negb (String.eqb filterDay "") && negb (String.eqb filterDay day) then []
  else
    let blocks := queryBlocks st week day in
    if Nat.eqb (length blocks) 0 && String.eqb filterDay "" then []
    else ([""; ToUpper day +:+ " (" +:+ dayDate week day +:+ ")"]
          ++ map renderLine blocks)%list.

(** The lines [cmdLs] prints. The caption and the headings are written
    with [weekDateRange] and [dayDate], the dates in a location that keeps
    its midnights; [Local.weekDateRange] and [Local.dayDate] give them in
    any location. *)
Definition cmdLs (now : Time) (weekFlag : string) (last next : bool)
    (args : list string) (st : store) : list string :=
  let week := getWeek now weekFlag last next in
  let filterDay := filterDayOf now args in
  ([""; "Week " +:+ week +:+ " (" +:+ weekDateRange week +:+ ")"; Repeat "─" 50]
   ++ concat (map (lsSection st week filterDay) days)
   ++ [""])%list.

(** No two rows with the same id. *)
Definition uniqueIDs (st : store) : Prop := NoDup (map ID st).

(** A string that does not start with white space. *)
Definition headNotSpace (s : string) : Prop :=
  match s with
  | EmptyString => True
  | String c _ => isSpace c = false
  end.

(** ** The effect of a command on the table *)

(** What a command that adds a row does: a failure leaves the table as it
    was, a success appends one row, of which [P] holds. *)
Definition appendsRow (st : store) (o : outcome) (P : Block -> Prop) : Prop :=
  match o.2 with
  | Err _ => o.1 = st
  | Ok _ => exists b, o.1 = (st ++ [b])%list /\ P b
  end.

(** A time column that holds a time in the stored form [HH:MM]. *)
Definition canonicalTime (o : option string) : Prop :=
  exists t, o = Some t /\ MatchString timeRegex t = true /\ String.length t = 5%nat.

(** What the rows written by [add], [note] and [actual --unplanned] share. *)
Definition freshRow (e : env) (st : store) (b : Block) : Prop :=
  ID b = newID e /\ CreatedAt b = stamp e
  /\ (forall b', b' ∈ st -> ID b' <> ID b)
  /\ Day b ∈ days
  /\ 1 <= (sscanWeek (Week b)).2 <= 53
  /\ Week b = weekKey (sscanWeek (Week b)).1 (sscanWeek (Week b)).2
  /\ is_Some (Tags b).

(** The value of a hexadecimal digit and the bytes that a string of such
    digits writes, to read an id back. *)
Definition hexVal (c : ascii) : N :=
  if isDigit c then N_of_ascii c - 48 else N_of_ascii c - 87.

Fixpoint decodeHex (s : string) : list ascii :=
  match s with
  | String h (String l r) => ascii_of_N (16 * hexVal h + hexVal l) :: decodeHex r
  | _ => []
  end.

(** ** Text without hashtags *)

(** [#(\w+)] finds nothing in the text: no [#] is followed by a word
    character. *)
Fixpoint noTag (s : string) : bool :=
  match s with
  | EmptyString => true
  | String c r =>
      negb (Ascii.eqb c "#" && match r with
                               | String d _ => isWord d
                               | EmptyString => false
                               end)
      && noTag r
  end.

(** The first byte, when there is one, is not a word character. *)
Definition headNotWord (s : string) : Prop :=
  match s with
  | EmptyString => True
  | String c _ => isWord c = false
  end.

(** The bytes of the pieces that are not matches. *)
Definition removed (l : list (ascii + string)) : string :=
  string_of_list_ascii
    (omap (fun p => match p with inl c => Some c | inr _ => None end) l).

(** * Properties *)

(** ** Small ranges *)

Lemma zrange_elem lo n z : lo <= z < lo + Z.of_nat n -> In z (zrange lo n).
Proof.
  revert lo. induction n as [|n IH]; intros lo Hz; simpl; [lia|].
  destruct (Z.eq_dec lo z); [by left|]. right. apply IH. lia.
Qed.

Ltac by_range z lo n :=
  let H := fresh in
  assert (In z (zrange lo n)) as H by (apply zrange_elem; lia);
  simpl in H; repeat (destruct H as [<- | H]; [|]); [..|destruct H].

(** ** Bytes and strings *)

Ltac by_bytes c := destruct c as [[] [] [] [] [] [] [] []]; vm_compute; congruence.

Lemma digit_not_space c : isDigit c = true -> isSpace c = false.
Proof. by_bytes c. Qed.

Lemma digit_not_dash c : isDigit c = true -> Ascii.eqb c "-" = false.
Proof. by_bytes c. Qed.

Lemma digit_lower c : isDigit c = true -> lowerChar c = c.
Proof. by_bytes c. Qed.

Lemma lowerChar_idem c : lowerChar (lowerChar c) = lowerChar c.
Proof. by_bytes c. Qed.

Lemma ToLower_idem s : ToLower (ToLower s) = ToLower s.
Proof. induction s as [|c s IH]; simpl; [done|]. by rewrite lowerChar_idem, IH. Qed.

Lemma append_nil_r (s : string) : s +:+ "" = s.
Proof. induction s as [|c s IH]; simpl; [done|]. by rewrite IH. Qed.

Lemma append_assoc (a b c : string) : (a +:+ b) +:+ c = a +:+ (b +:+ c).
Proof. induction a as [|x a IH]; simpl; [done|]. by rewrite IH. Qed.

Lemma append_eq_nil (a b : string) : a +:+ b = "" -> a = "" /\ b = "".
Proof. destruct a; simpl; [done|discriminate]. Qed.

Lemma Split_length s sep : length (Split s sep) = S (Count s sep).
Proof.
  induction s as [|c s IH]; simpl; [done|].
  destruct (Ascii.eqb c sep); simpl; [by rewrite IH|].
  destruct (Split s sep) as [|p ps]; simpl in *; lia.
Qed.

(** ** The matcher decides the language of a pattern *)

Lemma nullable_lang r : nullable r = true <-> lang r "".
Proof.
  split.
  - induction r; simpl; intros H; try discriminate.
    + constructor.
    + apply andb_true_iff in H as [H1 H2].
      change "" with ("" +:+ ""). constructor; auto.
    + apply orb_true_iff in H as [H|H]; [apply lang_alt_l|apply lang_alt_r]; auto.
    + constructor.
  - intros H. remember "" as s eqn:Hs. induction H; simpl; try done.
    + apply append_eq_nil in Hs as [-> ->]. rewrite IHlang1, IHlang2; done.
    + rewrite IHlang; done.
    + rewrite IHlang; [apply orb_true_r|done].
Qed.

Lemma lang_deriv_intro c r s : lang r (String c s) -> lang (deriv c r) s.
Proof.
  intros H. remember (String c s) as cs eqn:Hcs.
  revert s Hcs. induction H as [|p d Hp|r1 r2 s1 s2 H1 IH1 H2 IH2|r1 r2 u H1 IH1
                               |r1 r2 u H1 IH1| |r1 s1 s2 H1 IH1 H2 IH2];
    intros t Hcs; simpl; try discriminate.
  - injection Hcs as -> <-. rewrite Hp. constructor.
  - destruct s1 as [|c1 s1]; simpl in Hcs.
    + subst s2. assert (nullable r1 = true) as -> by (by apply nullable_lang).
      apply lang_alt_r. by apply IH2.
    + injection Hcs as -> <-.
      destruct (nullable r1); [apply lang_alt_l|]; constructor; auto.
  - apply lang_alt_l. auto.
  - apply lang_alt_r. auto.
  - destruct s1 as [|c1 s1]; simpl in Hcs.
    + subst s2. by apply IH2.
    + injection Hcs as -> <-. constructor; auto.
Qed.

Lemma lang_deriv_elim c r s : lang (deriv c r) s -> lang r (String c s).
Proof.
  revert s. induction r; intros s H; simpl in H.
  - inversion H.
  - inversion H.
  - destruct (p c) eqn:Hp; inversion H; subst. by constructor.
  - destruct (nullable r1) eqn:Hn.
    + inversion H; subst.
      * inversion H3; subst. change (String c (s1 +:+ s2)) with (String c s1 +:+ s2).
        constructor; auto.
      * change (String c s) with ("" +:+ String c s).
        constructor; [by apply nullable_lang | auto].
    + inversion H; subst. change (String c (s1 +:+ s2)) with (String c s1 +:+ s2).
      constructor; auto.
  - inversion H; subst; [apply lang_alt_l|apply lang_alt_r]; auto.
  - inversion H; subst. change (String c (s1 +:+ s2)) with (String c s1 +:+ s2).
    constructor; auto.
Qed.

Lemma MatchString_lang r s : MatchString r s = true <-> lang r s.
Proof.
  revert r. induction s as [|c s IH]; intros r; simpl.
  - apply nullable_lang.
  - rewrite IH. split; [apply lang_deriv_elim | apply lang_deriv_intro].
Qed.

Lemma lang_cls_inv p s : lang (Cls p) s -> exists c, s = String c "" /\ p c = true.
Proof. inversion 1; subst; eauto. Qed.

Lemma lang_cat_inv r1 r2 s :
  lang (Cat r1 r2) s -> exists s1 s2, s = s1 +:+ s2 /\ lang r1 s1 /\ lang r2 s2.
Proof. inversion 1; subst; eauto. Qed.

Lemma lang_opt_inv r s : lang (Opt r) s -> lang r s \/ s = "".
Proof. inversion 1; subst; [by left|]. inversion H3; by right. Qed.

Lemma lang_lit_inv c s : lang (Lit c) s -> s = String c "".
Proof.
  intros (d & -> & Hd)%lang_cls_inv. by apply Ascii.eqb_eq in Hd as ->.
Qed.

Ltac lang_inv :=
  repeat match goal with
    | H : lang (Cat _ _) _ |- _ => apply lang_cat_inv in H as (? & ? & -> & ? & ?)
    | H : lang digit _ |- _ => apply lang_cls_inv in H as (? & -> & ?)
    | H : lang word _ |- _ => apply lang_cls_inv in H as (? & -> & ?)
    | H : lang (Lit _) _ |- _ => apply lang_lit_inv in H as ->
    | H : lang (Opt _) _ |- _ => apply lang_opt_inv in H as [?| ->]
    end.

(** The words of [^\d{1,2}:\d{2}$]. *)
Lemma timeRegex_inv s :
  MatchString timeRegex s = true ->
  exists h m1 m2, isDigit m1 = true /\ isDigit m2 = true /\
    ((isDigit h = true /\ s = String h (String ":" (String m1 (String m2 ""))))
     \/ exists h1, isDigit h1 = true /\ isDigit h = true /\
          s = String h1 (String h (String ":" (String m1 (String m2 ""))))).
Proof.
  intros H%MatchString_lang. unfold timeRegex in H. lang_inv; simpl.
  - do 3 eexists. split; [|split; [|right; eexists; split; [|split; [|reflexivity]]]];
      eassumption.
  - do 3 eexists. split; [|split; [|left; split; [|reflexivity]]]; eassumption.
Qed.

Lemma timeRegex_TrimSpace s : MatchString timeRegex s = true -> TrimSpace s = s.
Proof.
  intros (h & m1 & m2 & Hm1 & Hm2 & [[Hh ->] | (h1 & Hh1 & Hh & ->)])%timeRegex_inv;
    unfold TrimSpace; simpl.
  all: repeat first [ rewrite (digit_not_space _ Hh1) | rewrite (digit_not_space _ Hh)
                    | rewrite (digit_not_space _ Hm1) | rewrite (digit_not_space _ Hm2)
                    | progress simpl ].
  all: reflexivity.
Qed.

Lemma timeRegex_normalize s :
  MatchString timeRegex s = true ->
  exists h1 h2 m1 m2,
    normalize s = String h1 (String h2 (String ":" (String m1 (String m2 ""))))
    /\ isDigit h1 = true /\ isDigit h2 = true /\ isDigit m1 = true /\ isDigit m2 = true
    /\ (s = normalize s \/ (h1 = "0"%char /\ s = String h2 (String ":" (String m1 (String m2 ""))))).
Proof.
  intros (h & m1 & m2 & Hm1 & Hm2 & [[Hh ->] | (h1 & Hh1 & Hh & ->)])%timeRegex_inv.
  - exists "0"%char, h, m1, m2. repeat split; try done. by right.
  - exists h1, h, m1, m2. repeat split; try done. by left.
Qed.

(** ** [parseTimeRange] *)

Lemma timeRegex_length s :
  MatchString timeRegex s = true ->
  String.length (normalize s) = 5%nat
  /\ (String.length s = 4%nat -> normalize s = "0" +:+ s)
  /\ (String.length s = 5%nat -> normalize s = s).
Proof.
  intros (h & m1 & m2 & _ & _ & [[_ ->] | (h1 & _ & _ & ->)])%timeRegex_inv;
    repeat split; try done.
Qed.

(** C4, as the code has it: a token whose split on [-] does not give
    exactly two parts (no [-], or more than one) fails with the
    invalid-time-range error; a token with one [-] and an empty side passes
    that test and fails with the invalid-time-format error. *)
Theorem parseTimeRange_rejects (input : string) :
  (length (Split input "-") <> 2%nat ->
   parseTimeRange input = Err (InvalidTimeRange input))
  /\ (forall p0 p1, Split input "-" = [p0; p1] -> p0 = "" \/ p1 = "" ->
      parseTimeRange input = Err (InvalidTimeFormat input)).
Proof.
  unfold parseTimeRange. split.
  - intros Hlen. destruct (Split input "-") as [|p0 [|p1 [|p2 ps]]]; simpl in *; done.
  - intros p0 p1 -> [-> | ->]; simpl; [done|].
    by rewrite orb_true_r.
Qed.

Lemma parseTimeRange_rejects_witness :
  parseTimeRange "1000" = Err (InvalidTimeRange "1000")
  /\ parseTimeRange "9:00-10:00-11:00" = Err (InvalidTimeRange "9:00-10:00-11:00")
  /\ parseTimeRange "-10:00" = Err (InvalidTimeFormat "-10:00").
Proof.
  split; [|split].
  - apply (proj1 (parseTimeRange_rejects "1000")). vm_compute. lia.
  - apply (proj1 (parseTimeRange_rejects "9:00-10:00-11:00")). vm_compute. lia.
  - apply (proj2 (parseTimeRange_rejects "-10:00") "" "10:00"); [reflexivity | by left].
Defined.

(** C4 as stated fails on ["-10:00"]: the split has an empty side, and the
    error is the invalid-time-format one. *)
Lemma parseTimeRange_empty_side :
  Split "-10:00" "-" = [""; "10:00"]
  /\ parseTimeRange "-10:00" = Err (InvalidTimeFormat "-10:00")
  /\ parseTimeRange "-10:00" <> Err (InvalidTimeRange "-10:00").
Proof. repeat split; try reflexivity. vm_compute. discriminate. Qed.

(** C5: when both parts of the split match one or two digits, a colon and
    two digits, the parser succeeds; each bound comes out five bytes long, a
    single-digit hour with a ["0"] before it; nothing else is checked, so
    25:00-26:00, an end before the start and 99 minutes pass; 9:5 does not
    match. *)
Theorem parseTimeRange_accepts :
  (forall input s e,
      Split input "-" = [s; e] ->
      MatchString timeRegex s = true -> MatchString timeRegex e = true ->
      parseTimeRange input = Ok (normalize s, normalize e)
      /\ String.length (normalize s) = 5%nat /\ String.length (normalize e) = 5%nat
      /\ (String.length s = 4%nat -> normalize s = "0" +:+ s)
      /\ (String.length e = 4%nat -> normalize e = "0" +:+ e)
      /\ (String.length s = 5%nat -> normalize s = s)
      /\ (String.length e = 5%nat -> normalize e = e))
  /\ parseTimeRange "9:00-10:00" = Ok ("09:00", "10:00")
  /\ parseTimeRange "09:05-10:00" = Ok ("09:05", "10:00")
  /\ parseTimeRange "25:00-26:00" = Ok ("25:00", "26:00")
  /\ parseTimeRange "10:00-9:00" = Ok ("10:00", "09:00")
  /\ parseTimeRange "12:99-12:00" = Ok ("12:99", "12:00")
  /\ parseTimeRange "9:5-10:00" = Err (InvalidTimeFormat "9:5-10:00").
Proof.
  split; [|repeat split].
  intros input s e Hsplit Hs He.
  destruct (timeRegex_length s Hs) as (Ls & Ls4 & Ls5).
  destruct (timeRegex_length e He) as (Le & Le4 & Le5).
  repeat split; try done.
  unfold parseTimeRange. rewrite Hsplit.
  rewrite (timeRegex_TrimSpace s Hs), (timeRegex_TrimSpace e He), Hs, He. done.
Qed.

Lemma parseTimeRange_accepts_witness :
  parseTimeRange "7:30-18:05" = Ok ("07:30", "18:05").
Proof.
  apply (proj1 parseTimeRange_accepts "7:30-18:05" "7:30" "18:05"); reflexivity.
Defined.

(** ** The scan for hashtags *)

Lemma longest_split r s seen best m rest :
  longest r s seen best = Some (m, rest) ->
  best = Some (m, rest) \/ seen +:+ s = m +:+ rest.
Proof.
  revert r seen best. induction s as [|c s IH]; intros r seen best; simpl.
  - destruct (nullable r); [|by left]. intros [= <- <-]. by right.
  - intros [H | H]%IH.
    + destruct (nullable r); [|by left]. injection H as <- <-. by right.
    + right. rewrite <- H, append_assoc. done.
Qed.

Lemma longest_lang r0 r s seen best m rest :
  (forall w, MatchString r w = MatchString r0 (seen +:+ w)) ->
  (forall m' rest', best = Some (m', rest') -> MatchString r0 m' = true) ->
  longest r s seen best = Some (m, rest) -> MatchString r0 m = true.
Proof.
  revert r seen best. induction s as [|c s IH]; intros r seen best Hr Hbest; simpl.
  - destruct (nullable r) eqn:Hn; [|by apply Hbest].
    intros [= <- <-]. rewrite <- (append_nil_r seen), <- Hr. done.
  - apply IH.
    + intros w. rewrite append_assoc. simpl. rewrite <- Hr. done.
    + intros m' rest'. destruct (nullable r) eqn:Hn; [|by apply Hbest].
      intros [= <- <-]. rewrite <- (append_nil_r seen), <- Hr. done.
Qed.

Lemma matchPrefix_split r s m rest : matchPrefix r s = Some (m, rest) -> s = m +:+ rest.
Proof. intros [H | H]%longest_split; [done | by rewrite <- H]. Qed.

Lemma matchPrefix_lang r s m rest : matchPrefix r s = Some (m, rest) -> lang r m.
Proof.
  intros H. apply MatchString_lang.
  by apply (longest_lang r r s "" None m rest).
Qed.

Lemma append_length (a b : string) :
  String.length (a +:+ b) = (String.length a + String.length b)%nat.
Proof. induction a as [|c a IH]; simpl; [done|]. by rewrite IH. Qed.

(** The pieces of a scan are the text, cut up left to right. *)
Lemma scan_rebuild r fuel s :
  (String.length s <= fuel)%nat -> flat (map pieceText (scan fuel r s)) = s.
Proof.
  revert s. induction fuel as [|fuel IH]; intros s Hlen.
  - destruct s; simpl in *; [done | lia].
  - destruct s as [|c s]; [done|]. simpl scan.
    destruct (matchPrefix r (String c s)) as [[[|m ms] rest]|] eqn:Hm.
    + simpl. rewrite IH; [done | simpl in Hlen; lia].
    + apply matchPrefix_split in Hm. simpl. rewrite IH.
      * simpl in Hm. done.
      * apply (f_equal String.length) in Hm. rewrite append_length in Hm.
        simpl in *. lia.
    + simpl. rewrite IH; [done | simpl in Hlen; lia].
Qed.

Lemma pieces_rebuild r s : flat (map pieceText (pieces r s)) = s.
Proof. by apply scan_rebuild. Qed.

Lemma scan_lang r fuel s m : inr m ∈ scan fuel r s -> lang r m.
Proof.
  revert s. induction fuel as [|fuel IH]; intros s; simpl; [by intros ?%elem_of_nil|].
  destruct s as [|c s]; [by intros ?%elem_of_nil|].
  destruct (matchPrefix r (String c s)) as [[[|m' ms] rest]|] eqn:Hm.
  - intros [?|?]%elem_of_cons; [done | eauto].
  - intros [[= ->]|?]%elem_of_cons; [by eapply matchPrefix_lang | eauto].
  - intros [?|?]%elem_of_cons; [done | eauto].
Qed.

Lemma lang_star_cls p w :
  lang (Star (Cls p)) w -> forallb p (list_ascii_of_string w) = true.
Proof.
  intros H. remember (Star (Cls p)) as sw eqn:Hsw.
  induction H as [| | | | | |r s1 s2 H1 _ H2 IH2]; try discriminate; [done|].
  injection Hsw as ->. apply lang_cls_inv in H1 as (c & -> & Hc).
  simpl. rewrite Hc. by apply IH2.
Qed.

(** Every match of [#(\w+)] is a [#] followed by word bytes, at least one. *)
Lemma FindAllString_hashtag desc m :
  m ∈ FindAllString hashtagRe desc ->
  exists c w, m = String "#" (String c w) /\ isWord c = true
              /\ forallb isWord (list_ascii_of_string w) = true.
Proof.
  unfold FindAllString. intros ([c|m'] & Hin & Heq)%list_elem_of_omap; [done|].
  injection Heq as ->. apply scan_lang in Hin.
  apply lang_cat_inv in Hin as (s1 & s2 & -> & ->%lang_lit_inv & Hw).
  apply lang_cat_inv in Hw as (w1 & w2 & -> & (c & -> & Hc)%lang_cls_inv & Hw).
  exists c, w2. split; [done|]. split; [done|]. by apply lang_star_cls.
Qed.

(** ** [extractTags] *)

Lemma dedupe_keepFirst tags seen acc :
  dedupe tags seen acc
  = (acc ++ filter (fun t => default false (seen !! t) = false) (keepFirst tags))%list.
Proof.
  revert seen acc. induction tags as [|t rest IH]; intros seen acc; simpl.
  - by rewrite app_nil_r.
  - destruct (default false (seen !! t)) eqn:Hseen.
    + rewrite IH, filter_cons_False by congruence.
      f_equal. symmetry. apply list_filter_filter_l. congruence.
    + rewrite IH, filter_cons_True by done.
      rewrite <- app_assoc. simpl. do 2 f_equal.
      rewrite list_filter_filter. apply list_filter_iff. intros x.
      destruct (decide (t = x)) as [->|Hne].
      * rewrite lookup_insert_eq. simpl. split; [done | intros [_ ?]; done].
      * rewrite lookup_insert_ne by done. split; [by auto | by intros [? _]].
Qed.

Lemma keepFirst_elem l x : x ∈ keepFirst l <-> x ∈ l.
Proof.
  induction l as [|y l IH]; simpl; [done|].
  rewrite !elem_of_cons, list_elem_of_filter, IH.
  destruct (decide (x = y)); tauto.
Qed.

Lemma keepFirst_NoDup l : NoDup (keepFirst l).
Proof.
  induction l as [|y l IH]; simpl; [constructor|].
  constructor; [|by apply NoDup_filter].
  rewrite list_elem_of_filter. by intros [? _].
Qed.

Lemma uniqueTags_keepFirst desc flagTag :
  uniqueTags desc flagTag = keepFirst (tagList desc flagTag).
Proof.
  unfold uniqueTags. rewrite dedupe_keepFirst. simpl.
  induction (keepFirst (tagList desc flagTag)) as [|x l IH]; [done|].
  rewrite filter_cons_True; [by rewrite IH | by rewrite lookup_empty].
Qed.

(** ** The store under a key that is not there *)

Lemma absent_filter_true id (st : store) :
  (forall b, b ∈ st -> ID b <> id) -> filter (fun b => hasID id b = true) st = [].
Proof.
  intros Habs. induction st as [|b st IH]; [done|]. 
  rewrite filter_cons_False.
  - apply IH. intros b' Hb'. apply Habs. by right.
  - unfold hasID. rewrite String.eqb_eq. apply Habs. by left.
Qed.

Lemma absent_filter_false id (st : store) :
  (forall b, b ∈ st -> ID b <> id) -> filter (fun b => hasID id b = false) st = st.
Proof.
  intros Habs. induction st as [|b st IH]; [done|].
  rewrite filter_cons_True.
  - f_equal. apply IH. intros b' Hb'. apply Habs. by right.
  - unfold hasID. rewrite String.eqb_neq. apply Habs. by left.
Qed.

Lemma absent_dbUpdate id f (st : store) :
  (forall b, b ∈ st -> ID b <> id) -> dbUpdate st id f = (st, 0%nat).
Proof.
  intros Habs. unfold dbUpdate. rewrite absent_filter_true by done. f_equal.
  induction st as [|b st IH]; [done|]. simpl.
  rewrite IH by (intros b' Hb'; apply Habs; by right).
  assert (hasID id b = false) as ->; [|done].
  unfold hasID. rewrite String.eqb_neq. apply Habs. by left.
Qed.

Lemma absent_dbDelete id (st : store) :
  (forall b, b ∈ st -> ID b <> id) -> dbDelete st id = (st, 0%nat).
Proof.
  intros Habs. unfold dbDelete.
  by rewrite absent_filter_true, absent_filter_false.
Qed.

(** C9: with an id that no row has, [rm], [done], [undone] and [actual]
    (given a time range that parses) report the not-found error for that id
    and leave the table as it was; [actual] with a time range that does not
    parse leaves it as it was too. *)
Theorem absent_id_not_found (id : string) (st : store) :
  (forall b, b ∈ st -> ID b <> id) ->
  cmdRm id st = (st, Err (NotFound id))
  /\ cmdDone id st = (st, Err (NotFound id))
  /\ cmdUndone id st = (st, Err (NotFound id))
  /\ (forall e flagTag timeArg rest bounds,
        parseTimeRange timeArg = Ok bounds ->
        cmdActual e false flagTag (id :: timeArg :: rest) st = (st, Err (NotFound id)))
  /\ (forall e flagTag timeArg rest,
        fst (cmdActual e false flagTag (id :: timeArg :: rest) st) = st).
Proof.
  intros Habs. unfold cmdRm, cmdDone, cmdUndone, cmdActual, cmdActualRecord.
  rewrite absent_dbDelete by done.
  rewrite (absent_dbUpdate id (setDone true)), (absent_dbUpdate id (setDone false)) by done.
  simpl.
  repeat split; try done.
  - intros _ _ timeArg _ [start end_] ->. cbv beta iota.
    pose proof (absent_dbUpdate id (setActual start end_) st Habs) as [= -> ->]. done.
  - intros _ _ timeArg _. destruct (parseTimeRange timeArg) as [[start end_]|err]; [|done].
    cbv beta iota.
    pose proof (absent_dbUpdate id (setActual start end_) st Habs) as [= -> ->]. done.
Qed.

(** ** The status mark *)

(** C8: on the line of an entry that is not a note the mark is the
    unplanned mark when the entry is unplanned, whether done or not; else
    the done mark when it is done; else a blank. An entry made by
    [actual --unplanned] is unplanned and done, and shows the unplanned
    mark. *)
Theorem status_marker :
  (forall b, IsNote b = false ->
     renderLine b = "  [" +:+ ID b +:+ "] " +:+ status b +:+ " "
                    +:+ padRight 23 (timeStr b) +:+ " " +:+ Description b +:+ tagStr b
     /\ (IsUnplanned b = true -> status b = unplannedMark)
     /\ (IsUnplanned b = false -> IsDone b = true -> status b = doneMark)
     /\ (IsUnplanned b = false -> IsDone b = false -> status b = " "))
  /\ (forall e flagTag args st st' line,
        cmdActual e true flagTag args st = (st', Ok line) ->
        exists b, st' = (st ++ [b])%list /\ ID b = newID e
                  /\ IsUnplanned b = true /\ IsDone b = true /\ IsNote b = false
                  /\ PlannedStart b = None /\ status b = unplannedMark)
  /\ doneMark <> unplannedMark.
Proof.
  split; [|split; [|done]].
  - intros b Hnote. unfold renderLine, status. rewrite Hnote.
    repeat split; try done; intros -> ; try intros ->; done.
  - intros e flagTag args st st' line. unfold cmdActual, cmdActualUnplanned.
    destruct (splitArgs args) as [[[dayArg timeArg] descArgs]|]; [|done].
    destruct (parseDay (now e) dayArg) as [[week day]|]; [|done].
    destruct (parseTimeRange timeArg) as [[start end_]|]; [|done].
    destruct descArgs as [|d ds]; [done|].
    destruct (extractTags _ _) as [desc tags].
    unfold dbInsert. destruct (existsb _ st); [done|].
    intros [= <- _]. eexists. split; [reflexivity|]. done.
Qed.

Lemma absent_id_not_found_witness :
  cmdRm "ffffff" demoStore = (demoStore, Err (NotFound "ffffff"))
  /\ cmdDone "ffffff" demoStore = (demoStore, Err (NotFound "ffffff")).
Proof.
  assert (forall b, b ∈ demoStore -> ID b <> "ffffff") as Habs.
  { apply Forall_forall. vm_compute. repeat constructor; discriminate. }
  split; apply (absent_id_not_found "ffffff" demoStore Habs).
Defined.

Lemma status_marker_witness :
  exists b, fst (cmdActual (demoEnv "123abc" "2025-02-10 08:31:00") true ""
                   ["monday"; "8:00-8:30"; "fire"; "drill"] []) = [b]
            /\ IsDone b = true /\ status b = unplannedMark.
Proof.
  destruct (proj1 (proj2 status_marker)
              (demoEnv "123abc" "2025-02-10 08:31:00") ""
              ["monday"; "8:00-8:30"; "fire"; "drill"] []
              (fst (cmdActual (demoEnv "123abc" "2025-02-10 08:31:00") true ""
                      ["monday"; "8:00-8:30"; "fire"; "drill"] []))
              "[123abc] ⚡ Unplanned: monday 08:00-08:30 fire drill")
    as (b & Hst & _ & _ & Hdone & _ & _ & Hmark).
  - vm_compute. reflexivity.
  - exists b. rewrite Hst. split; [reflexivity|]. split; assumption.
Defined.

(** ** The order of the listing query *)

Lemma compare_refl a : String.compare a a = Eq.
Proof. by apply String_as_OT.cmp_eq. Qed.

Lemma compare_lt_trans a b c :
  String.compare a b = Lt -> String.compare b c = Lt -> String.compare a c = Lt.
Proof.
  intros Hab%String_as_OT.cmp_lt Hbc%String_as_OT.cmp_lt.
  apply String_as_OT.cmp_lt. by eapply String_as_OT.lt_trans.
Qed.

Lemma compare_gt_lt a b : String.compare a b = Gt -> String.compare b a = Lt.
Proof. intros H. rewrite String.compare_antisym, H. done. Qed.

Lemma strLt_irrefl a : ~ strLt a a.
Proof. unfold strLt. by rewrite compare_refl. Qed.

Lemma strLe_iff a b : strLe a b <-> strLt a b \/ a = b.
Proof.
  unfold strLe, strLt, String.leb.
  destruct (String.compare a b) eqn:Hc.
  - apply String_as_OT.cmp_eq in Hc. tauto.
  - tauto.
  - split; [done|]. intros [?| ->]; [done|]. by rewrite compare_refl in Hc.
Qed.

Lemma strLe_trans a b c : strLe a b -> strLe b c -> strLe a c.
Proof.
  rewrite !strLe_iff. unfold strLt.
  intros [Hab| ->] [Hbc| ->]; eauto using compare_lt_trans.
Qed.

Lemma orderLe_iff a b :
  orderLe a b <->
  strLt (effectiveStart a) (effectiveStart b)
  \/ (effectiveStart a = effectiveStart b /\ strLe (CreatedAt a) (CreatedAt b)).
Proof.
  unfold orderLe, orderLeb, strLt, strLe.
  destruct (String.compare (effectiveStart a) (effectiveStart b)) eqn:Hc.
  - apply String_as_OT.cmp_eq in Hc. split; [by right|]. by intros [?|[_ ?]].
  - split; [by left | done].
  - split; [done|]. intros [?|[He _]]; [done|].
    rewrite He, compare_refl in Hc. done.
Qed.

#[global] Instance orderLe_trans : Transitive orderLe.
Proof.
  intros a b c. rewrite !orderLe_iff. unfold strLt.
  intros [Hab|[Eab Cab]] [Hbc|[Ebc Cbc]].
  - left. by eapply compare_lt_trans.
  - left. by rewrite <- Ebc.
  - left. by rewrite Eab.
  - right. split; [congruence | by eapply strLe_trans].
Qed.

#[global] Instance orderLe_total : Total orderLe.
Proof.
  intros a b. rewrite !orderLe_iff. unfold strLt.
  destruct (String.compare (effectiveStart a) (effectiveStart b)) eqn:Hc.
  - apply String_as_OT.cmp_eq in Hc.
    destruct (String.leb_total (CreatedAt a) (CreatedAt b)); [left|right]; by right.
  - left. by left.
  - right. left. by apply compare_gt_lt.
Qed.

Lemma effectiveStart_startOf b :
  effectiveStart b = default sentinel (startOf b).
Proof. unfold effectiveStart, startOf. by destruct (PlannedStart b), (ActualStart b). Qed.

Lemma digit_below_nine d :
  isDigit d = true -> Ascii.compare d "9" = Lt \/ d = "9"%char.
Proof. destruct d as [[] [] [] [] [] [] [] []]; vm_compute; auto; discriminate. Qed.

Lemma digitVal_nonneg d : isDigit d = true -> 0 <= digitVal d <= 9.
Proof. destruct d as [[] [] [] [] [] [] [] []]; vm_compute; intuition congruence. Qed.

Lemma hour_tens h1 h2 :
  isDigit h1 = true -> isDigit h2 = true ->
  (10 * digitVal h1 + digitVal h2 <=? 23) = true -> Ascii.compare h1 "9" = Lt.
Proof.
  intros H1 H2 Hle%Z.leb_le.
  destruct (digit_below_nine h1 H1) as [?| ->]; [done|].
  pose proof (digitVal_nonneg h2 H2). change (digitVal "9") with 9 in Hle. lia.
Qed.

Lemma realTime_below_sentinel t : isRealTime t = true -> strLt t sentinel.
Proof.
  unfold isRealTime.
  destruct t as [|h1 [|h2 [|c [|m1 [|m2 [|x t]]]]]]; try done. simpl.
  rewrite !andb_true_iff. intros [[[(H1 & H2 & _) _] Hh] _].
  unfold strLt, sentinel. simpl. by rewrite (hour_tens h1 h2).
Qed.

(** The same for every time the parser stores, 99:99 itself apart. *)
Lemma parsed_below_sentinel s :
  MatchString timeRegex s = true -> normalize s <> sentinel ->
  strLt (normalize s) sentinel.
Proof.
  intros (h1 & h2 & m1 & m2 & -> & H1 & H2 & H3 & H4 & _)%timeRegex_normalize Hne.
  unfold strLt, sentinel in *. simpl.
  destruct (digit_below_nine h1 H1) as [-> | ->]; [done|]. simpl.
  destruct (digit_below_nine h2 H2) as [-> | ->]; [done|]. simpl.
  destruct (digit_below_nine m1 H3) as [-> | ->]; [done|]. simpl.
  destruct (digit_below_nine m2 H4) as [-> | ->]; [done|]. done.
Qed.

Lemma orderLe_keyBefore a b :
  (forall t, startOf a = Some t -> strLt t sentinel) ->
  (forall t, startOf b = Some t -> strLt t sentinel) ->
  orderLe a b -> keyBefore a b.
Proof.
  intros Ha Hb. rewrite orderLe_iff, !effectiveStart_startOf. unfold keyBefore.
  destruct (startOf a) as [x|], (startOf b) as [y|]; simpl; try done.
  - intros [Hlt | [<- _]].
    + eapply strLt_irrefl, compare_lt_trans; [apply Hlt | by apply Hb].
    + eapply strLt_irrefl. by apply Hb.
  - intros [Hlt | [_ ?]]; [|done]. by apply strLt_irrefl in Hlt.
Qed.

Lemma StronglySorted_weaken {A} (R R' : relation A) (l : list A) :
  (forall x y, x ∈ l -> y ∈ l -> R x y -> R' x y) ->
  StronglySorted R l -> StronglySorted R' l.
Proof.
  intros HR Hs. induction Hs as [|x l Hs IH Hx]; constructor.
  - apply IH. intros y z Hy Hz. apply HR; by right.
  - rewrite Forall_forall in *. intros y Hy. apply HR; [by left | by right | auto].
Qed.

Lemma queryBlocks_elem st week day b :
  b ∈ queryBlocks st week day <-> b ∈ st /\ Week b = week /\ Day b = day.
Proof.
  unfold queryBlocks. rewrite merge_sort_Permutation, list_elem_of_filter.
  unfold inBucket. rewrite andb_true_iff, !String.eqb_eq. tauto.
Qed.

Lemma bucket_filter_all (st : store) week day :
  Forall (fun b => Week b = week /\ Day b = day) st ->
  filter (fun b => inBucket week day b = true) st = st.
Proof.
  induction 1 as [|b st [Hw Hd] _ IH]; [done|].
  rewrite filter_cons_True, IH; [done|].
  unfold inBucket. by rewrite andb_true_iff, !String.eqb_eq.
Qed.

(** ** Week keys are read back as written *)

Lemma span_noDigitHead rest : noDigitHead rest -> span isDigit rest = ("", rest).
Proof. destruct rest as [|c r]; simpl; [done|]. by intros ->. Qed.

Lemma span_digits u rest :
  noDigitHead rest ->
  span isDigit (NilEmpty.string_of_uint u +:+ rest) = (NilEmpty.string_of_uint u, rest).
Proof.
  intros Hrest. induction u; simpl; rewrite ?IHu; try done.
  by apply span_noDigitHead.
Qed.

Lemma scanInt_digits u rest :
  u <> Decimal.Nil -> noDigitHead rest ->
  scanInt (NilEmpty.string_of_uint u +:+ rest) = Some (Z.of_uint u, rest)
  /\ scanInt (String "-" (NilEmpty.string_of_uint u +:+ rest)) = Some (- Z.of_uint u, rest).
Proof.
  intros Hu Hrest.
  pose proof (span_digits u rest Hrest) as Hspan.
  pose proof (NilEmpty.usu u) as Husu.
  destruct u; try done; unfold scanInt; simpl in *;
    destruct (span isDigit _) as [a b]; injection Hspan as -> ->;
    simpl; simpl in Husu; destruct (NilEmpty.uint_of_string _) as [v|];
    try discriminate; injection Husu as ->; done.
Qed.

Lemma string_of_uint_nonnil u :
  u <> Decimal.Nil -> NilZero.string_of_uint u = NilEmpty.string_of_uint u.
Proof. by destruct u. Qed.

Lemma scanInt_itoa n rest : noDigitHead rest -> scanInt (itoa n +:+ rest) = Some (n, rest).
Proof.
  intros Hrest. unfold itoa. destruct n as [|p|p]; simpl.
  - unfold scanInt. simpl. by rewrite span_noDigitHead.
  - pose proof (DecimalPos.Unsigned.to_uint_nonnil p) as Hnil.
    rewrite string_of_uint_nonnil by done.
    destruct (scanInt_digits (Pos.to_uint p) rest Hnil Hrest) as [-> _].
    unfold Z.of_uint. by rewrite DecimalPos.Unsigned.of_to.
  - pose proof (DecimalPos.Unsigned.to_uint_nonnil p) as Hnil.
    rewrite string_of_uint_nonnil by done.
    destruct (scanInt_digits (Pos.to_uint p) rest Hnil Hrest) as [_ ->].
    unfold Z.of_uint. by rewrite DecimalPos.Unsigned.of_to.
Qed.

Lemma scanInt_itoa02 n : exists rest, scanInt (itoa02 n) = Some (n, rest).
Proof.
  unfold itoa02. destruct ((0 <=? n) && (n <? 10)) eqn:Hn.
  - apply andb_true_iff in Hn as [H0%Z.leb_le H10%Z.ltb_lt].
    exists "". by_range n 0 10%nat; reflexivity.
  - exists "". rewrite <- (append_nil_r (itoa n)). by apply scanInt_itoa.
Qed.

Lemma sscanWeek_weekKey year isoWeek : sscanWeek (weekKey year isoWeek) = (year, isoWeek).
Proof.
  unfold sscanWeek, weekKey. rewrite scanInt_itoa by done. simpl.
  by destruct (scanInt_itoa02 isoWeek) as [rest ->].
Qed.

(** ** The calendar *)

Lemma absDate_yday t : 0 <= (absDate t).2 <= 365.
Proof.
  unfold absDate, daysPer400Years, daysPer100Years, daysPer4Years. cbv zeta. simpl snd.
  rewrite !Z.shiftr_div_pow2 by lia. change (2 ^ 2) with 4.
  Z.div_mod_to_equations; lia.
Qed.

Lemma ISOWeek_range t : 1 <= (ISOWeek t).2 <= 53.
Proof.
  unfold ISOWeek.
  set (d := if _ =? 4 then -3 else _). clearbody d.
  pose proof (absDate_yday (t + d)) as Hy.
  destruct (absDate (t + d)) as [year yday]. simpl in *.
  Z.div_mod_to_equations; lia.
Qed.

(** The day number of a date gives the date back. *)
Lemma div_eq a b q : 0 < b -> b * q <= a < b * (q + 1) -> a / b = q.
Proof. intros Hb H. symmetry. apply (Z.div_unique a b q (a - b * q)); lia. Qed.

Lemma absDate_cycles a b c e k :
  0 <= b <= 3 -> 0 <= c <= 24 -> 0 <= e <= 3 -> 0 <= k ->
  (k < 365 \/ (k = 365 /\ e = 3 /\ (c < 24 \/ b = 3))) ->
  absDate (146097 * a + 36524 * b + 1461 * c + 365 * e + k)
  = (400 * a + 100 * b + 4 * c + e + 1, k).
Proof.
  intros Hb Hc He Hk Hleap.
  unfold absDate, daysPer400Years, daysPer100Years, daysPer4Years. cbv zeta.
  change (365 * 400 + 97) with 146097. change (365 * 100 + 24) with 36524.
  change (365 * 4 + 1) with 1461.
  rewrite !Z.shiftr_div_pow2 by lia. change (2 ^ 2) with 4.
  rewrite (div_eq (146097 * a + 36524 * b + 1461 * c + 365 * e + k) 146097 a) by lia.
  replace (146097 * a + 36524 * b + 1461 * c + 365 * e + k - 146097 * a)
    with (36524 * b + 1461 * c + 365 * e + k) by lia.
  set (d1 := 36524 * b + 1461 * c + 365 * e + k).
  assert (d1 / 36524 - d1 / 36524 / 4 = b) as ->.
  { destruct (Z.eq_dec d1 146096) as [E|E].
    - rewrite E. change (146096 / 36524 - 146096 / 36524 / 4) with 3. unfold d1 in E. lia.
    - rewrite (div_eq d1 36524 b) by (unfold d1 in *; lia).
      rewrite (div_eq b 4 0) by lia. lia. }
  replace (d1 - 36524 * b) with (1461 * c + 365 * e + k) by (unfold d1; lia).
  clear d1.
  rewrite (div_eq (1461 * c + 365 * e + k) 1461 c) by lia.
  replace (1461 * c + 365 * e + k - 1461 * c) with (365 * e + k) by lia.
  set (d3 := 365 * e + k).
  assert (d3 / 365 - d3 / 365 / 4 = e) as ->.
  { destruct (Z.eq_dec d3 1460) as [E|E].
    - rewrite E. change (1460 / 365 - 1460 / 365 / 4) with 3. unfold d3 in E. lia.
    - rewrite (div_eq d3 365 e) by (unfold d3 in *; lia).
      rewrite (div_eq e 4 0) by lia. lia. }
  f_equal; unfold d3; lia.
Qed.

Lemma year_cycles y :
  exists a b c e,
    0 <= b <= 3 /\ 0 <= c <= 24 /\ 0 <= e <= 3
    /\ y = 400 * a + 100 * b + 4 * c + e + 1
    /\ daysSinceEpoch y = 146097 * a + 36524 * b + 1461 * c + 365 * e.
Proof.
  unfold daysSinceEpoch, daysPer400Years, daysPer100Years, daysPer4Years. cbv zeta.
  set (a := (y - 1) / 400).
  set (y1 := y - 1 - 400 * a).
  set (b := y1 / 100).
  set (y2 := y1 - 100 * b).
  set (c := y2 / 4).
  set (e := y2 - 4 * c).
  assert (0 <= y1 < 400) by (unfold y1, a; Z.div_mod_to_equations; lia).
  assert (0 <= y2 < 100) by (unfold y2, b; Z.div_mod_to_equations; lia).
  assert (0 <= e < 4) by (unfold e, c; Z.div_mod_to_equations; lia).
  assert (0 <= b <= 3) by (unfold b; Z.div_mod_to_equations; lia).
  assert (0 <= c <= 24) by (unfold c; Z.div_mod_to_equations; lia).
  exists a, b, c, e. repeat split; try lia.
Qed.

Lemma isLeap_cycles a b c e :
  0 <= b <= 3 -> 0 <= c <= 24 -> 0 <= e <= 3 ->
  isLeap (400 * a + 100 * b + 4 * c + e + 1) = true <-> e = 3 /\ (c < 24 \/ b = 3).
Proof.
  intros Hb Hc He. unfold isLeap.
  set (y := 400 * a + 100 * b + 4 * c + e + 1).
  assert (y mod 4 = (e + 1) mod 4) as H4.
  { unfold y. replace (400 * a + 100 * b + 4 * c + e + 1)
      with ((e + 1) + (100 * a + 25 * b + c) * 4) by lia. apply Z.mod_add. lia. }
  assert (y mod 100 = (4 * c + e + 1) mod 100) as H100.
  { unfold y. replace (400 * a + 100 * b + 4 * c + e + 1)
      with ((4 * c + e + 1) + (4 * a + b) * 100) by lia. apply Z.mod_add. lia. }
  assert (y mod 400 = (100 * b + 4 * c + e + 1) mod 400) as H400.
  { unfold y. replace (400 * a + 100 * b + 4 * c + e + 1)
      with ((100 * b + 4 * c + e + 1) + a * 400) by lia. apply Z.mod_add. lia. }
  rewrite H4, H100, H400. clear H4 H100 H400 y.
  rewrite andb_true_iff, orb_true_iff, negb_true_iff, !Z.eqb_eq, Z.eqb_neq.
  Z.div_mod_to_equations. lia.
Qed.

Lemma absDate_year y k :
  0 <= k < yearLength y -> absDate (daysSinceEpoch y + k) = (y, k).
Proof.
  intros Hk. destruct (year_cycles y) as (a & b & c & e & Hb & Hc & He & Hy & Hd).
  rewrite Hd. rewrite Hy at 1. apply absDate_cycles; try lia.
  unfold yearLength in Hk. rewrite Hy in Hk.
  pose proof (isLeap_cycles a b c e Hb Hc He) as Hl.
  destruct (isLeap _); [|lia].
  destruct (proj1 Hl eq_refl) as [? ?]. lia.
Qed.

Lemma civil_check :
  forallb (fun leap => forallb (fun m => forallb (civilOk leap m) (zrange 1 31))
                         (zrange 1 12)) [true; false] = true.
Proof. vm_compute. reflexivity. Qed.

Lemma Date_yearDay y m d : Date y m d = daysSinceEpoch y + yearDayOf (isLeap y) m d.
Proof. unfold Date, yearDayOf. destruct (isLeap y && (3 <=? m)); lia. Qed.

Lemma Date_civil y m d :
  realDate y m d = true ->
  Year (Date y m d) = y /\ Month (Date y m d) = m /\ Time.Day (Date y m d) = d
  /\ YearDay0 (Date y m d) = yearDayOf (isLeap y) m d.
Proof.
  unfold realDate. rewrite !andb_true_iff, !Z.leb_le. intros [[[Hm1 Hm12] Hd1] Hd].
  assert (civilOk (isLeap y) m d = true) as Hok.
  { pose proof civil_check as Hc. rewrite forallb_forall in Hc.
    assert (In (isLeap y) [true; false]) as Hl by (destruct (isLeap y); simpl; tauto).
    specialize (Hc _ Hl). rewrite forallb_forall in Hc.
    specialize (Hc m (zrange_elem 1 12 m ltac:(lia))). rewrite forallb_forall in Hc.
    apply Hc. apply zrange_elem.
    assert (daysIn m y <= 31); [|lia].
    unfold daysIn. destruct ((m =? 2) && isLeap y); [lia|].
    clear Hd. by_range m 1 12%nat; vm_compute; discriminate. }
  unfold civilOk in Hok. unfold daysIn in Hd.
  apply Z.leb_le in Hd. rewrite Hd in Hok. simpl in Hok.
  rewrite !andb_true_iff, !Z.eqb_eq, Z.leb_le, Z.ltb_lt in Hok.
  destruct Hok as [[[Hy0 Hy1] Hmo] Hda].
  unfold Month, Time.Day. unfold Year, YearDay0, monthDay.
  rewrite Date_yearDay, absDate_year by (unfold yearLength; lia).
  simpl. done.
Qed.

(** ** [parseDay] on a day name *)

Lemma parseDay_name now d :
  d ∈ days ->
  parseDay now d = Ok (weekKey (ISOWeek now).1 (ISOWeek now).2, d)
  /\ parseDay now ("+" +:+ d)
     = Ok (weekKey (weekSucc (ISOWeek now)).1 (weekSucc (ISOWeek now)).2, d).
Proof.
  intros Hd. unfold weekSucc. destruct (ISOWeek now) as [y w] eqn:Hiso. simpl.
  apply list_elem_of_In in Hd. simpl in Hd.
  repeat (destruct Hd as [<- | Hd]; [
    split; [unfold parseDay; rewrite Hiso; reflexivity|];
    match goal with
    | |- parseDay _ (String _ ?name) = _ =>
        transitivity (let '(year, isoWeek) :=
                        if 52 <? w + 1 then (y + 1, 1) else (y, w + 1) in
                      @Ok (string * string) (weekKey year isoWeek, name));
        [unfold parseDay; rewrite Hiso; reflexivity|]
    end;
    destruct (Z.ltb_spec 52 (w + 1)), (Z.ltb_spec w 52); try lia; reflexivity |]).
  done.
Qed.

(** C2: for each of the seven day names, the name alone and the name after
    [+] resolve to that same day; the key of the first is the ISO week of
    the clock reading, the key of the second its successor, where week 52
    and any later week are followed by week 1 of the next year. In the
    53-week year 2026 the week after 2026-W52 is therefore 2027-W01, while
    a date of that week resolves to 2026-W53. *)
Theorem next_week_day :
  (forall now d,
      d ∈ days ->
      exists key key',
        parseDay now d = Ok (key, d)
        /\ parseDay now ("+" +:+ d) = Ok (key', d)
        /\ sscanWeek key = ISOWeek now
        /\ sscanWeek key' = weekSucc (sscanWeek key))
  /\ weekSucc (2026, 51) = (2026, 52)
  /\ weekSucc (2026, 52) = (2027, 1)
  /\ weekSucc (2026, 53) = (2027, 1)
  /\ parseDay (Date 2026 12 21) "monday" = Ok ("2026-W52", "monday")
  /\ parseDay (Date 2026 12 21) "+monday" = Ok ("2027-W01", "monday")
  /\ parseDay (Date 2026 12 21) "2026-12-28" = Ok ("2026-W53", "monday").
Proof.
  split; [|repeat split; reflexivity].
  intros now d Hd. destruct (parseDay_name now d Hd) as [H1 H2].
  eexists _, _. split; [exact H1|]. split; [exact H2|].
  rewrite !sscanWeek_weekKey. destruct (ISOWeek now) as [y w]. simpl.
  split; [done|]. by destruct (weekSucc (y, w)).
Qed.

Lemma next_week_day_witness :
  exists key key',
    parseDay (Date 2025 2 10) "friday" = Ok (key, "friday")
    /\ parseDay (Date 2025 2 10) "+friday" = Ok (key', "friday")
    /\ sscanWeek key = (2025, 7) /\ sscanWeek key' = (2025, 8).
Proof.
  destruct (proj1 next_week_day (Date 2025 2 10) "friday")
    as (key & key' & H1 & H2 & H3 & H4).
  - vm_compute. apply list_elem_of_In. simpl. tauto.
  - exists key, key'. split; [exact H1|]. split; [exact H2|].
    split; [exact H3|]. rewrite H4, H3. reflexivity.
Defined.

(** C10: a date token takes its key from the ISO week of the date, so the
    key's year can differ from the token's (2024-12-30 is in 2025-W01) and
    its week can be 53 (2026-12-28 is in 2026-W53); the week of a key made
    by [+day], by [--last] or [--next], or by the previous and next links
    of a week 1..53, is always in 1..52. *)
Theorem week53_only_from_dates :
  (forall now, parseDay now "2024-12-30" = Ok ("2025-W01", "monday"))
  /\ (forall now, parseDay now "2026-12-28" = Ok ("2026-W53", "monday"))
  /\ (forall now d, d ∈ days ->
        exists key, parseDay now ("+" +:+ d) = Ok (key, d)
                    /\ 1 <= (sscanWeek key).2 <= 52)
  /\ (forall now last next, last || next = true ->
        1 <= (sscanWeek (getWeek now "" last next)).2 <= 52)
  /\ (forall week, 1 <= (sscanWeek week).2 <= 53 ->
        1 <= (sscanWeek (servePrevWeek week)).2 <= 52
        /\ 1 <= (sscanWeek (serveNextWeek week)).2 <= 52).
Proof.
  split; [intros now; reflexivity|]. split; [intros now; reflexivity|].
  split; [|split].
  - intros now d Hd. destruct (parseDay_name now d Hd) as [_ H2].
    eexists. split; [exact H2|]. rewrite sscanWeek_weekKey.
    pose proof (ISOWeek_range now). unfold weekSucc.
    destruct (ISOWeek now) as [y w]. simpl in *.
    destruct (Z.ltb_spec w 52); simpl; lia.
  - intros now last next Hflag. unfold getWeek.
    change (negb (String.eqb "" "")) with false. cbv iota.
    pose proof (ISOWeek_range now) as Hr. destruct (ISOWeek now) as [y w].
    simpl in Hr. destruct last; [|destruct next; [|done]].
    + destruct (Z.ltb_spec (w - 1) 1); cbv beta iota zeta;
        rewrite sscanWeek_weekKey; simpl; lia.
    + destruct (Z.ltb_spec 52 (w + 1)); cbv beta iota zeta;
        rewrite sscanWeek_weekKey; simpl; lia.
  - intros week Hw. unfold servePrevWeek, serveNextWeek.
    destruct (sscanWeek week) as [y w]. simpl in Hw.
    destruct (Z.ltb_spec (w - 1) 1), (Z.ltb_spec 52 (w + 1)); cbv beta iota zeta;
      rewrite !sscanWeek_weekKey; simpl; lia.
Qed.

Lemma week53_only_from_dates_witness :
  (exists key, parseDay (Date 2026 12 21) "+sunday" = Ok (key, "sunday")
               /\ 1 <= (sscanWeek key).2 <= 52)
  /\ 1 <= (sscanWeek (getWeek (Date 2026 12 28) "" true false)).2 <= 52
  /\ 1 <= (sscanWeek (servePrevWeek "2026-W53")).2 <= 52.
Proof.
  split; [|split].
  - apply (proj1 (proj2 (proj2 week53_only_from_dates)) (Date 2026 12 21) "sunday").
    vm_compute. apply list_elem_of_In. simpl. tauto.
  - apply (proj1 (proj2 (proj2 (proj2 week53_only_from_dates)))
             (Date 2026 12 28) true false). reflexivity.
  - apply (proj2 (proj2 (proj2 (proj2 week53_only_from_dates))) "2026-W53").
    vm_compute. split; discriminate.
Defined.

(** ** [parseDay] on a date *)

(** The words of [^\d{4}-\d{2}-\d{2}$]. *)
Lemma dateRegex_inv tok :
  MatchString dateRegex tok = true ->
  exists y1 y2 y3 y4 m1 m2 d1 d2,
    tok = String y1 (String y2 (String y3 (String y4 (String "-"
            (String m1 (String m2 (String "-" (String d1 (String d2 "")))))))))
    /\ forallb isDigit [y1; y2; y3; y4; m1; m2; d1; d2] = true.
Proof.
  intros H%MatchString_lang. unfold dateRegex in H. lang_inv. simpl.
  do 8 eexists. split; [reflexivity|].
  simpl.
  repeat match goal with
    | H : isDigit ?c = true |- context [isDigit ?c] => rewrite H
    end.
  reflexivity.
Qed.

Lemma digit_not_t c : isDigit c = true -> Ascii.eqb c "t" = false.
Proof. by_bytes c. Qed.

Lemma weekday_name_in_days w : ToLower (weekdayString w) ∈ days.
Proof. destruct w; apply list_elem_of_In; simpl; tauto. Qed.

(** C6: a token of the shape [YYYY-MM-DD] resolves, whatever the clock
    reads, from the date it writes: when the month is in 1..12 and the day
    within the month, to the ISO week key and the weekday name of that
    date (whose year, month and day are the written ones); otherwise to
    the invalid-date error. 2025-02-10 is Monday of 2025-W07; day 32 and
    February 29 of 2025 are refused. *)
Theorem parseDay_date :
  (forall now tok,
      MatchString dateRegex tok = true ->
      exists year month day,
        dateFields tok = (year, month, day)
        /\ parseDay now tok =
           if realDate year month day then
             let t := Date year month day in
             Ok (weekKey (ISOWeek t).1 (ISOWeek t).2, ToLower (weekdayString (weekday t)))
           else Err (InvalidDate tok))
  /\ (forall year month day,
        realDate year month day = true ->
        Year (Date year month day) = year /\ Month (Date year month day) = month
        /\ Time.Day (Date year month day) = day)
  /\ (forall now, parseDay now "2025-02-10" = Ok ("2025-W07", "monday"))
  /\ (forall now, parseDay now "2025-02-32" = Err (InvalidDate "2025-02-32"))
  /\ (forall now, parseDay now "2025-02-29" = Err (InvalidDate "2025-02-29"))
  /\ (forall now, parseDay now "2024-02-29" = Ok ("2024-W09", "thursday"))
  /\ (forall now, parseDay now "2025-13-01" = Err (InvalidDate "2025-13-01"))
  /\ (forall now tok week day, MatchString dateRegex tok = true ->
        parseDay now tok = Ok (week, day) -> day ∈ days).
Proof.
  assert (forall now tok,
      MatchString dateRegex tok = true ->
      exists year month day,
        dateFields tok = (year, month, day)
        /\ parseDay now tok =
           if realDate year month day then
             let t := Date year month day in
             Ok (weekKey (ISOWeek t).1 (ISOWeek t).2, ToLower (weekdayString (weekday t)))
           else Err (InvalidDate tok)) as Hgen.
  { intros now tok Hm.
    destruct (dateRegex_inv tok Hm)
      as (y1 & y2 & y3 & y4 & m1 & m2 & d1 & d2 & -> & Hd).
    exists (1000 * digitVal y1 + 100 * digitVal y2 + 10 * digitVal y3 + digitVal y4),
      (10 * digitVal m1 + digitVal m2), (10 * digitVal d1 + digitVal d2).
    split; [unfold dateFields; simpl; repeat f_equal; lia|].
    set (year := 1000 * _ + _ + _ + _). set (month := 10 * _ + digitVal m2).
    set (day := 10 * _ + digitVal d2).
    unfold parseDay.
    set (tok := String y1 _) in *.
    assert (ToLower (TrimSpace tok) = tok) as ->.
    { simpl in Hd. rewrite !andb_true_iff in Hd.
      destruct Hd as (Y1 & Y2 & Y3 & Y4 & M1 & M2 & D1 & D2 & _).
      unfold TrimSpace, tok. simpl.
      repeat first [ rewrite (digit_not_space _ Y1) | rewrite (digit_not_space _ Y2)
                   | rewrite (digit_not_space _ Y3) | rewrite (digit_not_space _ Y4)
                   | rewrite (digit_not_space _ M1) | rewrite (digit_not_space _ M2)
                   | rewrite (digit_not_space _ D1) | rewrite (digit_not_space _ D2)
                   | progress simpl ].
      rewrite (digit_lower _ Y1), (digit_lower _ Y2), (digit_lower _ Y3),
        (digit_lower _ Y4), (digit_lower _ M1), (digit_lower _ M2),
        (digit_lower _ D1), (digit_lower _ D2). reflexivity. }
    assert (String.eqb tok "today" = false) as ->.
    { unfold tok. simpl. rewrite digit_not_t; [done|].
      simpl in Hd. by apply andb_true_iff in Hd as [? _]. }
    rewrite Hm. unfold Parse, tok. simpl list_ascii_of_string. cbv iota beta.
    rewrite Hd. change (true && ("-" =? "-")%char && ("-" =? "-")%char) with true.
    cbv iota. fold year month day. unfold realDate.
    generalize (daysIn month year). intros len.
    rewrite !Z.ltb_antisym.
    destruct (1 <=? month), (month <=? 12), (1 <=? day), (day <=? len);
      cbn [orb andb negb]; cbv beta iota zeta;
      first [ destruct (ISOWeek _); reflexivity | reflexivity ]. }
  split; [exact Hgen|].
  split; [intros y m d Hreal; destruct (Date_civil y m d Hreal) as (? & ? & ? & _); done|].
  repeat split; try (intros now; reflexivity).
  intros now tok week day Hm Hok.
  destruct (Hgen now tok Hm) as (y & m & d & _ & Hp). rewrite Hok in Hp.
  destruct (realDate y m d); [|discriminate]. injection Hp as _ ->.
  apply weekday_name_in_days.
Qed.

Lemma parseDay_date_witness :
  parseDay 0 "1999-12-31" = Ok ("1999-W52", "friday").
Proof.
  destruct (proj1 parseDay_date 0 "1999-12-31") as (y & m & d & Hf & Hp);
    [reflexivity|].
  rewrite Hp. vm_compute in Hf. injection Hf as <- <- <-. reflexivity.
Defined.

(** ** The Monday anchor of a week key *)

Lemma weekday_num t : weekdayNum (weekday t) = (t + 1) mod 7.
Proof.
  unfold weekday. pose proof (Z.mod_pos_bound (t + 1) 7 ltac:(lia)) as Hb.
  set (r := (t + 1) mod 7) in *. clearbody r.
  by_range r 0 7%nat; reflexivity.
Qed.

Lemma weekday_Monday t : (t + 1) mod 7 = 1 -> weekday t = Monday.
Proof. unfold weekday. by intros ->. Qed.

Lemma firstMonday_spec year :
  weekday (firstMonday year) = Monday
  /\ Date year 1 1 - 6 <= firstMonday year <= Date year 1 1.
Proof.
  unfold firstMonday, AddDate. cbv zeta. rewrite weekday_num.
  change (weekdayNum Monday) with 1.
  set (jan1 := Date year 1 1). clearbody jan1.
  pose proof (Z.mod_pos_bound (jan1 + 1) 7 ltac:(lia)) as Hb.
  destruct (Z.ltb_spec 0 (1 - (jan1 + 1) mod 7)); (split; [apply weekday_Monday|]);
    Z.div_mod_to_equations; lia.
Qed.

Lemma Date_jan1 year :
  Year (Date year 1 1) = year /\ Month (Date year 1 1) = 1 /\ Time.Day (Date year 1 1) = 1.
Proof.
  destruct (Date_civil year 1 1) as (? & ? & ? & _); [|done].
  unfold realDate, daysIn. by destruct (isLeap year).
Qed.

Lemma daysSinceEpoch_cycles a b c e :
  0 <= b <= 3 -> 0 <= c <= 24 -> 0 <= e <= 3 ->
  daysSinceEpoch (400 * a + 100 * b + 4 * c + e + 1)
  = 146097 * a + 36524 * b + 1461 * c + 365 * e.
Proof.
  intros Hb Hc He.
  destruct (year_cycles (400 * a + 100 * b + 4 * c + e + 1))
    as (a' & b' & c' & e' & Hb' & Hc' & He' & Hy & ->).
  assert (a' = a) by lia. subst a'.
  assert (b' = b) by lia. subst b'.
  assert (c' = c) by lia. subst c'. lia.
Qed.

(** A day number is the first day of its year plus its position in the year. *)
Lemma absDate_inv t :
  t = daysSinceEpoch (absDate t).1 + (absDate t).2
  /\ 0 <= (absDate t).2 < yearLength (absDate t).1.
Proof.
  set (a := t / 146097).
  set (d1 := t - 146097 * a).
  assert (0 <= d1 < 146097) as Hd1 by (unfold d1, a; Z.div_mod_to_equations; lia).
  set (b := Z.min (d1 / 36524) 3).
  assert (0 <= b <= 3) as Hb by (unfold b; Z.div_mod_to_equations; lia).
  set (d2 := d1 - 36524 * b).
  assert (0 <= d2 <= 36524 /\ (d2 = 36524 -> b = 3)) as [Hd2 Hd2']
    by (unfold d2, b; Z.div_mod_to_equations; lia).
  set (c := d2 / 1461).
  assert (0 <= c <= 24) as Hc by (unfold c; Z.div_mod_to_equations; lia).
  set (d3 := d2 - 1461 * c).
  assert (0 <= d3 < 1461) as Hd3 by (unfold d3, c; Z.div_mod_to_equations; lia).
  set (e := Z.min (d3 / 365) 3).
  assert (0 <= e <= 3) as He by (unfold e; Z.div_mod_to_equations; lia).
  set (k := d3 - 365 * e).
  assert (0 <= k <= 365 /\ (k = 365 -> e = 3)) as [Hk Hk']
    by (unfold k, e; Z.div_mod_to_equations; lia).
  assert (t = 146097 * a + 36524 * b + 1461 * c + 365 * e + k) as Ht
    by (unfold k, d3, d2, d1; lia).
  assert (k < 365 \/ (k = 365 /\ e = 3 /\ (c < 24 \/ b = 3))) as Hleap.
  { destruct (Z.eq_dec k 365) as [E|E]; [right|lia].
    split; [done|]. split; [auto|].
    destruct (Z.eq_dec c 24) as [Ec|Ec]; [right|lia].
    apply Hd2'. unfold k, d3 in E. specialize (Hk' E). lia. }
  pose proof (absDate_cycles a b c e k Hb Hc He ltac:(lia) Hleap) as Habs.
  rewrite <- Ht in Habs. rewrite Habs. simpl.
  rewrite daysSinceEpoch_cycles by done. split; [lia|].
  unfold yearLength. pose proof (isLeap_cycles a b c e Hb Hc He) as Hl.
  destruct (isLeap _); [lia|].
  destruct Hleap as [?|(? & ? & ?)]; [lia|]. 
  assert (false = true); [|done]. apply Hl. done.
Qed.

(** The Thursday of the week of [t]: day 0 is a Monday. *)
Lemma ISOWeek_thursday t :
  ISOWeek t = ((absDate (7 * (t / 7) + 3)).1, (absDate (7 * (t / 7) + 3)).2 / 7 + 1).
Proof.
  unfold ISOWeek. rewrite weekday_num. change (weekdayNum Thursday) with 4.
  assert (t + (if 4 - (t + 1) mod 7 =? 4 then -3 else 4 - (t + 1) mod 7)
          = 7 * (t / 7) + 3) as ->.
  { destruct (Z.eqb_spec (4 - (t + 1) mod 7) 4); Z.div_mod_to_equations; lia. }
  by destruct (absDate _).
Qed.

Lemma firstMonday_closed year : firstMonday year = 7 * (Date year 1 1 / 7).
Proof.
  unfold firstMonday, AddDate. cbv zeta. rewrite weekday_num.
  change (weekdayNum Monday) with 1.
  generalize (Date year 1 1). intros J.
  destruct (Z.ltb_spec 0 (1 - (J + 1) mod 7)); Z.div_mod_to_equations; lia.
Qed.

Lemma Date_jan1_epoch year : Date year 1 1 = daysSinceEpoch year.
Proof.
  unfold Date. change (daysBeforeAt (1 - 1)) with 0.
  rewrite andb_false_r. lia.
Qed.

Lemma late_new_year year :
  (4 <=? Date year 1 1 mod 7) =
  match weekday (Date year 1 1) with Friday | Saturday | Sunday => true | _ => false end.
Proof.
  unfold weekday. generalize (Date year 1 1). intros J.
  pose proof (Z.mod_pos_bound J 7 ltac:(lia)).
  assert ((J + 1) mod 7 = if J mod 7 =? 6 then 0 else J mod 7 + 1) as ->.
  { destruct (Z.eqb_spec (J mod 7) 6); Z.div_mod_to_equations; lia. }
  set (j := J mod 7) in *. clearbody j. by_range j 0 7%nat; reflexivity.
Qed.

Lemma mondayOf_ISOWeek t :
  mondayOf (weekKey (ISOWeek t).1 (ISOWeek t).2)
  = 7 * (t / 7) - (if 4 <=? Date (ISOWeek t).1 1 1 mod 7 then 7 else 0).
Proof.
  unfold mondayOf. rewrite sscanWeek_weekKey, firstMonday_closed. unfold AddDate.
  rewrite ISOWeek_thursday. cbn [fst snd].
  destruct (absDate_inv (7 * (t / 7) + 3)) as [Hsum Hk].
  destruct (absDate (7 * (t / 7) + 3)) as [y k]. cbn [fst snd] in *.
  rewrite Date_jan1_epoch.
  set (J := daysSinceEpoch y) in *. clearbody J.
  assert (0 <= k) by lia. clear Hk.
  destruct (Z.leb_spec 4 (J mod 7)); Z.div_mod_to_equations; lia.
Qed.

(** ** [parseDay], case by case *)

Lemma parseDay_today now :
  parseDay now "today"
  = Ok (weekKey (ISOWeek now).1 (ISOWeek now).2, ToLower (weekdayString (weekday now))).
Proof. unfold parseDay. by destruct (ISOWeek now). Qed.

Lemma dateToken_normal tok :
  MatchString dateRegex tok = true ->
  ToLower (TrimSpace tok) = tok /\ String.eqb tok "today" = false.
Proof.
  intros Hm. destruct (dateRegex_inv tok Hm)
    as (y1 & y2 & y3 & y4 & m1 & m2 & d1 & d2 & -> & Hd).
  simpl in Hd. rewrite !andb_true_iff in Hd.
  destruct Hd as (Y1 & Y2 & Y3 & Y4 & M1 & M2 & D1 & D2 & _). split.
  - unfold TrimSpace. simpl.
    repeat first [ rewrite (digit_not_space _ Y1) | rewrite (digit_not_space _ Y2)
                 | rewrite (digit_not_space _ Y3) | rewrite (digit_not_space _ Y4)
                 | rewrite (digit_not_space _ M1) | rewrite (digit_not_space _ M2)
                 | rewrite (digit_not_space _ D1) | rewrite (digit_not_space _ D2)
                 | progress simpl ].
    rewrite (digit_lower _ Y1), (digit_lower _ Y2), (digit_lower _ Y3),
      (digit_lower _ Y4), (digit_lower _ M1), (digit_lower _ M2),
      (digit_lower _ D1), (digit_lower _ D2). reflexivity.
  - simpl. by rewrite digit_not_t.
Qed.

Lemma parseDay_dateToken now tok :
  MatchString dateRegex tok = true ->
  parseDay now tok =
  match Parse tok with
  | Some t => Ok (weekKey (ISOWeek t).1 (ISOWeek t).2, ToLower (weekdayString (weekday t)))
  | None => Err (InvalidDate tok)
  end.
Proof.
  intros Hm. destruct (dateToken_normal tok Hm) as [Hn Ht].
  unfold parseDay. rewrite Hn, Ht, Hm.
  destruct (Parse tok) as [t|]; [|done]. by destruct (ISOWeek t).
Qed.

Lemma dayMap_days x : is_Some (dayMap !! x) <-> x ∈ days.
Proof.
  assert (dayMap = <["monday" := 0]> (<["tuesday" := 1]> (<["wednesday" := 2]>
            (<["thursday" := 3]> (<["friday" := 4]> (<["saturday" := 5]>
            (<["sunday" := 6]> ∅))))))) as -> by (vm_compute; reflexivity).
  unfold days. rewrite !lookup_insert_is_Some, lookup_empty, !elem_of_cons, elem_of_nil.
  split.
  - intros H. repeat (destruct H as [<- | [_ H]]; [tauto|]). by destruct H.
  - intros H.
    repeat (destruct H as [-> | H];
            [repeat first [left; reflexivity | right; split; [discriminate|]]|]).
    done.
Qed.

(** ** The week of a day and the week the listing shows *)

Lemma weekday_offset t :
  dayOffsets !! ToLower (weekdayString (weekday t)) = Some (t mod 7).
Proof.
  unfold weekday. pose proof (Z.mod_pos_bound t 7 ltac:(lia)) as Hb.
  assert ((t + 1) mod 7 = if t mod 7 =? 6 then 0 else t mod 7 + 1) as ->.
  { destruct (Z.eqb_spec (t mod 7) 6); Z.div_mod_to_equations; lia. }
  set (j := t mod 7) in *. clearbody j. by_range j 0 7%nat; reflexivity.
Qed.

Lemma targetDate_ISOWeek t :
  targetDate (weekKey (ISOWeek t).1 (ISOWeek t).2) (ToLower (weekdayString (weekday t)))
  = match weekday (Date (ISOWeek t).1 1 1) with
    | Friday | Saturday | Sunday => t - 7
    | _ => t
    end.
Proof.
  unfold targetDate, AddDate. rewrite weekday_offset, mondayOf_ISOWeek, late_new_year.
  simpl default.
  destruct (weekday _); Z.div_mod_to_equations; lia.
Qed.

Lemma monday_week now k :
  weekday now = Monday -> 0 <= k <= 6 -> (now + k) / 7 = now / 7.
Proof.
  intros Hm Hk. assert (weekdayNum (weekday now) = 1) as H1 by (by rewrite Hm).
  rewrite weekday_num in H1. Z.div_mod_to_equations. lia.
Qed.

(** ** Trimming and lower case *)

Lemma isSpace_lower c : isSpace (lowerChar c) = isSpace c.
Proof. by_bytes c. Qed.

Lemma trimLeft_ToLower s : trimLeft (ToLower s) = ToLower (trimLeft s).
Proof.
  induction s as [|c s IH]; simpl; [done|].
  rewrite isSpace_lower. by destruct (isSpace c).
Qed.

Lemma trimRight_ToLower s : trimRight (ToLower s) = ToLower (trimRight s).
Proof.
  induction s as [|c s IH]; simpl; [done|].
  rewrite IH, isSpace_lower. destruct (trimRight s); simpl; [|done].
  by destruct (isSpace c).
Qed.

Lemma trimRight_idem s : trimRight (trimRight s) = trimRight s.
Proof.
  induction s as [|c s IH]; simpl; [done|].
  destruct (trimRight s) as [|a r] eqn:Hr.
  - destruct (isSpace c) eqn:Hc; simpl; [done|]. by rewrite Hc.
  - change (trimRight (String c (String a r)))
      with (match trimRight (String a r) with
            | "" => if isSpace c then "" else String c ""
            | r' => String c r'
            end).
    by rewrite IH.
Qed.

Lemma trimLeft_head s : headNotSpace (trimLeft s).
Proof.
  induction s as [|c s IH]; simpl; [done|].
  by destruct (isSpace c) eqn:Hc.
Qed.

Lemma trimRight_head s : headNotSpace s -> headNotSpace (trimRight s).
Proof.
  destruct s as [|c s]; simpl; [done|]. intros Hc.
  destruct (trimRight s); [by rewrite Hc | done].
Qed.

Lemma trimLeft_fixed s : headNotSpace s -> trimLeft s = s.
Proof. destruct s as [|c s]; simpl; [done|]. by intros ->. Qed.

Lemma TrimSpace_idem s : TrimSpace (TrimSpace s) = TrimSpace s.
Proof.
  unfold TrimSpace.
  rewrite (trimLeft_fixed (trimRight (trimLeft s)))
    by apply trimRight_head, trimLeft_head.
  apply trimRight_idem.
Qed.

Lemma normal_idem s : ToLower (TrimSpace (ToLower (TrimSpace s))) = ToLower (TrimSpace s).
Proof.
  unfold TrimSpace at 1. rewrite trimLeft_ToLower, trimRight_ToLower.
  fold (TrimSpace (TrimSpace s)). by rewrite TrimSpace_idem, ToLower_idem.
Qed.

Lemma existsb_days x : existsb (String.eqb x) days = true <-> x ∈ days.
Proof.
  rewrite existsb_exists. split.
  - intros (d & Hd & ->%String.eqb_eq). by apply list_elem_of_In.
  - intros Hx. exists x. split; [by apply list_elem_of_In | apply String.eqb_refl].
Qed.

Lemma plus_rest r : String.substring 1 (String.length (String "+" r) - 1) (String "+" r) = r.
Proof.
  simpl. rewrite Nat.sub_0_r. induction r as [|c r IH]; simpl; [done|]. by rewrite IH.
Qed.

Lemma HasPrefix_plus n : HasPrefix n "+" = true <-> exists r, n = String "+" r.
Proof.
  unfold HasPrefix. destruct n as [|c r]; unfold String.prefix.
  - split; [done | by intros [? ?]].
  - destruct (ascii_dec "+" c) as [<-|Hc].
    + split; [eauto|]. intros _. by destruct r.
    + split; [done|]. intros [r' [= -> _]]. done.
Qed.

(** ** Time ranges *)

Lemma Split_nodash s : Count s "-" = 0%nat -> Split s "-" = [s].
Proof.
  induction s as [|c s IH]; simpl; [done|].
  destruct (Ascii.eqb c "-"); [done|]. intros H. by rewrite IH.
Qed.

Lemma Split_app a b :
  Count a "-" = 0%nat -> Split (a +:+ String "-" b) "-" = a :: Split b "-".
Proof.
  induction a as [|c a IH]; simpl; [done|].
  destruct (Ascii.eqb c "-"); [done|]. intros H. by rewrite IH.
Qed.

Lemma timeRegex_nodash s : MatchString timeRegex s = true -> Count s "-" = 0%nat.
Proof.
  intros (h & m1 & m2 & Hm1 & Hm2 & [[Hh ->] | (h1 & Hh1 & Hh & ->)])%timeRegex_inv;
    simpl; rewrite ?(digit_not_dash _ Hh1), (digit_not_dash _ Hh),
             (digit_not_dash _ Hm1), (digit_not_dash _ Hm2); done.
Qed.

Ltac use_digits :=
  repeat first
    [ progress simpl
    | match goal with
      | H : isDigit ?c = true |- context [isDigit ?c] => rewrite H
      end ].

Lemma canonical_time h1 h2 m1 m2 :
  isDigit h1 = true -> isDigit h2 = true -> isDigit m1 = true -> isDigit m2 = true ->
  MatchString timeRegex (String h1 (String h2 (String ":" (String m1 (String m2 ""))))) = true.
Proof. intros. use_digits. done. Qed.

Lemma normalize_canonical s :
  MatchString timeRegex s = true ->
  MatchString timeRegex (normalize s) = true /\ String.length (normalize s) = 5%nat
  /\ normalize (normalize s) = normalize s.
Proof.
  intros (h1 & h2 & m1 & m2 & -> & H1 & H2 & H3 & H4 & _)%timeRegex_normalize.
  split; [by apply canonical_time | done].
Qed.

Lemma parse_parts a b :
  MatchString timeRegex a = true -> MatchString timeRegex b = true ->
  parseTimeRange (a +:+ String "-" b) = Ok (normalize a, normalize b).
Proof.
  intros Ha Hb. unfold parseTimeRange.
  rewrite Split_app, Split_nodash by (by apply timeRegex_nodash).
  by rewrite !timeRegex_TrimSpace, Ha, Hb.
Qed.

Lemma timeRange_parts s :
  isTimeRange s = true <->
  exists a b, s = a +:+ String "-" b
              /\ MatchString timeRegex a = true /\ MatchString timeRegex b = true.
Proof.
  unfold isTimeRange. rewrite MatchString_lang. split.
  - unfold timeRangeRegex. intros H.
    apply lang_cat_inv in H as (s1 & r1 & -> & H1 & H).
    apply lang_cat_inv in H as (s2 & r2 & -> & H2 & H).
    apply lang_cat_inv in H as (s3 & r3 & -> & H3 & H).
    apply lang_cat_inv in H as (s4 & r4 & -> & H4 & H).
    apply lang_cat_inv in H as (s5 & r5 & -> & H5 & H).
    apply lang_cat_inv in H as (s6 & b & -> & ->%lang_lit_inv & Hb).
    exists (s1 +:+ (s2 +:+ (s3 +:+ (s4 +:+ s5)))), b.
    split; [by rewrite !append_assoc|].
    split; apply MatchString_lang; [|exact Hb].
    unfold timeRegex. repeat (constructor; [done|]). done.
  - intros (a & b & -> & Ha%MatchString_lang & Hb%MatchString_lang).
    unfold timeRegex in Ha.
    apply lang_cat_inv in Ha as (s1 & r1 & -> & H1 & H).
    apply lang_cat_inv in H as (s2 & r2 & -> & H2 & H).
    apply lang_cat_inv in H as (s3 & r3 & -> & H3 & H).
    apply lang_cat_inv in H as (s4 & s5 & -> & H4 & H5).
    rewrite !append_assoc. unfold timeRangeRegex.
    repeat (constructor; [done|]).
    change (String "-" b) with (String "-" "" +:+ b).
    constructor; [|exact Hb]. by apply lang_cls, Ascii.eqb_refl.
Qed.

(** ** What the parsers return *)

Lemma parseDay_Ok_inv now input week day :
  parseDay now input = Ok (week, day) ->
  day ∈ days
  /\ 1 <= (sscanWeek week).2 <= 53
  /\ week = weekKey (sscanWeek week).1 (sscanWeek week).2.
Proof.
  unfold parseDay. generalize (ToLower (TrimSpace input)). intros n.
  pose proof (ISOWeek_range now) as Hnow.
  destruct (String.eqb n "today").
  { destruct (ISOWeek now) as [y w]. intros [= <- <-]. rewrite sscanWeek_weekKey.
    split; [apply weekday_name_in_days | done]. }
  destruct (MatchString dateRegex n).
  { destruct (Parse n) as [t|]; [|done]. pose proof (ISOWeek_range t) as Ht.
    destruct (ISOWeek t) as [y w]. intros [= <- <-]. rewrite sscanWeek_weekKey.
    split; [apply weekday_name_in_days | done]. }
  cbv zeta. set (rest := if HasPrefix n "+" then _ else n). clearbody rest.
  destruct (dayMap !! rest) as [i|] eqn:Hday; [|done].
  assert (rest ∈ days) as Hrest by (apply dayMap_days; eauto).
  destruct (ISOWeek now) as [y w]. cbn [snd] in Hnow.
  destruct (HasPrefix n "+"); [destruct (Z.ltb_spec 52 (w + 1))|];
    intros [= <- <-]; rewrite sscanWeek_weekKey; cbn [fst snd];
    (split; [done|]); (split; [lia | done]).
Qed.

Lemma parseTimeRange_Ok_inv input start end_ :
  parseTimeRange input = Ok (start, end_) ->
  MatchString timeRegex start = true /\ MatchString timeRegex end_ = true
  /\ String.length start = 5%nat /\ String.length end_ = 5%nat.
Proof.
  unfold parseTimeRange.
  destruct (Split input "-") as [|p0 [|p1 [|p2 ps]]]; try done.
  destruct (MatchString timeRegex (TrimSpace p0)) eqn:H0; [|done].
  destruct (MatchString timeRegex (TrimSpace p1)) eqn:H1; [|done].
  intros [= <- <-].
  destruct (normalize_canonical _ H0) as (M0 & L0 & N0).
  destruct (normalize_canonical _ H1) as (M1 & L1 & N1). done.
Qed.

(** ** The table under the commands *)

Lemma dbInsert_Some st b st' :
  dbInsert st b = Some st' -> st' = (st ++ [b])%list /\ forall b', b' ∈ st -> ID b' <> ID b.
Proof.
  unfold dbInsert. destruct (existsb (hasID (ID b)) st) eqn:Hex; [done|].
  intros [= <-]. split; [done|]. intros b' Hb' Heq.
  assert (existsb (hasID (ID b)) st = true); [|congruence].
  apply existsb_exists. exists b'. split; [by apply list_elem_of_In|].
  unfold hasID. by apply String.eqb_eq.
Qed.

(** The outcomes of the three commands that add a row. *)
Lemma cmdAdd_outcome e flagTag args st :
  (exists err, cmdAdd e flagTag args st = (st, Err err))
  \/ exists dayArg timeArg descArgs week day start end_ line,
       splitArgs args = Some (dayArg, timeArg, descArgs)
       /\ parseDay (now e) dayArg = Ok (week, day)
       /\ parseTimeRange timeArg = Ok (start, end_)
       /\ let b := setTags (extractTags (Join descArgs " ") flagTag).2
                     (setPlanned start end_
                        (newRow e week day (extractTags (Join descArgs " ") flagTag).1)) in
          dbInsert st b = Some (st ++ [b])%list
          /\ cmdAdd e flagTag args st = ((st ++ [b])%list, Ok line).
Proof.
  unfold cmdAdd.
  destruct (splitArgs args) as [[[dayArg timeArg] descArgs]|]; [|left; eauto].
  destruct (parseDay (now e) dayArg) as [[week day]|] eqn:Hd; [|left; eauto].
  destruct (parseTimeRange timeArg) as [[start end_]|] eqn:Ht; [|left; eauto].
  destruct (extractTags _ _) as [desc tags] eqn:Hx.
  destruct (dbInsert st _) as [st'|] eqn:Hins; [|left; eauto].
  right. destruct (dbInsert_Some _ _ _ Hins) as [-> _].
  exists dayArg, timeArg, descArgs, week, day, start, end_. eexists.
  rewrite Hx. cbn [fst snd]. repeat split; eauto.
Qed.

Lemma cmdNote_outcome e flagTag args st :
  (exists err, cmdNote e flagTag args st = (st, Err err))
  \/ exists dayArg descArgs week day line,
       (dayArg = "today" \/ head args = Some dayArg)
       /\ parseDay (now e) dayArg = Ok (week, day)
       /\ let b := setTags (extractTags (Join descArgs " ") flagTag).2
                     (setFlags true false false
                        (newRow e week day (extractTags (Join descArgs " ") flagTag).1)) in
          dbInsert st b = Some (st ++ [b])%list
          /\ cmdNote e flagTag args st = ((st ++ [b])%list, Ok line).
Proof.
  unfold cmdNote. destruct args as [|a0 rest]; [left; eauto|].
  assert (exists dayArg descArgs,
            (if isDayArg a0 then (a0, rest) else ("today", a0 :: rest)) = (dayArg, descArgs)
            /\ (dayArg = "today" \/ head (a0 :: rest) = Some dayArg))
    as (dayArg & descArgs & -> & Harg).
  { destruct (isDayArg a0); eexists _, _; split; eauto. }
  destruct descArgs as [|d ds]; [left; eauto|].
  destruct (parseDay (now e) dayArg) as [[week day]|] eqn:Hd; [|left; eauto].
  destruct (extractTags _ _) as [desc tags] eqn:Hx.
  destruct (dbInsert st _) as [st'|] eqn:Hins; [|left; eauto].
  right. destruct (dbInsert_Some _ _ _ Hins) as [-> _].
  exists dayArg, (d :: ds), week, day. eexists. rewrite Hx. cbn [fst snd].
  repeat split; eauto.
Qed.

Lemma splitArgs_day args dayArg timeArg descArgs :
  splitArgs args = Some (dayArg, timeArg, descArgs) ->
  dayArg = "today" \/ head args = Some dayArg.
Proof.
  unfold splitArgs. destruct args as [|a0 [|a1 rest]]; [done..|].
  destruct (isTimeRange a0); intros [= <- _ _]; auto.
Qed.

Lemma cmdActualUnplanned_outcome e flagTag args st :
  (exists err, cmdActual e true flagTag args st = (st, Err err))
  \/ exists dayArg timeArg descArgs week day start end_ line,
       splitArgs args = Some (dayArg, timeArg, descArgs)
       /\ parseDay (now e) dayArg = Ok (week, day)
       /\ parseTimeRange timeArg = Ok (start, end_)
       /\ let b := setTags (extractTags (Join descArgs " ") flagTag).2
                     (setFlags false true true
                        (setActual start end_
                           (newRow e week day (extractTags (Join descArgs " ") flagTag).1))) in
          dbInsert st b = Some (st ++ [b])%list
          /\ cmdActual e true flagTag args st = ((st ++ [b])%list, Ok line).
Proof.
  unfold cmdActual, cmdActualUnplanned.
  destruct (splitArgs args) as [[[dayArg timeArg] descArgs]|]; [|left; eauto].
  destruct (parseDay (now e) dayArg) as [[week day]|] eqn:Hd; [|left; eauto].
  destruct (parseTimeRange timeArg) as [[start end_]|] eqn:Ht; [|left; eauto].
  destruct descArgs as [|d ds]; [left; eauto|].
  destruct (extractTags _ _) as [desc tags] eqn:Hx.
  destruct (dbInsert st _) as [st'|] eqn:Hins; [|left; eauto].
  right. destruct (dbInsert_Some _ _ _ Hins) as [-> _].
  exists dayArg, timeArg, (d :: ds), week, day, start, end_. eexists.
  rewrite Hx. cbn [fst snd]. repeat split; eauto.
Qed.

Lemma present_rows id (st : store) :
  (exists b, b ∈ st /\ ID b = id) ->
  Nat.eqb (length (filter (fun b => hasID id b = true) st)) 0 = false.
Proof.
  intros (b & Hb & Hid). apply Nat.eqb_neq. intros Hlen.
  apply length_zero_iff_nil in Hlen.
  assert (b ∈ filter (fun b => hasID id b = true) st) as Hin.
  { apply list_elem_of_filter. split; [|done]. unfold hasID. by apply String.eqb_eq. }
  rewrite Hlen in Hin. by apply elem_of_nil in Hin.
Qed.

Lemma update_ids id f (st : store) :
  (forall b, ID (f b) = ID b) ->
  map ID (map (fun b => if hasID id b then f b else b) st) = map ID st.
Proof.
  intros Hf. induction st as [|b st IH]; simpl; [done|].
  rewrite IH. by destruct (hasID id b); rewrite ?Hf.
Qed.

Lemma filter_ids_NoDup (P : Block -> Prop) `{!forall b, Decision (P b)} (st : store) :
  NoDup (map ID st) -> NoDup (map ID (filter P st)).
Proof.
  induction st as [|b st IH]; simpl; [done|].
  rewrite NoDup_cons. intros [Hb Hst]. rewrite filter_cons.
  destruct (decide (P b)); [|auto]. simpl. apply NoDup_cons. split; [|auto].
  intros (b' & Hid & Hb')%list_elem_of_fmap. apply Hb.
  apply list_elem_of_fmap. exists b'. split; [done|].
  by apply list_elem_of_filter in Hb' as [_ ?].
Qed.

Lemma update_twice id f g (st : store) :
  (forall b, ID (f b) = ID b) ->
  map (fun b => if hasID id b then g b else b)
    (map (fun b => if hasID id b then f b else b) st)
  = map (fun b => if hasID id b then g (f b) else b) st.
Proof.
  intros Hf. induction st as [|b st IH]; simpl; [done|]. rewrite IH. f_equal.
  destruct (hasID id b) eqn:Hb; [|by rewrite Hb].
  unfold hasID in *. by rewrite Hf, Hb.
Qed.

Lemma update_id_rows id f (st : store) :
  (forall b, b ∈ st -> ID b = id -> f b = b) ->
  map (fun b => if hasID id b then f b else b) st = st.
Proof.
  intros Hf. induction st as [|b st IH]; simpl; [done|].
  rewrite IH by (intros b' Hb'; apply Hf; by right). f_equal.
  destruct (hasID id b) eqn:Hb; [|done]. apply Hf; [by left|].
  unfold hasID in Hb. by apply String.eqb_eq.
Qed.

Lemma setDone_undo b d : IsDone b = d -> setDone d (setDone (negb d) b) = b.
Proof. intros <-. by destruct b. Qed.

(** ** Sorting and updates that keep the sort key *)

Section sort_map.
Variable g : Block -> Block.
Hypothesis g_order : forall a b, orderLeb (g a) (g b) = orderLeb a b.

Lemma list_merge_map l1 l2 :
  list_merge orderLe (map g l1) (map g l2) = map g (list_merge orderLe l1 l2).
Proof.
  revert l2. induction l1 as [|x1 l1 IH1]; intros l2; [by destruct l2|].
  induction l2 as [|x2 l2 IH2]; [done|].
  cbn [map list_merge].
  assert (orderLe (g x1) (g x2) <-> orderLe x1 x2) as Hiff
    by (unfold orderLe; by rewrite g_order).
  destruct (decide (orderLe x1 x2)) as [Ho|Ho].
  - rewrite decide_True by (by apply Hiff). cbn [map]. f_equal. apply (IH1 (x2 :: l2)).
  - rewrite decide_False by (by rewrite Hiff). cbn [map]. f_equal. apply IH2.
Qed.

Lemma merge_list_to_stack_map st l :
  merge_list_to_stack orderLe (map (option_map (map g)) st) (map g l)
  = map (option_map (map g)) (merge_list_to_stack orderLe st l).
Proof.
  revert l. induction st as [|[l'|] st IH]; intros l; [done| |done].
  cbn [map option_map merge_list_to_stack]. by rewrite list_merge_map, IH.
Qed.

Lemma merge_stack_map st :
  merge_stack orderLe (map (option_map (map g)) st) = map g (merge_stack orderLe st).
Proof.
  induction st as [|[l'|] st IH]; [done| |done].
  cbn [map option_map merge_stack]. by rewrite IH, list_merge_map.
Qed.

Lemma merge_sort_aux_map st l :
  merge_sort_aux orderLe (map (option_map (map g)) st) (map g l)
  = map g (merge_sort_aux orderLe st l).
Proof.
  revert st. induction l as [|x l IH]; intros st; [apply merge_stack_map|].
  cbn [map merge_sort_aux]. rewrite <- IH. f_equal.
  apply (merge_list_to_stack_map st [x]).
Qed.

Lemma merge_sort_map l : merge_sort orderLe (map g l) = map g (merge_sort orderLe l).
Proof. apply (merge_sort_aux_map [] l). Qed.

Hypothesis g_week : forall b, Week (g b) = Week b.
Hypothesis g_day : forall b, Day (g b) = Day b.

Lemma bucket_filter_map week day (st : store) :
  filter (fun b => inBucket week day b = true) (map g st)
  = map g (filter (fun b => inBucket week day b = true) st).
Proof.
  induction st as [|b st IH]; [done|]. cbn [map].
  assert (inBucket week day (g b) = inBucket week day b) as Hb
    by (unfold inBucket; by rewrite g_week, g_day).
  destruct (inBucket week day b) eqn:Hin.
  - rewrite !filter_cons_True by done. cbn [map]. by rewrite IH.
  - rewrite !filter_cons_False by congruence. done.
Qed.

(** The listing of a bucket after such an update is the old listing,
    updated row by row. *)
Lemma queryBlocks_map st week day :
  queryBlocks (map g st) week day = map g (queryBlocks st week day).
Proof. unfold queryBlocks. by rewrite bucket_filter_map, merge_sort_map. Qed.
End sort_map.

Lemma map_ext_elem (f g : Block -> Block) (l : list Block) :
  (forall b, b ∈ l -> f b = g b) -> map f l = map g l.
Proof.
  intros H. induction l as [|b l IH]; [done|]. cbn [map].
  rewrite H by (by left). rewrite IH; [done|]. intros b' Hb'. apply H. by right.
Qed.

Lemma queryBlocks_append st b week day :
  if inBucket week day b
  then queryBlocks (st ++ [b]) week day ≡ₚ b :: queryBlocks st week day
  else queryBlocks (st ++ [b]) week day = queryBlocks st week day.
Proof.
  unfold queryBlocks. rewrite filter_app, filter_cons, filter_nil.
  destruct (inBucket week day b) eqn:Hb.
  - rewrite decide_True by done. rewrite !merge_sort_Permutation.
    by rewrite Permutation_app_comm.
  - rewrite decide_False by congruence. by rewrite app_nil_r.
Qed.

Lemma unique_row_count id (st : store) :
  uniqueIDs st -> (exists b, b ∈ st /\ ID b = id) ->
  S (length (filter (fun b => hasID id b = false) st)) = length st.
Proof.
  unfold uniqueIDs. induction st as [|b st IH]; intros Hu (b0 & Hb0 & Hid).
  { by apply elem_of_nil in Hb0. }
  cbn [map] in Hu. apply NoDup_cons in Hu as [Hb Hu]. rewrite filter_cons.
  destruct (decide (hasID id b = false)) as [Hne|Heq].
  - cbn [length]. f_equal. apply IH; [done|]. exists b0. split; [|done].
    apply elem_of_cons in Hb0 as [->|]; [|done].
    unfold hasID in Hne. apply String.eqb_neq in Hne. done.
  - apply not_false_is_true in Heq. unfold hasID in Heq. apply String.eqb_eq in Heq.
    cbn [length]. f_equal. rewrite absent_filter_false; [done|].
    intros b' Hb' Hid'. apply Hb. apply list_elem_of_fmap. exists b'.
    split; [congruence | done].
Qed.

Lemma upd_order id f :
  (forall b, effectiveStart (f b) = effectiveStart b) ->
  (forall b, CreatedAt (f b) = CreatedAt b) ->
  forall a b, orderLeb (if hasID id a then f a else a) (if hasID id b then f b else b)
              = orderLeb a b.
Proof.
  intros He Hc a b. unfold orderLeb.
  by destruct (hasID id a), (hasID id b); rewrite ?He, ?Hc.
Qed.

(** X1: all through a week, from its Monday to its Sunday, the clock gives
    the same ISO week, so a day name, with or without [+], and [today]
    resolve to the same week key on each of the seven days. *)
Theorem week_key_stable now k :
  weekday now = Monday -> 0 <= k <= 6 ->
  ISOWeek (now + k) = ISOWeek now
  /\ (forall d, d ∈ days ->
        parseDay (now + k) d = parseDay now d
        /\ parseDay (now + k) ("+" +:+ d) = parseDay now ("+" +:+ d))
  /\ exists key name,
       parseDay now "today" = Ok (key, "monday")
       /\ parseDay (now + k) "today" = Ok (key, name).
Proof.
  intros Hm Hk.
  assert (ISOWeek (now + k) = ISOWeek now) as Hiso
    by (by rewrite !ISOWeek_thursday, monday_week).
  split; [done|]. split.
  - intros d Hd. destruct (parseDay_name now d Hd) as [-> ->].
    destruct (parseDay_name (now + k) d Hd) as [-> ->]. by rewrite Hiso.
  - eexists _, _. rewrite !parseDay_today, Hiso, Hm. done.
Qed.

Lemma week_key_stable_witness :
  parseDay (Date 2025 2 10 + 6) "+friday" = parseDay (Date 2025 2 10) "+friday".
Proof.
  apply (week_key_stable (Date 2025 2 10) 6); [reflexivity | lia |].
  vm_compute. apply list_elem_of_In. simpl. tauto.
Defined.

(** X5: every bucket [parseDay] returns is a real one: the day is one of
    the seven names and the week key is a year and a week in 1..53, printed
    as [Sscanf] reads it back. *)
Theorem parseDay_bucket now input week day :
  parseDay now input = Ok (week, day) ->
  day ∈ days
  /\ 1 <= (sscanWeek week).2 <= 53
  /\ week = weekKey (sscanWeek week).1 (sscanWeek week).2.
Proof. apply parseDay_Ok_inv. Qed.

Lemma parseDay_bucket_witness :
  "wednesday" ∈ days /\ 1 <= (sscanWeek "2025-W08").2 <= 53
  /\ "2025-W08" = weekKey (sscanWeek "2025-W08").1 (sscanWeek "2025-W08").2.
Proof.
  apply (parseDay_bucket (Date 2025 2 10) " +Wednesday"). reflexivity.
Defined.

(** X7: a token is a time range for [isTimeRange] exactly when it is two
    times joined by one [-], and every such token is parsed by
    [parseTimeRange] into two five-byte times; [parseTimeRange] also
    accepts blanks around the times, which [isTimeRange] does not. *)
Theorem isTimeRange_parses :
  (forall s,
      isTimeRange s = true <->
      exists a b, s = a +:+ String "-" b
                  /\ MatchString timeRegex a = true /\ MatchString timeRegex b = true)
  /\ (forall s, isTimeRange s = true ->
        exists start end_,
          parseTimeRange s = Ok (start, end_)
          /\ String.length start = 5%nat /\ String.length end_ = 5%nat)
  /\ parseTimeRange " 9:00 - 10:00 " = Ok ("09:00", "10:00")
  /\ isTimeRange " 9:00 - 10:00 " = false.
Proof.
  split; [apply timeRange_parts|]. split; [|split; reflexivity].
  intros s (a & b & -> & Ha & Hb)%timeRange_parts.
  exists (normalize a), (normalize b). rewrite parse_parts by done.
  split; [done|]. split; by apply normalize_canonical.
Qed.

Lemma isTimeRange_parses_witness :
  exists start end_, parseTimeRange "7:05-23:59" = Ok (start, end_)
                     /\ String.length start = 5%nat /\ String.length end_ = 5%nat.
Proof. apply (proj1 (proj2 isTimeRange_parses) "7:05-23:59"). reflexivity. Defined.

(** X8: the two times [parseTimeRange] returns are in canonical form:
    each matches the time pattern with a two-digit hour, and joined by [-]
    they are a time range that parses to themselves. *)
Theorem parseTimeRange_canonical input start end_ :
  parseTimeRange input = Ok (start, end_) ->
  MatchString timeRegex start = true /\ MatchString timeRegex end_ = true
  /\ String.length start = 5%nat /\ String.length end_ = 5%nat
  /\ isTimeRange (start +:+ String "-" end_) = true
  /\ parseTimeRange (start +:+ String "-" end_) = Ok (start, end_).
Proof.
  unfold parseTimeRange at 1.
  destruct (Split input "-") as [|p0 [|p1 [|p2 ps]]]; try done.
  destruct (MatchString timeRegex (TrimSpace p0)) eqn:H0; [|done].
  destruct (MatchString timeRegex (TrimSpace p1)) eqn:H1; [|done].
  intros [= <- <-].
  destruct (normalize_canonical _ H0) as (M0 & L0 & N0).
  destruct (normalize_canonical _ H1) as (M1 & L1 & N1).
  repeat split; try done.
  - apply timeRange_parts. eauto.
  - by rewrite parse_parts, N0, N1.
Qed.

Lemma parseTimeRange_canonical_witness :
  parseTimeRange ("09:00" +:+ String "-" "17:30") = Ok ("09:00", "17:30").
Proof. apply (parseTimeRange_canonical " 9:00- 17:30"). reflexivity. Defined.

(** ** The commands that write *)

Lemma freshRow_intro e st b now' dayArg :
  parseDay now' dayArg = Ok (Week b, Day b) ->
  dbInsert st b = Some (st ++ [b])%list ->
  ID b = newID e -> CreatedAt b = stamp e -> is_Some (Tags b) ->
  freshRow e st b.
Proof.
  intros Hd Hins Hid Hst Htags.
  destruct (parseDay_Ok_inv _ _ _ _ Hd) as (H1 & H2 & H3).
  destruct (dbInsert_Some _ _ _ Hins) as [_ Hfresh].
  unfold freshRow. done.
Qed.

Lemma canonicalTime_intro t :
  MatchString timeRegex t = true -> String.length t = 5%nat -> canonicalTime (Some t).
Proof. intros. exists t. done. Qed.

(** X9. [add], [note] and [actual --unplanned] either fail and leave the
    table as it was, or append exactly one row: it carries the drawn id,
    which no older row has, the insert's time stamp, one of the seven day
    names, a well-formed week key with a week number from 1 to 53, and a
    tags column that is not NULL. A planned block has both planned times in
    the form HH:MM, no actual times and no flag set; a note has no times at
    all and only the note flag; an unplanned block has only actual times, in
    the form HH:MM, and is both unplanned and done. *)
Theorem new_row_shape e flagTag args st :
  appendsRow st (cmdAdd e flagTag args st) (fun b =>
    freshRow e st b
    /\ canonicalTime (PlannedStart b) /\ canonicalTime (PlannedEnd b)
    /\ ActualStart b = None /\ ActualEnd b = None
    /\ IsNote b = false /\ IsUnplanned b = false /\ IsDone b = false)
  /\ appendsRow st (cmdNote e flagTag args st) (fun b =>
    freshRow e st b
    /\ PlannedStart b = None /\ PlannedEnd b = None
    /\ ActualStart b = None /\ ActualEnd b = None
    /\ IsNote b = true /\ IsUnplanned b = false /\ IsDone b = false)
  /\ appendsRow st (cmdActual e true flagTag args st) (fun b =>
    freshRow e st b
    /\ PlannedStart b = None /\ PlannedEnd b = None
    /\ canonicalTime (ActualStart b) /\ canonicalTime (ActualEnd b)
    /\ IsNote b = false /\ IsUnplanned b = true /\ IsDone b = true).
Proof.
  unfold appendsRow. split; [|split].
  - destruct (cmdAdd_outcome e flagTag args st)
      as [[err ->]|(dayArg & timeArg & descArgs & week & day & start & end_ & line
                    & _ & Hd & Ht & Hins & ->)]; [done|].
    cbn [fst snd]. eexists. split; [done|].
    destruct (parseTimeRange_Ok_inv _ _ _ Ht) as (M1 & M2 & L1 & L2).
    split; [eapply freshRow_intro; eauto; done|].
    cbn. repeat split; first [by apply canonicalTime_intro | done].
  - destruct (cmdNote_outcome e flagTag args st)
      as [[err ->]|(dayArg & descArgs & week & day & line & _ & Hd & Hins & ->)]; [done|].
    cbn [fst snd]. eexists. split; [done|].
    split; [eapply freshRow_intro; eauto; done|]. done.
  - destruct (cmdActualUnplanned_outcome e flagTag args st)
      as [[err ->]|(dayArg & timeArg & descArgs & week & day & start & end_ & line
                    & _ & Hd & Ht & Hins & ->)]; [done|].
    cbn [fst snd]. eexists. split; [done|].
    destruct (parseTimeRange_Ok_inv _ _ _ Ht) as (M1 & M2 & L1 & L2).
    split; [eapply freshRow_intro; eauto; done|].
    cbn. repeat split; first [by apply canonicalTime_intro | done].
Qed.

Lemma uniqueIDs_append (st : store) b :
  uniqueIDs st -> (forall b', b' ∈ st -> ID b' <> ID b) -> uniqueIDs (st ++ [b])%list.
Proof.
  unfold uniqueIDs. intros Hu Hfresh. rewrite map_app. apply NoDup_app.
  split; [done|]. split; [|apply NoDup_singleton].
  intros x (b' & -> & Hb')%list_elem_of_fmap Hx. apply list_elem_of_singleton in Hx.
  by apply (Hfresh b').
Qed.

Lemma uniqueIDs_update id f (st : store) :
  (forall b, ID (f b) = ID b) -> uniqueIDs st -> uniqueIDs (dbUpdate st id f).1.
Proof. intros Hf Hu. unfold uniqueIDs, dbUpdate. cbn [fst]. by rewrite update_ids. Qed.

Lemma cmdDone_store id st : (cmdDone id st).1 = (dbUpdate st id (setDone true)).1.
Proof. unfold cmdDone, dbUpdate. by destruct (Nat.eqb _ 0). Qed.

Lemma cmdUndone_store id st : (cmdUndone id st).1 = (dbUpdate st id (setDone false)).1.
Proof. unfold cmdUndone, dbUpdate. by destruct (Nat.eqb _ 0). Qed.

Lemma cmdRm_store id st : (cmdRm id st).1 = filter (fun b => hasID id b = false) st.
Proof. unfold cmdRm, dbDelete. by destruct (Nat.eqb _ 0). Qed.

Lemma cmdActualRecord_store args st :
  (cmdActualRecord args st).1 = st
  \/ exists id s e, (cmdActualRecord args st).1 = (dbUpdate st id (setActual s e)).1.
Proof.
  unfold cmdActualRecord. destruct args as [|id [|timeArg rest]]; [by left..|].
  destruct (parseTimeRange timeArg) as [[s e]|]; [|by left].
  right. exists id, s, e. unfold dbUpdate. by destruct (Nat.eqb _ 0).
Qed.

(** X10. When no two rows of the table share an id, no command makes two
    rows share one: [add], [note], [actual] (both forms), [done], [undone]
    and [rm] all keep the ids of the table distinct. *)
Theorem unique_ids_kept e unplanned flagTag args id st :
  uniqueIDs st ->
  uniqueIDs (cmdAdd e flagTag args st).1
  /\ uniqueIDs (cmdNote e flagTag args st).1
  /\ uniqueIDs (cmdActual e unplanned flagTag args st).1
  /\ uniqueIDs (cmdDone id st).1
  /\ uniqueIDs (cmdUndone id st).1
  /\ uniqueIDs (cmdRm id st).1.
Proof.
  intros Hu.
  assert (uniqueIDs (cmdActual e true flagTag args st).1) as Hunpl.
  { destruct (cmdActualUnplanned_outcome e flagTag args st)
      as [[err ->]|(? & ? & ? & ? & ? & ? & ? & ? & _ & _ & _ & Hins & ->)]; [done|].
    apply uniqueIDs_append; [done|]. by destruct (dbInsert_Some _ _ _ Hins). }
  repeat split.
  - destruct (cmdAdd_outcome e flagTag args st)
      as [[err ->]|(? & ? & ? & ? & ? & ? & ? & ? & _ & _ & _ & Hins & ->)]; [done|].
    apply uniqueIDs_append; [done|]. by destruct (dbInsert_Some _ _ _ Hins).
  - destruct (cmdNote_outcome e flagTag args st)
      as [[err ->]|(? & ? & ? & ? & ? & _ & _ & Hins & ->)]; [done|].
    apply uniqueIDs_append; [done|]. by destruct (dbInsert_Some _ _ _ Hins).
  - destruct unplanned; [done|]. unfold cmdActual.
    destruct (cmdActualRecord_store args st) as [->|(i & s & e' & ->)]; [done|].
    by apply uniqueIDs_update.
  - rewrite cmdDone_store. by apply uniqueIDs_update.
  - rewrite cmdUndone_store. by apply uniqueIDs_update.
  - rewrite cmdRm_store. by apply filter_ids_NoDup.
Qed.

Lemma unique_ids_kept_witness :
  uniqueIDs demoStore
  /\ uniqueIDs (cmdAdd (demoEnv "77aa01" "2025-02-10 09:00:00") "" ["tuesday"; "9:00-10:00"; "x"] demoStore).1
  /\ uniqueIDs (cmdRm "a1b2c3" demoStore).1.
Proof.
  assert (uniqueIDs demoStore) as Hu.
  { unfold uniqueIDs. apply (bool_decide_unpack (NoDup (map ID demoStore))). by vm_compute. }
  split; [exact Hu|].
  destruct (unique_ids_kept (demoEnv "77aa01" "2025-02-10 09:00:00") false ""
              ["tuesday"; "9:00-10:00"; "x"] "a1b2c3" demoStore Hu) as (H1 & _ & _ & _ & _ & H6).
  split; [exact H1 | exact H6].
Defined.

(** X12. [rm] of an id that is in the table reports the deletion and
    leaves the other rows, in their order: a row is in the new table
    exactly when it was in the old one under another id, and the same holds
    for the listing of every week and day; a second [rm] of that id fails
    with block-not-found and changes nothing; and when ids are distinct
    the table has exactly one row less. *)
Theorem rm_removes id st :
  (exists b, b ∈ st /\ ID b = id) ->
  (cmdRm id st).2 = Ok ("[" +:+ id +:+ "] Deleted")
  /\ sublist (cmdRm id st).1 st
  /\ (forall b, b ∈ (cmdRm id st).1 <-> b ∈ st /\ ID b <> id)
  /\ (forall week day b,
        b ∈ queryBlocks (cmdRm id st).1 week day
        <-> b ∈ queryBlocks st week day /\ ID b <> id)
  /\ cmdRm id (cmdRm id st).1 = ((cmdRm id st).1, Err (NotFound id))
  /\ (uniqueIDs st -> S (length (cmdRm id st).1) = length st).
Proof.
  intros Hin.
  assert (forall b, b ∈ (cmdRm id st).1 <-> b ∈ st /\ ID b <> id) as Helem.
  { intros b. rewrite cmdRm_store, list_elem_of_filter. unfold hasID.
    rewrite String.eqb_neq. tauto. }
  split; [|split; [|split; [|split; [|split]]]].
  - unfold cmdRm, dbDelete. by rewrite (present_rows id st Hin).
  - rewrite cmdRm_store. apply sublist_filter.
  - exact Helem.
  - intros week day b. rewrite !queryBlocks_elem, Helem. tauto.
  - assert (forall b, b ∈ (cmdRm id st).1 -> ID b <> id) as Habs
      by (intros b Hb; apply Helem in Hb; tauto).
    revert Habs. generalize (cmdRm id st).1. intros st1 Habs.
    unfold cmdRm. by rewrite (absent_dbDelete id st1 Habs).
  - intros Hu. rewrite cmdRm_store. by apply unique_row_count.
Qed.

Lemma rm_removes_witness :
  (cmdRm "a1b2c3" demoStore).2 = Ok "[a1b2c3] Deleted"
  /\ cmdRm "a1b2c3" (cmdRm "a1b2c3" demoStore).1
     = ((cmdRm "a1b2c3" demoStore).1, Err (NotFound "a1b2c3")).
Proof.
  assert (exists b, b ∈ demoStore /\ ID b = "a1b2c3") as Hin.
  { exists (demoRow 0). split; [|reflexivity]. vm_compute. left. }
  destruct (rm_removes "a1b2c3" demoStore Hin) as (H1 & _ & _ & _ & H5 & _).
  split; [exact H1 | exact H5].
Defined.

Lemma done_store_map id d st :
  (dbUpdate st id (setDone d)).1 = map (fun b => if hasID id b then setDone d b else b) st.
Proof. done. Qed.

(** X13. [done] and [undone] of an id that is in the table succeed and
    change nothing but the done flag of its rows: every listing keeps its
    rows in their order, with the flag set or cleared on the rows of that
    id. Each is idempotent, the later of the two wins, and [undone] after
    [done] restores a table whose rows of that id were not done. On the
    line of a note or of an unplanned block the flag does not show. *)
Theorem done_undone id st :
  (exists b, b ∈ st /\ ID b = id) ->
  (cmdDone id st).2 = Ok ("[" +:+ id +:+ "] ✓ Marked done")
  /\ (cmdUndone id st).2 = Ok ("[" +:+ id +:+ "] Unmarked done")
  /\ (forall d week day,
        queryBlocks (if d : bool then cmdDone id st else cmdUndone id st).1 week day
        = map (fun b => if hasID id b then setDone d b else b) (queryBlocks st week day))
  /\ (cmdDone id (cmdDone id st).1).1 = (cmdDone id st).1
  /\ (cmdUndone id (cmdUndone id st).1).1 = (cmdUndone id st).1
  /\ (cmdUndone id (cmdDone id st).1).1 = (cmdUndone id st).1
  /\ (cmdDone id (cmdUndone id st).1).1 = (cmdDone id st).1
  /\ ((forall b, b ∈ st -> ID b = id -> IsDone b = false) ->
      (cmdUndone id (cmdDone id st).1).1 = st)
  /\ (forall b d, IsNote b = true \/ IsUnplanned b = true ->
        renderLine (setDone d b) = renderLine b).
Proof.
  intros Hin.
  assert (forall d d', map (fun b => if hasID id b then setDone d' b else b)
                        (map (fun b => if hasID id b then setDone d b else b) st)
                      = map (fun b => if hasID id b then setDone d' b else b) st) as Htwice.
  { intros d d'. rewrite update_twice by done. apply map_ext. intros b.
    by destruct (hasID id b), b. }
  split; [|split; [|split; [|split; [|split; [|split; [|split; [|split]]]]]]].
  - unfold cmdDone, dbUpdate. by rewrite (present_rows id st Hin).
  - unfold cmdUndone, dbUpdate. by rewrite (present_rows id st Hin).
  - intros d week day.
    assert ((if d then cmdDone id st else cmdUndone id st).1
            = map (fun b => if hasID id b then setDone d b else b) st) as ->.
    { destruct d; [rewrite cmdDone_store | rewrite cmdUndone_store]; done. }
    apply (queryBlocks_map (fun b => if hasID id b then setDone d b else b)).
    + apply upd_order; done.
    + intros b. by destruct (hasID id b).
    + intros b. by destruct (hasID id b).
  - rewrite !cmdDone_store, !done_store_map. apply Htwice.
  - rewrite !cmdUndone_store, !done_store_map. apply Htwice.
  - rewrite !cmdUndone_store, cmdDone_store, !done_store_map. apply Htwice.
  - rewrite !cmdDone_store, cmdUndone_store, !done_store_map. apply Htwice.
  - intros Hnot. rewrite cmdUndone_store, cmdDone_store, !done_store_map, Htwice.
    apply update_id_rows. intros b Hb Hid. apply (setDone_undo b false). by apply Hnot.
  - intros b d [Hn|Hu]; unfold renderLine, setDone; cbn.
    + by rewrite Hn.
    + unfold status, timeStr. cbn. rewrite Hu. done.
Qed.

Lemma done_undone_witness :
  (cmdDone "a1b2c3" demoStore).2 = Ok "[a1b2c3] ✓ Marked done"
  /\ (cmdUndone "a1b2c3" (cmdDone "a1b2c3" demoStore).1).1 = demoStore.
Proof.
  assert (exists b, b ∈ demoStore /\ ID b = "a1b2c3") as Hin.
  { exists (demoRow 0). split; [|reflexivity]. vm_compute. left. }
  destruct (done_undone "a1b2c3" demoStore Hin) as (H1 & _ & _ & _ & _ & _ & _ & H8 & _).
  split; [exact H1|]. apply H8.
  intros b Hb Hid. vm_compute in Hb.
  repeat (apply elem_of_cons in Hb as [->|Hb]; [first [reflexivity | discriminate Hid]|]).
  apply elem_of_nil in Hb. destruct Hb.
Defined.

Lemma setActual_planned_order id s e :
  forall a b,
    orderLeb (if hasID id a && bool_decide (is_Some (PlannedStart a)) then setActual s e a else a)
             (if hasID id b && bool_decide (is_Some (PlannedStart b)) then setActual s e b else b)
    = orderLeb a b.
Proof.
  assert (forall b, effectiveStart
            (if hasID id b && bool_decide (is_Some (PlannedStart b)) then setActual s e b else b)
          = effectiveStart b) as He.
  { intros b. destruct (hasID id b); [|done]. case_bool_decide as Hp; [|done].
    destruct Hp as [t Ht]. cbn [andb]. unfold effectiveStart. cbn. by rewrite Ht. }
  assert (forall b, CreatedAt
            (if hasID id b && bool_decide (is_Some (PlannedStart b)) then setActual s e b else b)
          = CreatedAt b) as Hc.
  { intros b. by destruct (hasID id b && bool_decide (is_Some (PlannedStart b))). }
  intros a b. unfold orderLeb. by rewrite !He, !Hc.
Qed.

(** X14. [actual <id> <start>-<end>] on an id that is in the table, with a
    time range that parses, writes the two parsed times into the actual
    columns of the rows of that id and changes nothing else; arguments
    after the second are ignored. When the rows of that id have a planned
    start, every listing keeps its rows in their order; the line of such a
    planned block then reads planned → actual and its status mark is what
    it was (recording a time does not mark the block done). On a note the
    line is unchanged, but the note, which had no sort key, is now sorted
    under the recorded start. A later recording replaces an earlier one. *)
Theorem actual_recorded e flagTag id timeArg rest st start end_ :
  parseTimeRange timeArg = Ok (start, end_) ->
  (exists b, b ∈ st /\ ID b = id) ->
  let upd := fun b => if hasID id b then setActual start end_ b else b in
  let st' := (cmdActual e false flagTag (id :: timeArg :: rest) st).1 in
  cmdActual e false flagTag (id :: timeArg :: rest) st
  = (map upd st, Ok ("[" +:+ id +:+ "] Actual time recorded: " +:+ start +:+ "-" +:+ end_))
  /\ ((forall b, b ∈ st -> ID b = id -> is_Some (PlannedStart b)) ->
      forall week day, queryBlocks st' week day = map upd (queryBlocks st week day))
  /\ (forall b, IsNote b = false -> IsUnplanned b = false ->
        timeStr (setActual start end_ b)
        = str (PlannedStart b) +:+ "-" +:+ str (PlannedEnd b) +:+ " → " +:+ start +:+ "-" +:+ end_
        /\ status (setActual start end_ b) = status b)
  /\ (forall b, IsNote b = true ->
        renderLine (setActual start end_ b) = renderLine b
        /\ (PlannedStart b = None -> effectiveStart (setActual start end_ b) = start))
  /\ (forall timeArg2 rest2 start2 end2,
        parseTimeRange timeArg2 = Ok (start2, end2) ->
        (cmdActual e false flagTag (id :: timeArg2 :: rest2) st').1
        = (cmdActual e false flagTag (id :: timeArg2 :: rest2) st).1).
Proof.
  intros Ht Hin upd st'.
  assert (cmdActual e false flagTag (id :: timeArg :: rest) st
          = (map upd st, Ok ("[" +:+ id +:+ "] Actual time recorded: "
                             +:+ start +:+ "-" +:+ end_))) as Hcmd.
  { unfold cmdActual, cmdActualRecord, dbUpdate. rewrite Ht.
    by rewrite (present_rows id st Hin). }
  assert (st' = map upd st) as Hst' by (unfold st'; by rewrite Hcmd).
  clearbody st'. subst st'.
  split; [exact Hcmd|]. split; [|split; [|split]].
  - intros Hplanned week day.
    set (g := fun b => if hasID id b && bool_decide (is_Some (PlannedStart b))
                       then setActual start end_ b else b).
    assert (forall b, b ∈ st -> upd b = g b) as Hg.
    { intros b Hb. unfold upd, g. destruct (hasID id b) eqn:Hid; [|done].
      rewrite bool_decide_eq_true_2; [done|]. apply Hplanned; [done|].
      unfold hasID in Hid. by apply String.eqb_eq. }
    rewrite (map_ext_elem upd g st Hg).
    rewrite (queryBlocks_map g).
    + symmetry. apply map_ext_elem. intros b Hb. apply Hg.
      apply queryBlocks_elem in Hb. tauto.
    + apply setActual_planned_order.
    + intros b. unfold g. by destruct (hasID id b && _).
    + intros b. unfold g. by destruct (hasID id b && _).
  - intros b Hn Hu. unfold timeStr, status. cbn. rewrite Hu. done.
  - intros b Hn. split.
    + unfold renderLine. cbn. by rewrite Hn.
    + intros Hp. unfold effectiveStart. cbn. by rewrite Hp.
  - intros timeArg2 rest2 start2 end2 Ht2.
    unfold cmdActual, cmdActualRecord, dbUpdate. rewrite Ht2.
    destruct (Nat.eqb _ 0), (Nat.eqb _ 0); cbn [fst];
      (unfold upd; rewrite update_twice by done; apply map_ext; intros b;
       by destruct (hasID id b), b).
Qed.

Lemma actual_recorded_witness :
  cmdActual (demoEnv "" "") false "" ["a1b2c3"; "14:05-15:30"; "ignored"] demoStore
  = (map (fun b => if hasID "a1b2c3" b then setActual "14:05" "15:30" b else b) demoStore,
     Ok "[a1b2c3] Actual time recorded: 14:05-15:30").
Proof.
  assert (exists b, b ∈ demoStore /\ ID b = "a1b2c3") as Hin.
  { exists (demoRow 0). split; [|reflexivity]. vm_compute. left. }
  assert (parseTimeRange "14:05-15:30" = Ok ("14:05", "15:30")) as Ht by reflexivity.
  destruct (actual_recorded (demoEnv "" "") "" "a1b2c3" "14:05-15:30" ["ignored"]
              demoStore "14:05" "15:30" Ht Hin) as [H1 _].
  exact H1.
Defined.

(** ** Ids *)

Lemma hex_byte v :
  isHexLower (hexChar (N.shiftr (N_of_ascii v) 4)) = true
  /\ isHexLower (hexChar (N.land (N_of_ascii v) 15)) = true
  /\ ascii_of_N (16 * hexVal (hexChar (N.shiftr (N_of_ascii v) 4))
                 + hexVal (hexChar (N.land (N_of_ascii v) 15))) = v.
Proof. destruct v as [[] [] [] [] [] [] [] []]; vm_compute; done. Qed.

Lemma EncodeToString_hex src :
  String.length (EncodeToString src) = (2 * length src)%nat
  /\ forallb isHexLower (list_ascii_of_string (EncodeToString src)) = true
  /\ decodeHex (EncodeToString src) = src.
Proof.
  induction src as [|v src (IH1 & IH2 & IH3)]; [done|].
  destruct (hex_byte v) as (H1 & H2 & H3).
  cbn [EncodeToString String.length list_ascii_of_string forallb decodeHex length].
  rewrite IH1, IH2, IH3, H1, H2, H3. split; [lia | done].
Qed.

(** X15. An id is six characters, each one of 0-9 and a-f, and reads back
    as the three bytes it was made from: two draws give the same id only
    when they are the same three bytes. *)
Theorem generateID_hex b0 b1 b2 :
  String.length (generateID b0 b1 b2) = 6%nat
  /\ forallb isHexLower (list_ascii_of_string (generateID b0 b1 b2)) = true
  /\ decodeHex (generateID b0 b1 b2) = [b0; b1; b2]
  /\ forall c0 c1 c2,
       generateID b0 b1 b2 = generateID c0 c1 c2 -> (b0, b1, b2) = (c0, c1, c2).
Proof.
  unfold generateID.
  destruct (EncodeToString_hex [b0; b1; b2]) as (H1 & H2 & H3).
  split; [exact H1|]. split; [exact H2|]. split; [exact H3|].
  intros c0 c1 c2 Heq.
  destruct (EncodeToString_hex [c0; c1; c2]) as (_ & _ & H3').
  rewrite Heq, H3' in H3. by injection H3 as -> -> ->.
Qed.

(** ** Tags, from the command line to the listing *)

Lemma commasToHashes_app a b :
  commasToHashes (a +:+ b) = commasToHashes a +:+ commasToHashes b.
Proof.
  induction a as [|c a IH]; [done|]. cbn [String.append commasToHashes].
  rewrite IH. by destruct (Ascii.eqb c ",").
Qed.

Lemma commasToHashes_Join l :
  commasToHashes (Join l ",") = Join (map commasToHashes l) " #".
Proof.
  induction l as [|x [|y l] IH]; [done..|].
  change (Join (x :: y :: l) ",") with (x +:+ "," +:+ Join (y :: l) ",").
  rewrite !commasToHashes_app, IH. done.
Qed.

Lemma commasToHashes_fixed s : Count s "," = 0%nat -> commasToHashes s = s.
Proof.
  induction s as [|c s IH]; [done|]. cbn [Count commasToHashes].
  destruct (Ascii.eqb c ","); [done|]. intros H. by rewrite IH.
Qed.

Lemma lowerChar_comma c : Ascii.eqb (lowerChar c) "," = Ascii.eqb c ",".
Proof. destruct c as [[] [] [] [] [] [] [] []]; vm_compute; done. Qed.

Lemma Count_ToLower s : Count (ToLower s) "," = Count s ",".
Proof.
  induction s as [|c s IH]; [done|]. cbn [ToLower Count].
  by rewrite lowerChar_comma, IH.
Qed.

Lemma word_not_comma c : isWord c = true -> Ascii.eqb c "," = false.
Proof. by_bytes c. Qed.

Lemma Count_word w :
  forallb isWord (list_ascii_of_string w) = true -> Count w "," = 0%nat.
Proof.
  induction w as [|c w IH]; [done|]. cbn [list_ascii_of_string forallb Count].
  intros [Hc Hw]%andb_true_iff. by rewrite (word_not_comma c Hc), IH.
Qed.

Lemma flat_hashes x l :
  " #" +:+ Join (x :: l) " #" = flat (map (fun t => " #" +:+ t) (x :: l)).
Proof.
  revert x. induction l as [|y l IH]; intros x.
  - cbn [Join map flat]. by rewrite append_nil_r.
  - change (Join (x :: y :: l) " #") with (x +:+ " #" +:+ Join (y :: l) " #").
    rewrite IH. cbn [map flat]. by rewrite !append_assoc.
Qed.

Lemma tagList_elem desc flagTag t :
  t ∈ tagList desc flagTag ->
  t <> "" /\ (Count flagTag "," = 0%nat -> Count t "," = 0%nat).
Proof.
  unfold tagList. rewrite elem_of_app. intros [Ht|Ht].
  - destruct (String.eqb flagTag "") eqn:Hf; [by apply elem_of_nil in Ht|].
    apply list_elem_of_singleton in Ht as ->. split.
    + apply String.eqb_neq in Hf. by destruct flagTag.
    + by rewrite Count_ToLower.
  - apply list_elem_of_fmap in Ht as (m & -> & Hm).
    apply FindAllString_hashtag in Hm as (c & w & -> & Hc & Hw).
    split; [done|]. intros _. rewrite Count_ToLower. apply Count_word.
    cbn [submatch1 list_ascii_of_string forallb]. by rewrite Hc, Hw.
Qed.

(** X16. The tags that [extractTags] returns, once stored in a row, are
    shown by the listing one by one, each behind [ #], in the order of
    [uniqueTags]; nothing is shown when there are none. A comma inside the
    explicit tag is shown as a separator as well, so when the explicit tag
    has no comma the listing shows exactly the tags of [uniqueTags]. The
    dedupe loop does not look inside a tag: [-t a,b] with [#a] in the text
    is stored as [a,b,a] and shown as three tags. *)
Theorem tags_shown desc flagTag b :
  Tags b = Some (extractTags desc flagTag).2 ->
  tagStr b = flat (map (fun t => " #" +:+ commasToHashes t) (uniqueTags desc flagTag))
  /\ (Count flagTag "," = 0%nat ->
      tagStr b = flat (map (fun t => " #" +:+ t) (uniqueTags desc flagTag)))
  /\ extractTags "x #a" "a,b" = ("x", "a,b,a")
  /\ (Tags b = Some "a,b,a" -> tagStr b = " #a #b #a").
Proof.
  intros Ht.
  assert (forall t, t ∈ uniqueTags desc flagTag ->
            t <> "" /\ (Count flagTag "," = 0%nat -> Count t "," = 0%nat)) as Helem.
  { intros t Hin. rewrite uniqueTags_keepFirst, keepFirst_elem in Hin.
    by apply tagList_elem in Hin. }
  assert (tagStr b
          = flat (map (fun t => " #" +:+ commasToHashes t) (uniqueTags desc flagTag)))
    as Hgen.
  { unfold tagStr. rewrite Ht. unfold extractTags. cbn [snd].
    destruct (uniqueTags desc flagTag) as [|x l]; [done|].
    cbn [length Nat.ltb Nat.leb].
    assert (Join (x :: l) "," <> "") as Hne.
    { destruct (Helem x) as [Hx _]; [by left|].
      destruct l; [done|]. change (x +:+ "," +:+ Join (s :: l) "," <> "").
      by destruct x. }
    apply String.eqb_neq in Hne. rewrite Hne.
    rewrite commasToHashes_Join. cbn [map]. rewrite flat_hashes.
    cbn [map]. by rewrite map_map. }
  split; [exact Hgen|]. split; [|split; [by vm_compute|]].
  - intros Hflag. rewrite Hgen. f_equal. apply map_ext_in. intros t Hin.
    apply list_elem_of_In in Hin. destruct (Helem t Hin) as [_ Hc].
    by rewrite commasToHashes_fixed by auto.
  - intros Hb. unfold tagStr. by rewrite Hb.
Qed.

Lemma tags_shown_witness :
  tagStr (demoRow 1) = " #acme #team".
Proof.
  destruct (tags_shown "standup #Team" "acme" (demoRow 1)) as (_ & H2 & _).
  - reflexivity.
  - rewrite H2; reflexivity.
Defined.

(** ** [cmdLs] *)

Lemma days_not_empty d : d ∈ days -> d <> "".
Proof. intros Hd ->. apply list_elem_of_In in Hd. simpl in Hd. intuition discriminate. Qed.


Lemma lsSection_filter st week f day :
  f <> "" ->
  lsSection st week f day
  = if String.eqb f day
    then ([""; ToUpper day +:+ " (" +:+ dayDate week day +:+ ")"] ++ lsDay st week day)%list
    else [].
Proof.
  intros Hf. unfold lsSection. apply String.eqb_neq in Hf. rewrite Hf.
  cbn [negb andb]. destruct (String.eqb f day); cbn [negb]; [|done].
  by rewrite andb_false_r.
Qed.

Lemma sections_of_day st week d :
  d ∈ days ->
  concat (map (lsSection st week d) days)
  = ([""; ToUpper d +:+ " (" +:+ dayDate week d +:+ ")"] ++ lsDay st week d)%list.
Proof.
  intros Hd. pose proof (days_not_empty d Hd) as Hne.
  unfold days at 1. cbn [map concat]. rewrite !lsSection_filter by done.
  apply list_elem_of_In in Hd. simpl in Hd.
  repeat (destruct Hd as [<- | Hd]; [
    repeat match goal with
           | |- context [String.eqb ?a ?b] =>
               let v := eval vm_compute in (String.eqb a b) in
               change (String.eqb a b) with v
           end;
    cbv iota; rewrite ?app_nil_r; reflexivity |]).
  destruct Hd.
Qed.


Lemma cmdLs_filtered now weekFlag last next a st w d :
  parseDay now a = Ok (w, d) ->
  cmdLs now weekFlag last next [a] st
  = (["";
      "Week " +:+ getWeek now weekFlag last next
        +:+ " (" +:+ weekDateRange (getWeek now weekFlag last next) +:+ ")";
      Repeat "─" 50]
     ++ [""; ToUpper d +:+ " (" +:+ dayDate (getWeek now weekFlag last next) d +:+ ")"]
     ++ lsDay st (getWeek now weekFlag last next) d ++ [""])%list.
Proof.
  intros Hp. unfold cmdLs, filterDayOf. rewrite Hp.
  destruct (parseDay_Ok_inv _ _ _ _ Hp) as (Hd & _).
  rewrite (sections_of_day st _ d Hd). by rewrite <- !app_assoc.
Qed.


Lemma section_lines st week day l :
  l ∈ lsSection st week "" day ->
  l = "" \/ l = ToUpper day +:+ " (" +:+ dayDate week day +:+ ")"
  \/ exists b, b ∈ queryBlocks st week day /\ l = renderLine b.
Proof.
  unfold lsSection. cbn [String.eqb negb andb].
  destruct (Nat.eqb _ 0 && true); [by intros ?%elem_of_nil|].
  rewrite elem_of_app, !elem_of_cons, elem_of_nil, list_elem_of_fmap.
  intros [[->|[->|[]]]|(b & -> & Hb)]; eauto.
Qed.

Lemma section_elem st week b :
  b ∈ st -> Week b = week -> 
  renderLine b ∈ lsSection st week "" (Day b)
  /\ (ToUpper (Day b) +:+ " (" +:+ dayDate week (Day b) +:+ ")")
       ∈ lsSection st week "" (Day b).
Proof.
  intros Hb <-. unfold lsSection. cbn [String.eqb negb andb].
  assert (b ∈ queryBlocks st (Week b) (Day b)) as Hq by (by apply queryBlocks_elem).
  destruct (queryBlocks st (Week b) (Day b)) as [|b0 bs] eqn:Hqb;
    [by apply elem_of_nil in Hq|].
  cbn [length Nat.eqb andb]. split.
  - apply elem_of_app. right. apply list_elem_of_fmap. eauto.
  - apply elem_of_app. left. right. left.
Qed.

Lemma cmdLs_section now weekFlag last next st day l :
  day ∈ days ->
  l ∈ lsSection st (getWeek now weekFlag last next) "" day ->
  l ∈ cmdLs now weekFlag last next [] st.
Proof.
  intros Hd Hl. unfold cmdLs, filterDayOf.
  apply elem_of_app. right. apply elem_of_app. left.
  apply list_elem_of_In, in_concat. eexists. split; [|by apply list_elem_of_In].
  apply in_map. by apply list_elem_of_In.
Qed.

(** X18. [ls] without an argument shows the selected week in full: every
    row of the table that is filed under that week and one of the seven day
    names has its line in the output, below the heading of its day. The
    output holds nothing else: each of its lines is a header line, a blank
    line, a day heading or the line of such a row. *)
Theorem ls_week_complete now weekFlag last next st b :
  b ∈ st -> Week b = getWeek now weekFlag last next -> Day b ∈ days ->
  renderLine b ∈ cmdLs now weekFlag last next [] st
  /\ (ToUpper (Day b) +:+ " (" +:+ dayDate (Week b) (Day b) +:+ ")")
       ∈ cmdLs now weekFlag last next [] st
  /\ forall l, l ∈ cmdLs now weekFlag last next [] st ->
       l = "" \/ l = "Week " +:+ Week b +:+ " (" +:+ weekDateRange (Week b) +:+ ")"
       \/ l = Repeat "─" 50
       \/ (exists day, day ∈ days /\ l = ToUpper day +:+ " (" +:+ dayDate (Week b) day +:+ ")")
       \/ (exists b', b' ∈ st /\ Week b' = Week b /\ Day b' ∈ days /\ l = renderLine b').
Proof.
  intros Hb Hw Hd.
  destruct (section_elem st _ b Hb Hw) as [Hline Hhead].
  split; [|split].
  - by apply (cmdLs_section _ _ _ _ _ (Day b)).
  - rewrite Hw. by apply (cmdLs_section _ _ _ _ _ (Day b)).
  - unfold cmdLs, filterDayOf. rewrite <- Hw.
    intros l. rewrite !elem_of_app, !elem_of_cons, !elem_of_nil.
    intros [[->|[->|[->|[]]]]|[Hl|[->|[]]]]; auto.
    apply list_elem_of_In, in_concat in Hl as (sec & Hsec' & Hl).
    apply in_map_iff in Hsec' as (day & <- & Hday). apply list_elem_of_In in Hl, Hday.
    apply section_lines in Hl as [->|[->|(b' & Hb' & ->)]]; auto.
    + right. right. right. left. eauto.
    + right. right. right. right. exists b'.
      apply queryBlocks_elem in Hb' as (H1 & H2 & H3). rewrite H3. done.
Qed.

Lemma ls_week_complete_witness :
  renderLine (demoRow 0) ∈ cmdLs (Date 2025 2 12) "" false false [] demoStore.
Proof.
  destruct (ls_week_complete (Date 2025 2 12) "" false false demoStore (demoRow 0))
    as [H _].
  - vm_compute. left.
  - reflexivity.
  - vm_compute. left.
  - exact H.
Defined.

Lemma weekKey_not_empty year isoWeek : weekKey year isoWeek <> "".
Proof. unfold weekKey. intros [_ H]%append_eq_nil. discriminate H. Qed.

Lemma getWeek_now now :
  getWeek now "" false false = weekKey (ISOWeek now).1 (ISOWeek now).2
  /\ getWeek now "" false true
     = weekKey (weekSucc (ISOWeek now)).1 (weekSucc (ISOWeek now)).2.
Proof.
  unfold getWeek, weekSucc. destruct (ISOWeek now) as [y w]. cbn [String.eqb negb fst snd].
  split; [done|]. destruct (Z.ltb_spec 52 (w + 1)), (Z.ltb_spec w 52); (done || lia).
Qed.

(** ** [#(\w+)] as a function of the text *)

Lemma MatchString_dead r :
  (forall w, MatchString r w = false) ->
  forall s seen best, longest r s seen best = best.
Proof.
  intros Hdead s. revert r Hdead. induction s as [|c s IH]; intros r Hdead seen best.
  - cbn [longest]. by rewrite (Hdead ""  : nullable r = false).
  - cbn [longest]. rewrite (Hdead "" : nullable r = false).
    apply IH. intros w. apply (Hdead (String c w)).
Qed.

Lemma longest_words r s seen best :
  (forall w, MatchString r w = forallb isWord (list_ascii_of_string w)) ->
  longest r s seen best = Some (seen +:+ (span isWord s).1, (span isWord s).2).
Proof.
  revert r seen best. induction s as [|c s IH]; intros r seen best Hr.
  - cbn [longest span fst snd]. rewrite (Hr "" : nullable r = true).
    by rewrite append_nil_r.
  - cbn [longest span]. rewrite (Hr "" : nullable r = true).
    destruct (isWord c) eqn:Hc.
    + rewrite (IH (deriv c r)).
      * destruct (span isWord s) as [a b]. cbn [fst snd].
        by rewrite append_assoc.
      * intros w. rewrite (Hr (String c w) : MatchString (deriv c r) w = _).
        cbn [list_ascii_of_string forallb]. by rewrite Hc.
    + cbn [fst snd]. rewrite MatchString_dead.
      * by rewrite append_nil_r.
      * intros w. rewrite (Hr (String c w) : MatchString (deriv c r) w = _).
        cbn [list_ascii_of_string forallb]. by rewrite Hc.
Qed.

Lemma lang_star_word w :
  forallb isWord (list_ascii_of_string w) = true -> lang (Star word) w.
Proof.
  induction w as [|c w IH]; [constructor|].
  cbn [list_ascii_of_string forallb]. intros [Hc Hw]%andb_true_iff.
  apply (lang_star_cons word (String c "") w); [by constructor | by apply IH].
Qed.

Lemma hashtag_words c w :
  MatchString hashtagRe (String "#" (String c w))
  = isWord c && forallb isWord (list_ascii_of_string w).
Proof.
  apply eq_true_iff_eq. rewrite MatchString_lang, andb_true_iff. split.
  - intros H. apply lang_cat_inv in H as (s1 & s2 & Heq & ->%lang_lit_inv & Hw).
    apply lang_cat_inv in Hw as (w1 & w2 & -> & (d & -> & Hd)%lang_cls_inv & Hw).
    injection Heq as -> ->. split; [done|]. by apply lang_star_cls.
  - intros [Hc Hw].
    apply (lang_cat (Lit "#") (Plus word) "#" (String c w)); [by constructor|].
    apply (lang_cat word (Star word) (String c "") w); [by constructor|].
    by apply lang_star_word.
Qed.

Lemma hashtag_head c w : Ascii.eqb c "#" = false -> MatchString hashtagRe (String c w) = false.
Proof.
  intros Hc. apply not_true_is_false. rewrite MatchString_lang.
  intros H. apply lang_cat_inv in H as (s1 & s2 & Heq & ->%lang_lit_inv & _).
  injection Heq as -> _. by rewrite Ascii.eqb_refl in Hc.
Qed.

(** What [matchPrefix] finds at a position: a [#] with the word characters
    that follow it, when there is at least one. *)
Lemma matchPrefix_hashtag s :
  matchPrefix hashtagRe s
  = match s with
    | String c (String d r) =>
        if Ascii.eqb c "#" && isWord d
        then Some (String c (String d (span isWord r).1), (span isWord r).2)
        else None
    | _ => None
    end.
Proof.
  unfold matchPrefix. destruct s as [|c [|d r]]; [done| |].
  - cbn [longest]. change (nullable hashtagRe) with false. cbv iota.
    destruct (Ascii.eqb_spec c "#") as [->|Hc]; [done|].
    apply Ascii.eqb_neq in Hc. by rewrite (hashtag_head c "" Hc : nullable _ = false).
  - cbn [longest]. change (nullable hashtagRe) with false. cbv iota.
    destruct (Ascii.eqb_spec c "#") as [->|Hc].
    + change (nullable (deriv "#" hashtagRe)) with false. cbv iota. cbn [andb].
      destruct (isWord d) eqn:Hd.
      * rewrite (longest_words _ r); [done|].
        intros w. change (MatchString hashtagRe (String "#" (String d w)) = 
                          forallb isWord (list_ascii_of_string w)).
        by rewrite hashtag_words, Hd.
      * apply MatchString_dead. intros w.
        change (MatchString hashtagRe (String "#" (String d w)) = false).
        by rewrite hashtag_words, Hd.
    + apply Ascii.eqb_neq in Hc. cbn [andb].
      rewrite (hashtag_head c "" Hc : nullable _ = false).
      apply MatchString_dead. intros w.
      apply (hashtag_head c (String d w) Hc).
Qed.

Lemma span_length p s :
  (String.length (span p s).2 <= String.length s)%nat.
Proof.
  induction s as [|c s IH]; [done|]. cbn [span].
  destruct (p c); [|done]. destruct (span p s) as [a b]. cbn [snd String.length] in *. lia.
Qed.

Lemma span_head p s :
  match (span p s).2 with
  | EmptyString => True
  | String c _ => p c = false
  end.
Proof.
  induction s as [|c s IH]; [done|]. cbn [span].
  destruct (p c) eqn:Hc; [|done]. by destruct (span p s) as [a b].
Qed.

Lemma removed_head fuel s :
  (String.length s <= fuel)%nat -> headNotWord s ->
  headNotWord (removed (scan fuel hashtagRe s)).
Proof.
  revert s. induction fuel as [|fuel IH]; intros s Hlen Hs; [done|].
  destruct s as [|c s]; [done|]. cbn [scan]. rewrite matchPrefix_hashtag.
  destruct s as [|d r]; [done|].
  destruct (Ascii.eqb c "#" && isWord d).
  - apply IH.
    + pose proof (span_length isWord r). cbn [String.length] in Hlen. lia.
    + apply span_head.
  - done.
Qed.

Lemma removed_noTag fuel s :
  (String.length s <= fuel)%nat -> noTag (removed (scan fuel hashtagRe s)) = true.
Proof.
  revert s. induction fuel as [|fuel IH]; intros s Hlen; [done|].
  destruct s as [|c s]; [done|]. cbn [scan]. rewrite matchPrefix_hashtag.
  cbn [String.length] in Hlen.
  destruct s as [|d r].
  { assert (scan fuel hashtagRe "" = []) as -> by (by destruct fuel).
    unfold removed. simpl. by rewrite andb_false_r. }
  destruct (Ascii.eqb c "#" && isWord d) eqn:Hm.
  - apply IH.
    pose proof (span_length isWord r). cbn [String.length] in Hlen. lia.
  - assert (removed (inl c :: scan fuel hashtagRe (String d r))
            = String c (removed (scan fuel hashtagRe (String d r)))) as -> by done.
    cbn [noTag]. rewrite IH by lia. rewrite andb_true_r.
    destruct (Ascii.eqb c "#") eqn:Hc; [|done]. cbn [andb] in *.
    pose proof (removed_head fuel (String d r) ltac:(lia) Hm) as Hhead.
    destruct (removed _) as [|x t]; [done|]. cbn [headNotWord] in Hhead. by rewrite Hhead.
Qed.

Lemma noTag_tail c s : noTag (String c s) = true -> noTag s = true.
Proof. cbn [noTag]. by intros [_ ?]%andb_true_iff. Qed.

Lemma noTag_trimLeft s : noTag s = true -> noTag (trimLeft s) = true.
Proof.
  induction s as [|c s IH]; [done|]. intros H. cbn [trimLeft].
  destruct (isSpace c); [apply IH; by apply noTag_tail in H | done].
Qed.

Lemma trimRight_first c s x t :
  trimRight (String c s) = String x t -> x = c.
Proof. cbn [trimRight]. destruct (trimRight s); [destruct (isSpace c)|]; congruence. Qed.

Lemma noTag_trimRight s : noTag s = true -> noTag (trimRight s) = true.
Proof.
  induction s as [|c s IH]; [done|]. intros H.
  pose proof (IH (noTag_tail _ _ H)) as IH'. 
  cbn [noTag] in H. apply andb_true_iff in H as [Hc _].
  cbn [trimRight]. destruct (trimRight s) as [|x t] eqn:Ht.
  - destruct (isSpace c); [done|]. cbn. by rewrite andb_false_r.
  - cbn [noTag]. cbn [noTag] in IH'. rewrite IH', andb_true_r.
    destruct s as [|d r]; [done|]. apply trimRight_first in Ht as ->. exact Hc.
Qed.

Lemma scan_noTag fuel s :
  noTag s = true ->
  scan fuel hashtagRe s = map inl (firstn fuel (list_ascii_of_string s)).
Proof.
  revert s. induction fuel as [|fuel IH]; intros s Hs; [done|].
  destruct s as [|c s]; [done|]. cbn [scan]. rewrite matchPrefix_hashtag.
  cbn [list_ascii_of_string firstn map]. 
  pose proof (noTag_tail _ _ Hs) as Htail. cbn [noTag] in Hs.
  apply andb_true_iff in Hs as [Hc _]. apply negb_true_iff in Hc.
  destruct s as [|d r]; [by rewrite IH|]. rewrite Hc. by rewrite IH.
Qed.

Lemma firstn_string s : firstn (String.length s) (list_ascii_of_string s) = list_ascii_of_string s.
Proof. induction s as [|c s IH]; [done|]. cbn. by rewrite IH. Qed.

Lemma pieces_noTag s :
  noTag s = true -> FindAllString hashtagRe s = [] /\ RemoveAll hashtagRe s = s.
Proof.
  intros Hs. unfold FindAllString, RemoveAll, pieces.
  rewrite (scan_noTag _ s Hs), firstn_string. split.
  - induction (list_ascii_of_string s) as [|c l IH]; [done|]. exact IH.
  - rewrite <- (string_of_list_ascii_of_string s) at 2. f_equal.
    induction (list_ascii_of_string s) as [|c l IH]; [done|]. simpl. by f_equal.
Qed.

(** ** The time column *)

Lemma runeCount_app a b : runeCount (a +:+ b) = (runeCount a + runeCount b)%nat.
Proof. induction a as [|c a IH]; [done|]. cbn [String.append runeCount]. rewrite IH. lia. Qed.

Lemma runeCount_spaces n : runeCount (spaces n) = n.
Proof. induction n as [|n IH]; [done|]. cbn [spaces runeCount]. by rewrite IH. Qed.

Lemma digit_rune c : isDigit c = true -> isContinuation c = false.
Proof. by_bytes c. Qed.

Lemma canonical_runes o : canonicalTime o -> runeCount (str o) = 5%nat.
Proof.
  intros (t & -> & Hm & Hlen). unfold str. simpl.
  destruct (timeRegex_inv t Hm)
    as (h & m1 & m2 & H1 & H2 & [[_ ->] | (h1 & H3 & H4 & ->)]); [done|].
  cbn [runeCount].
  rewrite (digit_rune h1), (digit_rune h), (digit_rune m1), (digit_rune m2) by done.
  reflexivity.
Qed.

Lemma padRight_runes width s :
  runeCount (padRight width s) = Nat.max width (runeCount s).
Proof. unfold padRight. rewrite runeCount_app, runeCount_spaces. lia. Qed.

(** X21. The time column of a block line is printed 23 characters wide
    for a block with one pair of times, planned or unplanned; a planned
    block with a recorded actual time shows both pairs around an arrow,
    which takes 25 characters, so its description starts two columns
    further right. *)
Theorem time_column b :
  canonicalTime (if IsUnplanned b then ActualStart b else PlannedStart b) ->
  canonicalTime (if IsUnplanned b then ActualEnd b else PlannedEnd b) ->
  (IsUnplanned b = false -> is_Some (ActualStart b) ->
   canonicalTime (ActualStart b) /\ canonicalTime (ActualEnd b)) ->
  runeCount (padRight 23 (timeStr b))
  = if negb (IsUnplanned b) && bool_decide (is_Some (ActualStart b)) then 25%nat else 23%nat.
Proof.
  intros Hs He Ha. rewrite padRight_runes. unfold timeStr.
  destruct (IsUnplanned b).
  - cbn [negb andb]. rewrite !runeCount_app, !canonical_runes by done. done.
  - cbn [negb andb]. case_bool_decide as Hact.
    + destruct (Ha eq_refl Hact) as [Has Hae].
      rewrite !runeCount_app, !canonical_runes by done. done.
    + rewrite !runeCount_app, !canonical_runes by done. done.
Qed.

Lemma time_column_witness :
  runeCount (padRight 23 (timeStr (demoRow 0))) = 23%nat
  /\ runeCount (padRight 23 (timeStr (setActual "14:05" "15:30" (demoRow 0)))) = 25%nat.
Proof.
  split.
  - apply (time_column (demoRow 0)).
    + by exists "14:00".
    + by exists "15:00".
    + intros _ [t Ht]. discriminate Ht.
  - apply (time_column (setActual "14:05" "15:30" (demoRow 0))).
    + by exists "14:00".
    + by exists "15:00".
    + intros _ _. split; [by exists "14:05" | by exists "15:30"].
Defined.

(** X22. The flags of [ls]: a week given with [--week] is taken as it
    is, whatever the other flags; [--last] wins over [--next]; [--last]
    and [--next] select the weeks that the previous and next links of the
    web view lead to from the current week. The date range of the header
    runs from the date shown for Monday to the date shown for Sunday. *)
Theorem getWeek_flags now weekFlag last next :
  (weekFlag <> "" -> getWeek now weekFlag last next = weekFlag)
  /\ getWeek now "" true next = servePrevWeek (getWeek now "" false false)
  /\ getWeek now "" false true = serveNextWeek (getWeek now "" false false)
  /\ forall week,
       weekDateRange week = dayDate week "monday" +:+ " - " +:+ dayDate week "sunday".
Proof.
  split; [|split; [|split]].
  - intros Hne%String.eqb_neq. unfold getWeek. by rewrite Hne.
  - unfold getWeek, servePrevWeek. cbn [String.eqb negb].
    destruct (ISOWeek now) as [y w]. rewrite sscanWeek_weekKey.
    by destruct (w - 1 <? 1).
  - unfold getWeek, serveNextWeek. cbn [String.eqb negb].
    destruct (ISOWeek now) as [y w]. rewrite sscanWeek_weekKey.
    by destruct (52 <? w + 1).
  - intros week. unfold weekDateRange, dayDate, targetDate.
    change (dayOffsets !! "monday") with (Some 0).
    change (dayOffsets !! "sunday") with (Some 6).
    cbn [default from_option id]. unfold AddDate. by rewrite Z.add_0_r.
Qed.

Lemma getWeek_flags_witness :
  getWeek (Date 2025 2 10) "2024-W51" true true = "2024-W51".
Proof. apply (proj1 (getWeek_flags (Date 2025 2 10) "2024-W51" true true)). discriminate. Defined.

(** ** Commands that cannot fail on their arguments *)

Lemma dbInsert_fresh st b :
  (forall b', b' ∈ st -> ID b' <> ID b) -> dbInsert st b = Some (st ++ [b])%list.
Proof.
  intros Hfresh. unfold dbInsert.
  destruct (existsb (hasID (ID b)) st) eqn:Hex; [|done].
  apply existsb_exists in Hex as (b' & Hin & Hid).
  unfold hasID in Hid. apply String.eqb_eq in Hid.
  destruct (Hfresh b'); [by apply list_elem_of_In | done].
Qed.

Lemma days_not_timeRange d : d ∈ days -> isTimeRange d = false.
Proof.
  intros Hd. apply list_elem_of_In in Hd. simpl in Hd.
  repeat (destruct Hd as [<- | Hd]; [reflexivity|]). destruct Hd.
Qed.

Lemma timeRange_parsed s :
  isTimeRange s = true -> exists start end_, parseTimeRange s = Ok (start, end_).
Proof.
  intros (a & b & -> & Ha & Hb)%timeRange_parts. rewrite parse_parts by done. eauto.
Qed.

(** X23. With an id that no row has, [add] succeeds on every argument
    list that starts with a time range (the block is filed under today and
    everything after the range is its text), and on every list that starts
    with a day name followed by a time range; in the second form the text
    may be missing, and the block is stored with an empty description. The
    stored text is the cleaned one, the stored times are the parsed ones. *)
Theorem add_succeeds e flagTag a0 a1 rest st :
  (forall b, b ∈ st -> ID b <> newID e) ->
  (isTimeRange a0 = true \/ (a0 ∈ days /\ isTimeRange a1 = true)) ->
  exists b line,
    cmdAdd e flagTag (a0 :: a1 :: rest) st = ((st ++ [b])%list, Ok line)
    /\ parseDay (now e) (if isTimeRange a0 then "today" else a0) = Ok (Week b, Day b)
    /\ parseTimeRange (if isTimeRange a0 then a0 else a1)
       = Ok (str (PlannedStart b), str (PlannedEnd b))
    /\ Description b
       = (extractTags (Join (if isTimeRange a0 then a1 :: rest else rest) " ") flagTag).1
    /\ (a0 ∈ days -> rest = [] -> Day b = a0 /\ Description b = "").
Proof.
  intros Hfresh Hargs. unfold cmdAdd, splitArgs.
  assert (exists dayArg timeArg descArgs week day start end_,
            (if isTimeRange a0 then Some ("today", a0, a1 :: rest) else Some (a0, a1, rest))
            = Some (dayArg, timeArg, descArgs)
            /\ dayArg = (if isTimeRange a0 then "today" else a0)
            /\ timeArg = (if isTimeRange a0 then a0 else a1)
            /\ descArgs = (if isTimeRange a0 then a1 :: rest else rest)
            /\ parseDay (now e) dayArg = Ok (week, day)
            /\ parseTimeRange timeArg = Ok (start, end_)
            /\ (a0 ∈ days -> day = a0 /\ descArgs = rest))
    as (dayArg & timeArg & descArgs & week & day & start & end_
        & -> & Hday & Htime & Hdesc & Hd & Ht & Hname).
  { destruct Hargs as [Hr|[Hd Hr]].
    - rewrite Hr. destruct (timeRange_parsed a0 Hr) as (start & end_ & Ht).
      eexists "today", a0, (a1 :: rest), _, _, start, end_.
      rewrite parseDay_today. do 6 (split; [done|]).
      intros Hd. apply days_not_timeRange in Hd. congruence.
    - rewrite (days_not_timeRange a0 Hd).
      destruct (timeRange_parsed a1 Hr) as (start & end_ & Ht).
      destruct (parseDay_name (now e) a0 Hd) as [Hok _].
      eexists a0, a1, rest, _, a0, start, end_. do 6 (split; [done|]). done. }
  rewrite Hd, Ht. rewrite <- Hday, <- Htime, <- Hdesc.
  destruct (extractTags (Join descArgs " ") flagTag) as [desc tags] eqn:Hx.
  rewrite dbInsert_fresh by done.
  eexists _, _. split; [done|]. cbn. do 3 (split; [done|]).
  intros Ha0 Hrest. destruct (Hname Ha0) as [-> Hdargs]. split; [done|].
  rewrite Hdargs, Hrest in Hx. by injection Hx as <- _.
Qed.

Lemma add_succeeds_witness :
  exists b line,
    cmdAdd (demoEnv "77aa01" "2025-02-10 09:00:00") "" ["friday"; "9:00-10:00"] demoStore
    = ((demoStore ++ [b])%list, Ok line)
    /\ Day b = "friday" /\ Description b = "".
Proof.
  destruct (add_succeeds (demoEnv "77aa01" "2025-02-10 09:00:00") "" "friday" "9:00-10:00"
              [] demoStore) as (b & line & H1 & _ & _ & _ & H5).
  - intros b Hb. vm_compute in Hb.
    repeat (apply elem_of_cons in Hb as [->|Hb]; [discriminate|]).
    apply elem_of_nil in Hb. destruct Hb.
  - right. split; [|reflexivity]. vm_compute. do 4 right. left.
  - exists b, line. split; [exact H1|]. apply H5; [|reflexivity].
    vm_compute. do 4 right. left.
Defined.

(** ** Dates in a location *)

Lemma yearDay_check :
  forallb (fun leap =>
             forallb (fun k => yearDayOf leap (monthDayOf leap k).1 (monthDayOf leap k).2 =? k)
               (zrange 0 (if leap then 366 else 365)))
    [true; false] = true.
Proof. vm_compute. reflexivity. Qed.

(** A day is the date it is read as. *)
Lemma Date_of_day n : Date (Year n) (Month n) (Time.Day n) = n.
Proof.
  unfold Month, Time.Day, monthDay, Year, YearDay0. rewrite Date_yearDay.
  destruct (absDate_inv n) as [Hsum Hk].
  destruct (absDate n) as [y k]. cbn [fst snd] in *. subst n. f_equal.
  pose proof yearDay_check as Hc. rewrite forallb_forall in Hc.
  assert (In (isLeap y) [true; false]) as Hl by (destruct (isLeap y); simpl; tauto).
  specialize (Hc _ Hl). rewrite forallb_forall in Hc.
  apply Z.eqb_eq, Hc. unfold yearLength in Hk.
  apply zrange_elem. destruct (isLeap y); simpl; lia.
Qed.

Lemma Date_add_days y m d k : Date y m (d + k) = Date y m d + k.
Proof. unfold Date. cbv zeta. lia. Qed.

Lemma wall_day l t n :
  Zone.wall l t = n * Zone.secondsPerDay -> Zone.dayOf l t = n /\ Zone.clockOf l t = 0.
Proof.
  unfold Zone.dayOf, Zone.clockOf, Zone.secondsPerDay. intros ->.
  split; [apply Z.div_mul; lia | apply Z.mod_mul; lia].
Qed.

Lemma Zone_Date_midnight l y m d :
  Zone.keepsMidnight l (Date y m d) ->
  Zone.wall l (Zone.Date l y m d 0) = Date y m d * Zone.secondsPerDay.
Proof. unfold Zone.keepsMidnight, Zone.Date. by rewrite Z.add_0_r. Qed.

Lemma Zone_AddDate_midnight l t n k :
  Zone.wall l t = n * Zone.secondsPerDay ->
  Zone.keepsMidnight l (n + k) ->
  Zone.wall l (Zone.AddDate l t k) = (n + k) * Zone.secondsPerDay.
Proof.
  intros Ht Hk. destruct (wall_day l t n Ht) as [Hd Hc].
  unfold Zone.AddDate. rewrite Hd, Hc. cbv zeta.
  unfold Zone.Date. rewrite Date_add_days, Date_of_day, Z.add_0_r. exact Hk.
Qed.

(** A location without transitions keeps every midnight. *)
Lemma fixed_keepsMidnight offset n : Zone.keepsMidnight (Zone.mkLocation offset []) n.
Proof.
  unfold Zone.keepsMidnight, Zone.wall, Zone.fromWall, Zone.lookup. cbn.
  destruct (Z.eqb_spec offset 0) as [->|_]; cbn; lia.
Qed.

(** Where the midnights are kept, the dates of a week are those of the
    calendar days, whatever the location. *)
Lemma Local_days l week :
  (forall n, Zone.keepsMidnight l n) ->
  Zone.wall l (Local.mondayOf l week) = mondayOf week * Zone.secondsPerDay
  /\ (forall day,
        Zone.wall l (Local.targetDate l week day)
        = targetDate week day * Zone.secondsPerDay)
  /\ (forall day, Local.dayDate l week day = dayDate week day)
  /\ Local.weekDateRange l week = weekDateRange week.
Proof.
  intros Hkeep.
  assert (forall year, Zone.wall l (Local.firstMonday l year)
                       = firstMonday year * Zone.secondsPerDay) as Hfirst.
  { intros year. unfold Local.firstMonday, firstMonday. cbv zeta.
    pose proof (Zone_Date_midnight l year 1 1 (Hkeep _)) as Hjan.
    unfold Zone.weekday. rewrite (proj1 (wall_day _ _ _ Hjan)).
    unfold AddDate. by apply Zone_AddDate_midnight. }
  assert (Zone.wall l (Local.mondayOf l week) = mondayOf week * Zone.secondsPerDay) as Hmon.
  { unfold Local.mondayOf, mondayOf. destruct (sscanWeek week) as [year weekNum].
    unfold AddDate. by apply Zone_AddDate_midnight. }
  assert (forall k, Zone.wall l (Zone.AddDate l (Local.mondayOf l week) k)
                    = (mondayOf week + k) * Zone.secondsPerDay) as Hstep.
  { intros k. by apply Zone_AddDate_midnight. }
  split; [exact Hmon|]. split; [|split].
  - intros day. unfold Local.targetDate, targetDate, AddDate. apply Hstep.
  - intros day. unfold Local.dayDate, dayDate, Zone.FormatJan2,
      Local.targetDate, targetDate, AddDate.
    by rewrite (proj1 (wall_day _ _ _ (Hstep _))).
  - unfold Local.weekDateRange, weekDateRange, Zone.FormatJan2, AddDate. cbv zeta.
    by rewrite (proj1 (wall_day _ _ _ Hmon)), (proj1 (wall_day _ _ _ (Hstep 6))).
Qed.

(** C3: for a week key YYYY-W## and a location that keeps its midnights,
    the Monday anchor is the Monday on or before January 1 of the key's
    year (January 1 itself when it is a Monday, else one to six days back)
    plus seven days for each week after the first, at 0:00; the dates of
    monday to sunday are the anchor plus 0 to 6, seven consecutive calendar
    days, and they are what [dayDate] and [weekDateRange] print. Where the
    clocks are put forward at 0:00 the midnight of that day does not exist
    and [time.Date] answers 23:00 of the day before: in the week 2026-W10
    of such a location sunday gets the date of saturday, March 7, a second
    time, and the week is captioned Mar 2 - Mar 7. *)
Theorem week_anchor :
  (forall l year weekNum,
      0 <= year <= 9999 -> 0 <= weekNum <= 99 ->
      (forall n, Zone.keepsMidnight l n) ->
      let week := weekKey year weekNum in
      let jan1 := Date year 1 1 in
      exists first,
        let anchor := first + (weekNum - 1) * 7 in
        sscanWeek week = (year, weekNum)
        /\ Year jan1 = year /\ Month jan1 = 1 /\ Time.Day jan1 = 1
        /\ weekday first = Monday /\ jan1 - 6 <= first <= jan1
        /\ Zone.dayOf l (Local.mondayOf l week) = anchor
        /\ Zone.clockOf l (Local.mondayOf l week) = 0
        /\ weekday anchor = Monday
        /\ map (fun day => Zone.dayOf l (Local.targetDate l week day)) days
           = map (fun k => anchor + k) (zrange 0 7)
        /\ map (Local.dayDate l week) days
           = map (fun k => FormatJan2 (anchor + k)) (zrange 0 7)
        /\ Local.weekDateRange l week
           = FormatJan2 anchor +:+ " - " +:+ FormatJan2 (anchor + 6))
  /\ map (Local.dayDate Zone.UTC "2025-W06") days
     = ["Feb 3"; "Feb 4"; "Feb 5"; "Feb 6"; "Feb 7"; "Feb 8"; "Feb 9"]
  /\ map (Local.dayDate Zone.UTC "2025-W01") days
     = ["Dec 30"; "Dec 31"; "Jan 1"; "Jan 2"; "Jan 3"; "Jan 4"; "Jan 5"]
  /\ Local.weekDateRange Zone.UTC "2025-W06" = "Feb 3 - Feb 9"
  /\ ~ Zone.keepsMidnight gapZone (Date 2026 3 8)
  /\ map (Local.dayDate gapZone "2026-W10") days
     = ["Mar 2"; "Mar 3"; "Mar 4"; "Mar 5"; "Mar 6"; "Mar 7"; "Mar 7"]
  /\ Local.weekDateRange gapZone "2026-W10" = "Mar 2 - Mar 7"
  /\ Zone.weekday gapZone (Local.targetDate gapZone "2026-W10" "sunday") = Saturday
  /\ Zone.clockOf gapZone (Local.targetDate gapZone "2026-W10" "sunday") = 23 * 3600.
Proof.
  split; [|split; [reflexivity|split; [reflexivity|split; [reflexivity|
    split; [by vm_compute|split; [reflexivity|split; [reflexivity|
    split; reflexivity]]]]]]].
  intros l year weekNum _ _ Hkeep week jan1. exists (firstMonday year).
  cbv zeta.
  destruct (Date_jan1 year) as (Hy & Hm & Hd).
  destruct (firstMonday_spec year) as (Hmon & Hrange).
  destruct (Local_days l week Hkeep) as (Hmonday & Htarget & Hdates & Hrangetext).
  assert (sscanWeek week = (year, weekNum)) as Hscan by apply sscanWeek_weekKey.
  assert (mondayOf week = firstMonday year + (weekNum - 1) * 7) as Hanchor.
  { unfold mondayOf, AddDate. by rewrite Hscan. }
  assert (forall name k, dayOffsets !! name = Some k ->
            targetDate week name = firstMonday year + (weekNum - 1) * 7 + k) as Hday.
  { intros name k Hk. unfold targetDate, AddDate. by rewrite Hk, Hanchor. }
  assert (weekday (firstMonday year + (weekNum - 1) * 7) = Monday) as Hwd.
  { apply weekday_Monday.
    assert (weekdayNum (weekday (firstMonday year)) = 1) as H1 by (by rewrite Hmon).
    rewrite weekday_num in H1. Z.div_mod_to_equations. lia. }
  split; [exact Hscan|]. do 3 (split; [done|]). split; [exact Hmon|].
  split; [exact Hrange|].
  rewrite <- Hanchor. destruct (wall_day _ _ _ Hmonday) as [Hd0 Hc0].
  split; [exact Hd0|]. split; [exact Hc0|]. split; [by rewrite Hanchor|].
  split; [|split].
  - unfold days. cbn [map zrange].
    rewrite !(fun day => proj1 (wall_day _ _ _ (Htarget day))).
    rewrite Hanchor.
    rewrite (Hday "monday" 0), (Hday "tuesday" 1), (Hday "wednesday" 2),
      (Hday "thursday" 3), (Hday "friday" 4), (Hday "saturday" 5), (Hday "sunday" 6)
      by reflexivity.
    repeat f_equal; lia.
  - unfold days. cbn [map zrange]. rewrite !Hdates. unfold dayDate.
    rewrite Hanchor.
    rewrite (Hday "monday" 0), (Hday "tuesday" 1), (Hday "wednesday" 2),
      (Hday "thursday" 3), (Hday "friday" 4), (Hday "saturday" 5), (Hday "sunday" 6)
      by reflexivity.
    repeat f_equal; lia.
  - rewrite Hrangetext. unfold weekDateRange, AddDate. cbv zeta.
    rewrite Hanchor. reflexivity.
Qed.

Lemma week_anchor_witness :
  map (Local.dayDate fixedZone (weekKey 2025 6)) days
  = ["Feb 3"; "Feb 4"; "Feb 5"; "Feb 6"; "Feb 7"; "Feb 8"; "Feb 9"].
Proof.
  destruct (proj1 week_anchor fixedZone 2025 6) as (first & H); [lia | lia | |].
  - intros n. apply fixed_keepsMidnight.
  - cbv zeta in H. destruct H as (_ & _ & _ & _ & Hmon & Hrange & _ & _ & _ & _ & Hdates & _).
    rewrite Hdates.
    assert (first = Date 2025 2 3 - 35) as ->.
    { change (Date 2025 1 1) with 739251 in Hrange. change (Date 2025 2 3 - 35) with 739249.
      assert (weekdayNum (weekday first) = 1) as H1 by (by rewrite Hmon).
      rewrite weekday_num in H1. Z.div_mod_to_equations. lia. }
    reflexivity.
Defined.

(** X2: an entry filed under the ISO week and weekday of a date [t] (what
    [today] and a date token do) is shown by [dayDate], in a location that
    keeps its midnights, with the date [t] itself when January 1 of the ISO
    year falls on Monday to Thursday, and with the date one week before [t]
    when it falls on Friday, Saturday or Sunday: the anchor is the Monday
    on or before January 1, which is then the Monday before ISO week 1. *)
Theorem displayed_date :
  (forall l t,
      (forall n, Zone.keepsMidnight l n) ->
      0 <= (ISOWeek t).1 <= 9999 ->
      let key := weekKey (ISOWeek t).1 (ISOWeek t).2 in
      let name := ToLower (weekdayString (weekday t)) in
      let shown := match weekday (Date (ISOWeek t).1 1 1) with
                   | Friday | Saturday | Sunday => t - 7
                   | _ => t
                   end in
      parseDay t "today" = Ok (key, name)
      /\ (forall now tok, MatchString dateRegex tok = true -> Parse tok = Some t ->
            parseDay now tok = Ok (key, name))
      /\ Zone.dayOf l (Local.targetDate l key name) = shown
      /\ Local.dayDate l key name = FormatJan2 shown)
  /\ (forall now, parseDay now "2027-01-04" = Ok ("2027-W01", "monday"))
  /\ (forall l, (forall n, Zone.keepsMidnight l n) ->
        Local.dayDate l "2027-W01" "monday" = "Dec 28")
  /\ (forall now, parseDay now "2026-01-05" = Ok ("2026-W02", "monday"))
  /\ (forall l, (forall n, Zone.keepsMidnight l n) ->
        Local.dayDate l "2026-W02" "monday" = "Jan 5").
Proof.
  split; [|split; [intros now; reflexivity|split; [|split; [intros now; reflexivity|]]]].
  - intros l t Hkeep _ key name shown. split; [apply parseDay_today|]. split; [|split].
    + intros now tok Hm Hp. by rewrite parseDay_dateToken, Hp.
    + destruct (Local_days l key Hkeep) as (_ & Htarget & _).
      rewrite (proj1 (wall_day _ _ _ (Htarget name))). apply targetDate_ISOWeek.
    + destruct (Local_days l key Hkeep) as (_ & _ & Hdates & _).
      rewrite Hdates. unfold dayDate. f_equal. apply targetDate_ISOWeek.
  - intros l Hkeep. destruct (Local_days l "2027-W01" Hkeep) as (_ & _ & Hdates & _).
    by rewrite Hdates.
  - intros l Hkeep. destruct (Local_days l "2026-W02" Hkeep) as (_ & _ & Hdates & _).
    by rewrite Hdates.
Qed.

Lemma displayed_date_witness :
  Local.dayDate fixedZone (weekKey (ISOWeek (Date 2027 1 4)).1 (ISOWeek (Date 2027 1 4)).2)
    (ToLower (weekdayString (weekday (Date 2027 1 4))))
  = FormatJan2 (Date 2027 1 4 - 7).
Proof.
  destruct (proj1 displayed_date fixedZone (Date 2027 1 4)) as (_ & _ & _ & H).
  - intros n. apply fixed_keepsMidnight.
  - vm_compute. split; discriminate.
  - exact H.
Defined.

(** ** ASCII text *)

Lemma isASCII_app a b : isASCII (a +:+ b) = isASCII a && isASCII b.
Proof.
  unfold isASCII. induction a as [|c a IH]; [done|].
  cbn [String.append list_ascii_of_string forallb]. by rewrite IH, andb_assoc.
Qed.

Lemma word_ascii c : isWord c = true -> (N_of_ascii c <? 128)%N = true.
Proof. by_bytes c. Qed.

Lemma words_ascii w : forallb isWord (list_ascii_of_string w) = true -> isASCII w = true.
Proof.
  unfold isASCII. induction w as [|c w IH]; [done|].
  cbn [list_ascii_of_string forallb]. intros [Hc Hw]%andb_true_iff.
  by rewrite (word_ascii c Hc), IH.
Qed.

Lemma hashtag_ascii desc m :
  m ∈ FindAllString hashtagRe desc -> isASCII (submatch1 m) = true.
Proof.
  intros (c & w & -> & Hc & Hw)%FindAllString_hashtag. apply words_ascii.
  cbn [submatch1 list_ascii_of_string forallb]. by rewrite Hc, Hw.
Qed.

Lemma removed_ascii (l : list (ascii + string)) :
  isASCII (flat (map pieceText l)) = true ->
  isASCII (string_of_list_ascii
             (omap (fun p => match p with inl c => Some c | inr _ => None end) l)) = true.
Proof.
  induction l as [|[c|m] l IH]; [done| |].
  - simpl. unfold isASCII in *. simpl. intros [Hc Hl]%andb_true_iff.
    rewrite Hc. by apply IH.
  - simpl. rewrite isASCII_app. intros [_ Hl]%andb_true_iff. by apply IH.
Qed.

Lemma RemoveAll_ascii r s : isASCII s = true -> isASCII (RemoveAll r s) = true.
Proof. intros Hs. apply removed_ascii. by rewrite pieces_rebuild. Qed.

Lemma lowerChar_ascii c :
  (N_of_ascii (lowerChar c) <? 128)%N = (N_of_ascii c <? 128)%N.
Proof. destruct c as [[] [] [] [] [] [] [] []]; vm_compute; done. Qed.

Lemma ToLower_ascii s : isASCII (ToLower s) = isASCII s.
Proof.
  unfold isASCII. induction s as [|c s IH]; [done|].
  cbn [ToLower list_ascii_of_string forallb]. by rewrite lowerChar_ascii, IH.
Qed.

Lemma trimLeft_ascii s : isASCII s = true -> isASCII (trimLeft s) = true.
Proof.
  induction s as [|c s IH]; [done|]. cbn [trimLeft]. destruct (isSpace c); [|done].
  unfold isASCII in *. cbn [list_ascii_of_string forallb].
  intros [_ Hs]%andb_true_iff. by apply IH.
Qed.

Lemma trimRight_ascii s : isASCII s = true -> isASCII (trimRight s) = true.
Proof.
  induction s as [|c s IH]; [done|]. unfold isASCII in *.
  cbn [list_ascii_of_string forallb]. intros [Hc Hs]%andb_true_iff.
  cbn [trimRight]. specialize (IH Hs). destruct (trimRight s) as [|x t].
  - destruct (isSpace c); [done|]. cbn. by rewrite Hc.
  - cbn [list_ascii_of_string forallb] in *. by rewrite Hc, IH.
Qed.

Lemma TrimSpace_ascii s : isASCII s = true -> isASCII (TrimSpace s) = true.
Proof. intros Hs. by apply trimRight_ascii, trimLeft_ascii. Qed.

(** With library functions that are [ToLower] and [TrimSpace] on ASCII
    text, [extractTags] on ASCII arguments is the function above. *)
Lemma Go_tagList lower desc flagTag :
  onASCII lower ToLower ->
  Go.tagList lower desc flagTag
  = ((if String.eqb flagTag "" then [] else [lower flagTag])
     ++ map (fun m => ToLower (submatch1 m)) (FindAllString hashtagRe desc))%list.
Proof.
  intros Hlower. unfold Go.tagList. f_equal.
  apply map_ext_in. intros m Hm%list_elem_of_In. by apply Hlower, (hashtag_ascii desc).
Qed.

Lemma Go_extractTags_ascii lower trim desc flagTag :
  onASCII lower ToLower -> onASCII trim TrimSpace ->
  isASCII desc = true -> isASCII flagTag = true ->
  Go.extractTags lower trim desc flagTag = extractTags desc flagTag.
Proof.
  intros Hlower Htrim Hdesc Hflag. unfold Go.extractTags, extractTags, Go.uniqueTags, uniqueTags.
  rewrite Htrim by (by apply RemoveAll_ascii).
  rewrite Go_tagList by done. unfold tagList. by rewrite (Hlower flagTag Hflag).
Qed.

(** C7: with [strings.ToLower] as [lower], the tags are the lowered
    explicit tag, when there is one, followed by the lowered hashtags in
    the order the scan finds them, each kept at its first occurrence only:
    two raw tags that are lowered to the same text give one tag, at the
    place of the first. A hashtag is ASCII, so its lowering is that of the
    letters A-Z; so is that of an ASCII explicit tag, and then every tag is
    its own lowering. The text result joins the tags with commas. *)
Theorem extractTags_tags (lower trim : string -> string) (desc flagTag : string) :
  onASCII lower ToLower -> onASCII trim TrimSpace ->
  let explicit := if String.eqb flagTag "" then [] else [lower flagTag] in
  let hashtags := map (fun m => lower (submatch1 m)) (FindAllString hashtagRe desc) in
  let tags := Go.uniqueTags lower desc flagTag in
  tags = keepFirst (explicit ++ hashtags)%list
  /\ hashtags = map (fun m => ToLower (submatch1 m)) (FindAllString hashtagRe desc)
  /\ snd (Go.extractTags lower trim desc flagTag) = Join tags ","
  /\ NoDup tags
  /\ (forall t, t ∈ tags <-> t ∈ (explicit ++ hashtags)%list)
  /\ (isASCII flagTag = true -> forall t, t ∈ tags -> ToLower t = t)
  /\ (flagTag <> "" -> head tags = Some (lower flagTag))
  /\ Go.extractTags lower trim "deep work #project #Project" "" = ("deep work", "project")
  /\ Go.extractTags lower trim "sync" "Acme" = ("sync", "acme")
  /\ Go.extractTags ToLower TrimSpace desc flagTag = extractTags desc flagTag.
Proof.
  intros Hlower Htrim explicit hashtags tags.
  assert (tags = keepFirst (explicit ++ hashtags)%list) as Hu.
  { unfold tags, Go.uniqueTags.
    change (explicit ++ hashtags)%list with (Go.tagList lower desc flagTag).
    rewrite dedupe_keepFirst. cbn [app].
    induction (keepFirst (Go.tagList lower desc flagTag)) as [|x l IH]; [done|].
    rewrite filter_cons_True; [by rewrite IH | by rewrite lookup_empty]. }
  assert (hashtags = map (fun m => ToLower (submatch1 m)) (FindAllString hashtagRe desc))
    as Hhash.
  { apply map_ext_in. intros m Hm%list_elem_of_In. by apply Hlower, (hashtag_ascii desc). }
  split; [exact Hu|]. split; [exact Hhash|]. split.
  { unfold Go.extractTags. cbn [snd]. fold tags. by destruct tags. }
  split; [rewrite Hu; apply keepFirst_NoDup|].
  split; [intros t; rewrite Hu; apply keepFirst_elem|].
  split.
  { intros Hflag t. rewrite Hu, keepFirst_elem, elem_of_app, Hhash. unfold explicit.
    intros [Ht | Ht].
    - destruct (String.eqb flagTag ""); [by apply elem_of_nil in Ht|].
      apply list_elem_of_singleton in Ht as ->.
      rewrite (Hlower flagTag Hflag). apply ToLower_idem.
    - apply list_elem_of_fmap in Ht as (m & -> & _). apply ToLower_idem. }
  split.
  { intros Hne. rewrite Hu. unfold explicit.
    destruct (String.eqb_spec flagTag ""); done. }
  split; [by rewrite Go_extractTags_ascii|].
  split; [by rewrite Go_extractTags_ascii|]. reflexivity.
Qed.

Lemma extractTags_tags_witness :
  head (Go.uniqueTags ToLower "ship it #Work #ops #work" "Ops") = Some "ops"
  /\ Go.uniqueTags ToLower "ship it #Work #ops #work" "Ops" = ["ops"; "work"].
Proof.
  split.
  - apply (extractTags_tags ToLower TrimSpace "ship it #Work #ops #work" "Ops");
      [by intros s _ | by intros s _ | discriminate].
  - reflexivity.
Defined.

(** ** The order of a listing *)

Lemma days_NoDup : NoDup days.
Proof. apply (bool_decide_unpack (NoDup days)). by vm_compute. Qed.

Lemma concat_single (f : string -> list string) (l : list string) x :
  NoDup l -> x ∈ l -> (forall y, y ∈ l -> y <> x -> f y = []) ->
  concat (map f l) = f x.
Proof.
  induction l as [|y l IH]; intros Hnd Hx Hf; [by apply elem_of_nil in Hx|].
  apply NoDup_cons in Hnd as [Hy Hnd]. cbn [map concat].
  apply elem_of_cons in Hx as [->|Hx].
  - assert (concat (map f l) = []) as ->; [|by rewrite app_nil_r].
    clear IH Hnd. induction l as [|z l IH]; [done|]. cbn [map concat].
    rewrite (Hf z); [|by right; left|intros ->; apply Hy; by left].
    apply IH; [|intros w Hw; apply Hf; apply elem_of_cons in Hw as [->|Hw];
                 [by left | right; by right]].
    intros Hin. apply Hy. by right.
  - rewrite (Hf y); [|by left|by intros ->]. apply IH; [done..|].
    intros z Hz. apply Hf. by right.
Qed.

Lemma lsSection_all st week day :
  lsSection st week "" day
  = match queryBlocks st week day with
    | [] => []
    | _ => ([""; ToUpper day +:+ " (" +:+ dayDate week day +:+ ")"]
            ++ map renderLine (queryBlocks st week day))%list
    end.
Proof.
  unfold lsSection. cbn [String.eqb negb andb]. by destruct (queryBlocks st week day).
Qed.

Lemma queryBlocks_sorted st week day :
  queryBlocks st week day ≡ₚ filter (fun b => inBucket week day b = true) st
  /\ StronglySorted orderLe (queryBlocks st week day)
  /\ ((forall b t, b ∈ st -> Week b = week -> Day b = day ->
                   startOf b = Some t -> isRealTime t = true) ->
      StronglySorted keyBefore (queryBlocks st week day)).
Proof.
  assert (StronglySorted orderLe (queryBlocks st week day)) as Hsorted
    by apply (StronglySorted_merge_sort orderLe).
  split; [apply merge_sort_Permutation|]. split; [done|].
  intros Hreal. eapply StronglySorted_weaken; [|exact Hsorted].
  intros x y (Hx & Hxw & Hxd)%queryBlocks_elem (Hy & Hyw & Hyd)%queryBlocks_elem.
  apply orderLe_keyBefore; intros t Ht; eauto using realTime_below_sentinel.
Qed.

Lemma queryBlocks_four p9 p14 note u st week day :
  PlannedStart p9 = Some "09:00" -> PlannedStart p14 = Some "14:00" ->
  PlannedStart note = None -> ActualStart note = None ->
  PlannedStart u = None -> ActualStart u = Some "08:00" ->
  st ≡ₚ [p9; p14; note; u] ->
  Forall (fun b => Week b = week /\ Day b = day) st ->
  queryBlocks st week day = [u; p9; p14; note].
Proof.
  intros H9 H14 Hn1 Hn2 Hu1 Hu2 Hperm Hbucket.
  assert (queryBlocks st week day ≡ₚ [u; p9; p14; note]) as Hp.
  { unfold queryBlocks. rewrite merge_sort_Permutation, bucket_filter_all by done.
    rewrite Hperm. symmetry. apply (Permutation_cons_append [p9; p14; note] u). }
  assert (forall x, x ∈ [u; p9; p14; note] ->
            effectiveStart x ∈ ["08:00"; "09:00"; "14:00"; sentinel]
            /\ (effectiveStart x = "08:00" -> x = u)
            /\ (effectiveStart x = "09:00" -> x = p9)
            /\ (effectiveStart x = "14:00" -> x = p14)
            /\ (effectiveStart x = sentinel -> x = note)) as Hkeys.
  { intros x Hx. apply list_elem_of_In in Hx. simpl in Hx.
    destruct Hx as [<-|[<-|[<-|[<-|[]]]]]; unfold effectiveStart;
      rewrite ?H9, ?H14, ?Hn1, ?Hn2, ?Hu1, ?Hu2;
      (split; [apply list_elem_of_In; simpl; tauto|]); repeat split; done. }
  apply (StronglySorted_unique_strong orderLe); [| | |exact Hp].
  - intros x1 x2 Hx1 Hx2. rewrite Hp in Hx1.
    destruct (Hkeys x1 Hx1) as (K1 & A1 & B1 & C1 & D1).
    destruct (Hkeys x2 Hx2) as (K2 & A2 & B2 & C2 & D2).
    unfold orderLe, orderLeb.
    apply list_elem_of_In in K1, K2. simpl in K1, K2.
    destruct K1 as [K1|[K1|[K1|[K1|[]]]]], K2 as [K2|[K2|[K2|[K2|[]]]]];
      symmetry in K1, K2; rewrite K1, K2; simpl; try done; intros _ _;
      rewrite ?(A1 K1), ?(B1 K1), ?(C1 K1), ?(D1 K1),
              ?(A2 K2), ?(B2 K2), ?(C2 K2), ?(D2 K2); done.
  - apply (StronglySorted_merge_sort orderLe).
  - assert (orderLeb u p9 = true /\ orderLeb u p14 = true /\ orderLeb u note = true
            /\ orderLeb p9 p14 = true /\ orderLeb p9 note = true
            /\ orderLeb p14 note = true) as (? & ? & ? & ? & ? & ?).
    { unfold orderLeb, effectiveStart. rewrite H9, H14, Hn1, Hn2, Hu1, Hu2. done. }
    repeat constructor; done.
Qed.

(** C1: what [ls] prints. For a day, the lines of the day's entries come
    below its heading in the order of the query: the rows of the bucket,
    rearranged so that the effective start -- the planned start when there
    is one, else the actual start, else the text 99:99 -- ascends byte-wise
    and, among equal starts, the creation stamp ascends. The listing of the
    whole week prints the days that have entries one after the other, each
    in that order. 99:99 is above every time of day, so when the start
    times of the bucket are times of day the rows ascend by start time with
    the rows that have none last. The four entries of the example are
    printed as unplanned 08:00, planned 09:00, planned 14:00, note,
    whatever their order in the table and their stamps. *)
Theorem listing_order :
  (forall now weekFlag last next st,
      let week := getWeek now weekFlag last next in
      let header :=
        [""; "Week " +:+ week +:+ " (" +:+ weekDateRange week +:+ ")"; Repeat "─" 50] in
      let heading := fun day => ToUpper day +:+ " (" +:+ dayDate week day +:+ ")" in
      exists out : string -> list Block,
        (forall day,
            out day ≡ₚ filter (fun b => inBucket week day b = true) st
            /\ StronglySorted orderLe (out day)
            /\ ((forall b t, b ∈ st -> Week b = week -> Day b = day ->
                             startOf b = Some t -> isRealTime t = true) ->
                StronglySorted keyBefore (out day)))
        /\ (forall day, day ∈ days ->
              cmdLs now weekFlag last next [day] st
              = (header ++ [""; heading day] ++ map renderLine (out day) ++ [""])%list)
        /\ cmdLs now weekFlag last next [] st
           = (header
              ++ concat (map (fun day =>
                                match out day with
                                | [] => []
                                | _ => ([""; heading day] ++ map renderLine (out day))%list
                                end) days)
              ++ [""])%list)
  /\ (forall a b,
        orderLe a b <->
        strLt (effectiveStart a) (effectiveStart b)
        \/ (effectiveStart a = effectiveStart b /\ strLe (CreatedAt a) (CreatedAt b)))
  /\ (forall b, effectiveStart b = default sentinel (startOf b))
  /\ (forall t, isRealTime t = true -> strLt t sentinel)
  /\ (forall p9 p14 note u st now weekFlag last next day,
        PlannedStart p9 = Some "09:00" -> PlannedStart p14 = Some "14:00" ->
        PlannedStart note = None -> ActualStart note = None ->
        PlannedStart u = None -> ActualStart u = Some "08:00" ->
        st ≡ₚ [p9; p14; note; u] ->
        Forall (fun b => Week b = getWeek now weekFlag last next /\ Day b = day) st ->
        day ∈ days ->
        let week := getWeek now weekFlag last next in
        let printed :=
          ([""; "Week " +:+ week +:+ " (" +:+ weekDateRange week +:+ ")"; Repeat "─" 50]
           ++ [""; ToUpper day +:+ " (" +:+ dayDate week day +:+ ")"]
           ++ map renderLine [u; p9; p14; note] ++ [""])%list in
        cmdLs now weekFlag last next [day] st = printed
        /\ cmdLs now weekFlag last next [] st = printed).
Proof.
  split; [|split; [apply orderLe_iff|split; [apply effectiveStart_startOf|split;
    [apply realTime_below_sentinel|]]]].
  - intros now weekFlag last next st week header heading.
    exists (queryBlocks st week). split; [intros day; apply queryBlocks_sorted|]. split.
    + intros day Hday. destruct (parseDay_name now day Hday) as [Hok _].
      apply (cmdLs_filtered now weekFlag last next day st _ _ Hok).
    + unfold cmdLs, filterDayOf. fold week. fold header. do 3 f_equal.
      apply map_ext. intros day. apply lsSection_all.
  - intros p9 p14 note u st now weekFlag last next day H9 H14 Hn1 Hn2 Hu1 Hu2
      Hperm Hbucket Hday week printed.
    pose proof (queryBlocks_four p9 p14 note u st week day H9 H14 Hn1 Hn2 Hu1 Hu2
                  Hperm Hbucket) as Hq.
    split.
    + destruct (parseDay_name now day Hday) as [Hok _].
      rewrite (cmdLs_filtered now weekFlag last next day st _ _ Hok).
      unfold lsDay. fold week. by rewrite Hq.
    + unfold cmdLs, filterDayOf. fold week. unfold printed. do 1 f_equal.
      rewrite (concat_single (lsSection st week "") days day days_NoDup Hday).
      * rewrite lsSection_all, Hq. by rewrite <- !app_assoc.
      * intros d' _ Hne. rewrite lsSection_all.
        assert (queryBlocks st week d' = []) as ->; [|done].
        destruct (queryBlocks st week d') as [|b bs] eqn:Hqb; [done|].
        assert (b ∈ queryBlocks st week d') as Hb by (rewrite Hqb; by left).
        apply queryBlocks_elem in Hb as (Hb & _ & Hd).
        rewrite Forall_forall in Hbucket. destruct (Hbucket b Hb) as [_ Hd'].
        congruence.
Qed.

Lemma listing_order_witness :
  cmdLs (Date 2025 2 12) "" false false ["monday"] demoStore
  = [""; "Week 2025-W07 (" +:+ weekDateRange "2025-W07" +:+ ")"; Repeat "─" 50;
     ""; "MONDAY (" +:+ dayDate "2025-W07" "monday" +:+ ")";
     "  [123abc] ⚡ 08:00-08:30             fire drill";
     "  [d4e5f6]   09:00-10:00             standup #acme #team";
     "  [a1b2c3]   14:00-15:00             review";
     "  • buy milk";
     ""]
  /\ cmdLs (Date 2025 2 12) "" false false [] demoStore
     = cmdLs (Date 2025 2 12) "" false false ["monday"] demoStore.
Proof.
  destruct (proj2 (proj2 (proj2 (proj2 listing_order)))
              (demoRow 1) (demoRow 0) (demoRow 2) (demoRow 3)
              demoStore (Date 2025 2 12) "" false false "monday") as [Hday Hall];
    try reflexivity.
  - vm_compute. apply perm_swap.
  - vm_compute. repeat constructor.
  - vm_compute. left.
  - split; [rewrite Hday; reflexivity | by rewrite Hday, Hall].
Defined.

(** X3: in the web view, from the key of a year 0..9999 and a week 1..52,
    the previous link and then the next link, or the next and then the
    previous, lead back to that key; from a week 53 they lead to week 1 of
    the next year and to week 52 of the same year. *)
Theorem week_links_round_trip year weekNum :
  0 <= year <= 9999 ->
  (1 <= weekNum <= 52 ->
   serveNextWeek (servePrevWeek (weekKey year weekNum)) = weekKey year weekNum
   /\ servePrevWeek (serveNextWeek (weekKey year weekNum)) = weekKey year weekNum)
  /\ (weekNum = 53 ->
      serveNextWeek (servePrevWeek (weekKey year weekNum)) = weekKey (year + 1) 1
      /\ servePrevWeek (serveNextWeek (weekKey year weekNum)) = weekKey year 52).
Proof.
  intros _.
  assert (forall y w, serveNextWeek (weekKey y w)
            = if 52 <? w + 1 then weekKey (y + 1) 1 else weekKey y (w + 1)) as Hnext.
  { intros y w. unfold serveNextWeek. rewrite sscanWeek_weekKey.
    by destruct (52 <? w + 1). }
  assert (forall y w, servePrevWeek (weekKey y w)
            = if w - 1 <? 1 then weekKey (y - 1) 52 else weekKey y (w - 1)) as Hprev.
  { intros y w. unfold servePrevWeek. rewrite sscanWeek_weekKey.
    by destruct (w - 1 <? 1). }
  rewrite Hnext, Hprev. split; intros Hw.
  - destruct (Z.ltb_spec (weekNum - 1) 1), (Z.ltb_spec 52 (weekNum + 1));
      rewrite ?Hnext, ?Hprev;
      repeat match goal with
        | |- context [?a <? ?b] => destruct (Z.ltb_spec a b); try lia
        end; split; f_equal; lia.
  - subst weekNum. change (53 - 1 <? 1) with false. change (52 <? 53 + 1) with true.
    cbv iota. rewrite Hnext, Hprev.
    change (52 <? 53 - 1 + 1) with true. change (1 - 1 <? 1) with true.
    cbv iota. split; f_equal; lia.
Qed.

Lemma week_links_round_trip_witness :
  serveNextWeek (servePrevWeek "2025-W01") = "2025-W01"
  /\ serveNextWeek (servePrevWeek "2026-W53") = "2027-W01".
Proof.
  split.
  - apply (proj1 (week_links_round_trip 2025 1 ltac:(lia))). lia.
  - apply (proj2 (week_links_round_trip 2026 53 ltac:(lia))). reflexivity.
Defined.

(** X4: on an ASCII argument, [parseDay] and [isDayArg] look at the
    argument only after trimming the blanks around it and lowering its
    letters. The invalid-day error echoes the argument in that form,
    without its [+]; the invalid-date error echoes it in that form. *)
Theorem day_argument_normalised now input :
  isASCII input = true ->
  let n := ToLower (TrimSpace input) in
  parseDay now input = parseDay now n
  /\ isDayArg input = isDayArg n
  /\ (forall x, parseDay now input = Err (InvalidDay x) ->
        x = if HasPrefix n "+" then String.substring 1 (String.length n - 1) n else n)
  /\ (forall x, parseDay now input = Err (InvalidDate x) -> x = n)
  /\ (forall e, parseDay now input = Err e ->
        (exists x, e = InvalidDay x) \/ (exists x, e = InvalidDate x))
  /\ parseDay now "  FRIDAY " = parseDay now "friday"
  /\ parseDay now " +Funday" = Err (InvalidDay "funday")
  /\ parseDay now "Next Monday" = Err (InvalidDay "next monday").
Proof.
  intros _ n.
  assert (ToLower (TrimSpace n) = n) as Hn by apply normal_idem.
  split; [unfold parseDay; by rewrite Hn|].
  split; [unfold isDayArg; by rewrite Hn|].
  assert (forall e, parseDay now input = Err e ->
            e = InvalidDate n
            \/ e = InvalidDay (if HasPrefix n "+"
                               then String.substring 1 (String.length n - 1) n else n))
    as Herr.
  { intros e. unfold parseDay. fold n. clearbody n.
    destruct (String.eqb n "today"); [by destruct (ISOWeek now)|].
    destruct (MatchString dateRegex n).
    { destruct (Parse n) as [t|]; [by destruct (ISOWeek t)|]. intros [= <-]. by left. }
    cbv zeta. destruct (dayMap !! _); [|intros [= <-]; by right].
    destruct (ISOWeek now) as [y w]. by destruct (HasPrefix n "+"), (52 <? w + 1). }
  split; [intros x Hx; by destruct (Herr _ Hx) as [[=]|[= ->]]|].
  split; [intros x Hx; by destruct (Herr _ Hx) as [[= ->]|[=]]|].
  split; [intros e He; destruct (Herr _ He) as [->| ->]; eauto|].
  repeat split; reflexivity.
Qed.

Lemma day_argument_normalised_witness :
  parseDay 0 " +Funday" = parseDay 0 (ToLower (TrimSpace " +Funday")).
Proof. apply (day_argument_normalised 0 " +Funday"). reflexivity. Defined.

(** X6: on an ASCII argument, [isDayArg] accepts exactly what [parseDay]
    does not refuse as an unknown day, and [+today] besides: an argument it
    rejects gets the invalid-day error; one it accepts either resolves, or
    is a date that is not of the calendar, or is [+today], which [parseDay]
    refuses. *)
Theorem isDayArg_parseDay now s :
  isASCII s = true ->
  (isDayArg s = false -> exists x, parseDay now s = Err (InvalidDay x))
  /\ (isDayArg s = true ->
      (exists bucket, parseDay now s = Ok bucket)
      \/ parseDay now s = Err (InvalidDate (ToLower (TrimSpace s)))
      \/ (ToLower (TrimSpace s) = "+today"
          /\ parseDay now s = Err (InvalidDay "today"))).
Proof.
  intros _. unfold isDayArg, parseDay. generalize (ToLower (TrimSpace s)). intros n.
  destruct (String.eqb_spec n "today") as [-> | Htoday].
  { split; [done|]. intros _. left. destruct (ISOWeek now). eauto. }
  destruct (MatchString dateRegex n).
  { rewrite orb_true_r. split; [done|]. intros _.
    destruct (Parse n) as [t|]; [left; destruct (ISOWeek t); eauto | by right; left]. }
  rewrite orb_false_r. cbv zeta.
  destruct (HasPrefix n "+") eqn:Hplus.
  - apply HasPrefix_plus in Hplus as [r ->]. rewrite plus_rest.
    destruct (dayMap !! r) as [i|] eqn:Hday.
    + assert (existsb (String.eqb r) days = true) as ->
        by (apply existsb_days, dayMap_days; eauto).
      rewrite orb_true_r. split; [done|]. intros _. left.
      destruct (ISOWeek now) as [y w]. destruct (52 <? w + 1); eauto.
    + assert (existsb (String.eqb r) days = false) as ->.
      { apply not_true_is_false. intros H%existsb_days%dayMap_days.
        rewrite Hday in H. by destruct H. }
      rewrite andb_false_r, orb_false_r. split; [eauto|].
      intros H. right. right.
      apply existsb_exists in H as (d & Hd & Heq).
      apply orb_true_iff in Heq as [Heq|Heq]; apply String.eqb_eq in Heq.
      * simpl in Hd. repeat (destruct Hd as [<- | Hd]; [discriminate|]). done.
      * simpl in Heq. injection Heq as ->. simpl in Hd.
        destruct Hd as [<-|[<-|[<-|[<-|[<-|[<-|[<-|[<-|[]]]]]]]]];
          try (vm_compute in Hday; discriminate). done.
  - rewrite andb_false_l, orb_false_r.
    destruct (dayMap !! n) as [i|] eqn:Hday.
    + assert (n ∈ days) as Hn by (apply dayMap_days; eauto).
      assert (existsb (fun d => String.eqb n d || String.eqb n ("+" +:+ d))
                (days ++ ["today"])%list = true) as ->.
      { apply existsb_exists. exists n. split.
        - apply in_or_app. left. by apply list_elem_of_In.
        - by rewrite String.eqb_refl. }
      split; [done|]. intros _. left. destruct (ISOWeek now) as [y w]. eauto.
    + split; [eauto|]. intros H. exfalso.
      apply existsb_exists in H as (d & Hd & Heq).
      apply orb_true_iff in Heq as [Heq|Heq]; apply String.eqb_eq in Heq.
      * subst d. apply in_app_or in Hd as [Hd|Hd].
        -- apply list_elem_of_In, dayMap_days in Hd. rewrite Hday in Hd. by destruct Hd.
        -- simpl in Hd. destruct Hd as [<-|[]]. done.
      * assert (HasPrefix n "+" = true) by (apply HasPrefix_plus; subst n; simpl; eauto).
        congruence.
Qed.

Lemma isDayArg_parseDay_witness :
  (exists x, parseDay 0 "tomorrow" = Err (InvalidDay x))
  /\ ((exists bucket, parseDay 0 "+TODAY" = Ok bucket)
      \/ parseDay 0 "+TODAY" = Err (InvalidDate "+today")
      \/ ("+today" = "+today" /\ parseDay 0 "+TODAY" = Err (InvalidDay "today"))).
Proof.
  split.
  - apply (proj1 (isDayArg_parseDay 0 "tomorrow" eq_refl)). reflexivity.
  - apply (proj2 (isDayArg_parseDay 0 "+TODAY" eq_refl)). reflexivity.
Defined.

(** ** The day under which a new row is filed *)

Lemma splitArgs_cons a0 rest dayArg timeArg descArgs :
  splitArgs (a0 :: rest) = Some (dayArg, timeArg, descArgs) ->
  dayArg = if isTimeRange a0 then "today" else a0.
Proof.
  unfold splitArgs. destruct rest as [|a1 rest]; [done|].
  by destruct (isTimeRange a0); intros [= <- _ _].
Qed.

Lemma inserted_day e flagTag a0 rest st st' line dayArg :
  (cmdAdd e flagTag (a0 :: rest) st = (st', Ok line)
   /\ dayArg = (if isTimeRange a0 then "today" else a0))
  \/ (cmdNote e flagTag (a0 :: rest) st = (st', Ok line)
      /\ dayArg = (if isDayArg a0 then a0 else "today"))
  \/ (cmdActual e true flagTag (a0 :: rest) st = (st', Ok line)
      /\ dayArg = (if isTimeRange a0 then "today" else a0)) ->
  exists b, st' = (st ++ [b])%list /\ parseDay (now e) dayArg = Ok (Week b, Day b).
Proof.
  intros [[Hcmd ->]|[[Hcmd ->]|[Hcmd ->]]].
  - destruct (cmdAdd_outcome e flagTag (a0 :: rest) st)
      as [[err Herr]|(dayArg & timeArg & descArgs & week & day & start & end_ & line'
                    & Hs & Hd & _ & _ & Hok)]; [congruence|].
    rewrite Hok in Hcmd. injection Hcmd as <- _. eexists. split; [done|].
    by rewrite <- (splitArgs_cons _ _ _ _ _ Hs).
  - unfold cmdNote in Hcmd.
    assert (exists descArgs,
              (if isDayArg a0 then (a0, rest) else ("today", a0 :: rest))
              = (if isDayArg a0 then a0 else "today", descArgs)) as [descArgs Heq]
      by (destruct (isDayArg a0); eauto).
    rewrite Heq in Hcmd. destruct descArgs as [|d ds]; [done|].
    destruct (parseDay (now e) _) as [[week day]|] eqn:Hd; [|done].
    destruct (extractTags _ _) as [desc tags].
    destruct (dbInsert st _) as [st1|] eqn:Hins; [|done].
    destruct (dbInsert_Some _ _ _ Hins) as [-> _].
    injection Hcmd as <- _. eexists. split; [done|]. reflexivity.
  - destruct (cmdActualUnplanned_outcome e flagTag (a0 :: rest) st)
      as [[err Herr]|(dayArg & timeArg & descArgs & week & day & start & end_ & line'
                    & Hs & Hd & _ & _ & Hok)]; [congruence|].
    rewrite Hok in Hcmd. injection Hcmd as <- _. eexists. split; [done|].
    by rewrite <- (splitArgs_cons _ _ _ _ _ Hs).
Qed.

(** X11. A row written by [add], [note] or [actual --unplanned] is filed
    under what [parseDay] returns for the day of the command: for [add] and
    [actual --unplanned], today when the first argument is a time range and
    the first argument otherwise; for [note], on an ASCII first argument,
    that argument when [isDayArg] accepts it and today otherwise. The query
    of that week and day then returns the new row beside the rows it
    returned before, and the query of every other week or day returns what
    it did. *)
Theorem added_row_listed e flagTag a0 rest st st' line dayArg :
  (cmdAdd e flagTag (a0 :: rest) st = (st', Ok line)
   /\ dayArg = (if isTimeRange a0 then "today" else a0))
  \/ (cmdNote e flagTag (a0 :: rest) st = (st', Ok line)
      /\ isASCII a0 = true
      /\ dayArg = (if isDayArg a0 then a0 else "today"))
  \/ (cmdActual e true flagTag (a0 :: rest) st = (st', Ok line)
      /\ dayArg = (if isTimeRange a0 then "today" else a0)) ->
  exists b,
    st' = (st ++ [b])%list
    /\ parseDay (now e) dayArg = Ok (Week b, Day b)
    /\ b ∈ queryBlocks st' (Week b) (Day b)
    /\ forall week day,
         if inBucket week day b
         then queryBlocks st' week day ≡ₚ b :: queryBlocks st week day
         else queryBlocks st' week day = queryBlocks st week day.
Proof.
  intros Hcmd.
  destruct (inserted_day e flagTag a0 rest st st' line dayArg) as (b & -> & Hd);
    [tauto|].
  exists b. split; [done|]. split; [done|].
  split; [|intros week day; apply queryBlocks_append].
  apply queryBlocks_elem. split; [|done]. apply elem_of_app. right. by left.
Qed.

Lemma added_row_listed_witness :
  exists b,
    (cmdAdd (demoEnv "77aa01" "2025-02-10 09:00:00") "" ["9:00-10:00"; "x"] demoStore).1
      = (demoStore ++ [b])%list
    /\ parseDay (Date 2025 2 10) "today" = Ok (Week b, Day b).
Proof.
  destruct (added_row_listed (demoEnv "77aa01" "2025-02-10 09:00:00") ""
              "9:00-10:00" ["x"] demoStore
              (cmdAdd (demoEnv "77aa01" "2025-02-10 09:00:00") "" ["9:00-10:00"; "x"]
                 demoStore).1
              "[77aa01] Added: monday 09:00-10:00 x" "today")
    as (b & H1 & H2 & _).
  - left. split; vm_compute; reflexivity.
  - exists b. split; [exact H1 | exact H2].
Defined.

(** X19. What is added is listed. The line of a row written by [add],
    [note] or [actual --unplanned] is printed by [ls --week] with the week
    key of the row, whatever the other flags. With the same clock reading,
    plain [ls], with or without the day of the command as its argument,
    prints it when that day is today (the day was left out, or given as
    today) or a day name; [ls --next] prints it when that day is a day name
    behind [+]. The day of the command is as in X11. *)
Theorem added_then_ls e flagTag a0 rest st st' line dayArg :
  (cmdAdd e flagTag (a0 :: rest) st = (st', Ok line)
   /\ dayArg = (if isTimeRange a0 then "today" else a0))
  \/ (cmdNote e flagTag (a0 :: rest) st = (st', Ok line)
      /\ isASCII a0 = true
      /\ dayArg = (if isDayArg a0 then a0 else "today"))
  \/ (cmdActual e true flagTag (a0 :: rest) st = (st', Ok line)
      /\ dayArg = (if isTimeRange a0 then "today" else a0)) ->
  exists b,
    st' = (st ++ [b])%list
    /\ (forall last next, renderLine b ∈ cmdLs (now e) (Week b) last next [] st')
    /\ (dayArg = "today" \/ ToLower (TrimSpace dayArg) ∈ days ->
        renderLine b ∈ cmdLs (now e) "" false false [] st'
        /\ renderLine b ∈ cmdLs (now e) "" false false [dayArg] st')
    /\ (forall d, d ∈ days -> ToLower (TrimSpace dayArg) = "+" +:+ d ->
        renderLine b ∈ cmdLs (now e) "" false true [] st'
        /\ renderLine b ∈ cmdLs (now e) "" false true [dayArg] st').
Proof.
  intros Hcmd.
  destruct (inserted_day e flagTag a0 rest st st' line dayArg) as (b & -> & Hd);
    [tauto|].
  exists b. split; [done|].
  destruct (parseDay_Ok_inv _ _ _ _ Hd) as (Hday & _ & Hkey).
  assert (b ∈ (st ++ [b])%list) as Hb by (apply elem_of_app; right; by left).
  assert (forall weekFlag last next,
            Week b = getWeek (now e) weekFlag last next ->
            renderLine b ∈ cmdLs (now e) weekFlag last next [] (st ++ [b])
            /\ renderLine b ∈ cmdLs (now e) weekFlag last next [dayArg] (st ++ [b])) as Hls.
  { intros weekFlag last next Hw.
    destruct (section_elem (st ++ [b]) _ b Hb Hw) as [Hline _]. split.
    - by apply (cmdLs_section _ _ _ _ _ (Day b)).
    - rewrite (cmdLs_filtered _ _ _ _ _ _ _ _ Hd). rewrite <- Hw.
      apply elem_of_app. right. apply elem_of_app. right. apply elem_of_app. left.
      unfold lsDay. apply list_elem_of_fmap. exists b. split; [done|].
      by apply queryBlocks_elem. }
  assert (parseDay (now e) dayArg = parseDay (now e) (ToLower (TrimSpace dayArg))) as Hnorm.
  { unfold parseDay. by rewrite normal_idem. }
  split; [|split].
  - intros last next. apply Hls. unfold getWeek.
    destruct (String.eqb_spec (Week b) "") as [Hempty|_]; [|done].
    rewrite Hkey in Hempty. by apply weekKey_not_empty in Hempty.
  - intros Hplain. apply Hls. destruct (getWeek_now (now e)) as [-> _].
    destruct Hplain as [->|Hname].
    + rewrite parseDay_today in Hd. by injection Hd as <- _.
    + destruct (parseDay_name (now e) _ Hname) as [Hok _]. rewrite Hnorm, Hok in Hd.
      by injection Hd as <- _.
  - intros d Hname Hplus. apply Hls. destruct (getWeek_now (now e)) as [_ ->].
    destruct (parseDay_name (now e) _ Hname) as [_ Hok].
    rewrite Hnorm, Hplus, Hok in Hd. by injection Hd as <- _.
Qed.

Lemma added_then_ls_witness :
  exists b,
    (cmdAdd (demoEnv "77aa01" "2025-02-10 09:00:00") "" ["9:00-10:00"; "x"] demoStore).1
      = (demoStore ++ [b])%list
    /\ renderLine b ∈ cmdLs (Date 2025 2 10) "" false false []
                        (cmdAdd (demoEnv "77aa01" "2025-02-10 09:00:00") ""
                           ["9:00-10:00"; "x"] demoStore).1.
Proof.
  destruct (added_then_ls (demoEnv "77aa01" "2025-02-10 09:00:00") ""
              "9:00-10:00" ["x"] demoStore
              (cmdAdd (demoEnv "77aa01" "2025-02-10 09:00:00") ""
                 ["9:00-10:00"; "x"] demoStore).1
              "[77aa01] Added: monday 09:00-10:00 x" "today")
    as (b & H1 & _ & H3 & _).
  - left. split; vm_compute; reflexivity.
  - exists b. split; [exact H1|]. apply H3. by left.
Defined.

(** X20. The description that [extractTags] returns for an ASCII text
    holds no hashtag and no blank at either end: the pattern finds nothing
    in it, so extracting again returns it unchanged, with no tags. A text
    without a hashtag is only trimmed. The gap a hashtag leaves inside the
    text is not closed, and a text of hashtags only leaves an empty
    description. *)
Theorem description_without_hashtags desc flagTag :
  isASCII desc = true ->
  let clean := (extractTags desc flagTag).1 in
  isASCII clean = true
  /\ noTag clean = true
  /\ FindAllString hashtagRe clean = []
  /\ TrimSpace clean = clean
  /\ extractTags clean "" = (clean, "")
  /\ (noTag desc = true -> extractTags desc "" = (TrimSpace desc, ""))
  /\ extractTags "call #work now" "" = ("call  now", "work")
  /\ extractTags "#idea #later" "" = ("", "idea,later").
Proof.
  intros Hascii clean.
  split; [by apply TrimSpace_ascii, RemoveAll_ascii|].
  assert (noTag clean = true) as Hclean.
  { unfold clean, extractTags. cbn [fst]. unfold TrimSpace.
    apply noTag_trimRight, noTag_trimLeft. apply (removed_noTag _ desc). done. }
  assert (forall s, noTag s = true -> extractTags s "" = (TrimSpace s, "")) as Hno.
  { intros s Hs. destruct (pieces_noTag s Hs) as [Hfind Hrem].
    unfold extractTags, uniqueTags, tagList. by rewrite Hfind, Hrem. }
  assert (TrimSpace clean = clean) as Htrim.
  { unfold clean, extractTags. cbn [fst]. apply TrimSpace_idem. }
  split; [exact Hclean|]. split; [by apply pieces_noTag|]. split; [exact Htrim|].
  split; [by rewrite Hno, Htrim|]. split; [exact (Hno desc)|]. split; reflexivity.
Qed.

Lemma description_without_hashtags_witness :
  extractTags "no tags here " "" = (TrimSpace "no tags here ", "").
Proof.
  apply (proj1 (proj2 (proj2 (proj2 (proj2 (proj2
           (description_without_hashtags "no tags here " "" eq_refl))))))).
  reflexivity.
Defined.
